(** * Urban Issue Reporting Platform: lifecycle, notification and broadcast core

    A shallow embedding of the server-side JavaScript of the platform:
    - [models/Issue.js]: the issue document, its schema enums and the
      methods [addTimelineEntry], [updateStatus], [assignIssue];
    - [models/Notification.js]: [createNotification], the read state and
      the comment model;
    - [middleware/auth.js]: [authenticate], [authorize], [rateLimit] and
      the other middlewares;
    - [utils/socket.js]: the module-level [io] handle, the connection
      middleware and handler, the events a socket relays, the emit helpers
      and [getConnectedUsers];
    - [routes/issues.js]: the handlers of [POST /], [PATCH /:id/status],
      [PATCH /:id/assign], [POST /:id/upvote] and [DELETE /:id].

    Conventions.  JavaScript strings are [string]; an ObjectId is the string
    its [toString()] gives; a [Date] is the number of milliseconds since the
    epoch, in [Z]; a JavaScript [Number] that only ever counts is in [Z]; a
    value that may be [undefined] or [null] is an [option]; a [Map] is a
    [gmap]; an array is a [list].  A function that can throw returns a
    [Completion].  Handlers pass the server state explicitly and return the
    HTTP response together with the new state. *)

From Stdlib Require Import ZArith String List Bool Lia.
From stdpp Require Import base option list strings pretty gmap.

Local Open Scope Z_scope.
Local Open Scope string_scope.
Local Open Scope list_scope.

(** ** JavaScript values and array helpers *)

Abbreviation ObjectId := string.
Abbreviation Date := Z.

(** Outcome of evaluating code that may throw (or of awaiting a promise that
    may reject). *)
Inductive Completion (A : Type) : Type :=
| Returned (a : A)
| Threw (name : string).
Arguments Returned {A} a.
Arguments Threw {A} name.

(** Truthiness of a string: only the empty string is falsy. *)
Definition truthy (s : string) : bool := negb (String.eqb s "").

(** [a || b] on possibly-undefined strings. *)
Definition orElse (a b : option string) : option string :=
  match a with
  | Some s => if truthy s then Some s else b
  | None => b
  end.

(** [Array.prototype.includes] on strings. *)
Definition includes (l : list string) (s : string) : bool :=
  existsb (String.eqb s) l.

(** [Array.prototype.findIndex]: the index of the first element that
    satisfies [p], [-1] when there is none. *)
Fixpoint findIndexFrom {A : Type} (p : A -> bool) (i : Z) (l : list A) : Z :=
  match l with
  | [] => -1
  | x :: l' => if p x then i else findIndexFrom p (i + 1) l'
  end.

Definition findIndex {A : Type} (p : A -> bool) (l : list A) : Z :=
  findIndexFrom p 0 l.

(** [arr.splice(i, 1)] for an index [i >= 0]: the element at [i] is removed,
    nothing happens when [i] is past the end. *)
Definition splice1 {A : Type} (i : Z) (l : list A) : list A :=
  take (Z.to_nat i) l ++ drop (S (Z.to_nat i)) l.

(** [String.prototype.replace(pat, "")] with a string pattern: the first
    occurrence of [pat] is removed. *)
Fixpoint removeFirst (pat s : string) : string :=
  if String.prefix pat s then
    String.substring (String.length pat) (String.length s - String.length pat) s
  else
    match s with
    | EmptyString => EmptyString
    | String c s' => String c (removeFirst pat s')
    end.

(** ** Documents *)

(** Enumerations of the schemas ([models/Issue.js], [models/User.js]). *)
Definition statusEnum : list string :=
  ["submitted"; "acknowledged"; "in_progress"; "under_review";
   "resolved"; "closed"; "rejected"].

Definition categoryEnum : list string :=
  ["roads"; "water"; "garbage"; "streetlights"; "drainage"; "parks";
   "buildings"; "traffic"; "noise"; "other"].

Definition timelineActionEnum : list string :=
  ["created"; "acknowledged"; "assigned"; "in_progress"; "under_review";
   "resolved"; "closed"; "rejected"; "comment_added"; "priority_changed"].

(** The free-form [metadata] of a timeline entry, one constructor per shape
    the code writes. *)
Inductive Metadata : Type :=
| MetaEmpty
| MetaStatus (oldStatus newStatus notes : string)
| MetaAssign (assignedUser : option ObjectId) (department : string)
| MetaUpdated (updatedFields : list string).

Record TimelineEntry : Type := mkTimelineEntry {
  action : string;
  description : string;
  performedBy : ObjectId;
  timestamp : Date;            (* default: Date.now *)
  metadata : Metadata
}.

Record Upvote : Type := mkUpvote {
  upvote_user : ObjectId;      (* upvotes[i].user *)
  upvote_timestamp : Date      (* upvotes[i].timestamp, default: Date.now *)
}.

Record Assignment : Type := mkAssignment {
  assigned_user : option ObjectId;
  assigned_department : string;
  assignedAt : Date
}.

(** [new Date(x)] may be an Invalid Date, which the schema refuses on save. *)
Inductive DateValue : Type :=
| ValidDate (t : Date)
| InvalidDate.

Record Issue : Type := mkIssue {
  issue_id : ObjectId;                           (* _id *)
  title : string;
  category : string;
  priority : string;
  status : string;
  reportedBy : ObjectId;
  assignedTo : option Assignment;
  timeline : list TimelineEntry;
  estimatedResolutionTime : option DateValue;
  actualResolutionTime : option Date;
  upvotes : list Upvote
}.

Record User : Type := mkUser {
  user_id : ObjectId;                            (* _id *)
  firstName : string;
  lastName : string;
  role : string;
  department : string;
  isActive : bool;
  issuesReported : Z;                            (* stats.issuesReported *)
  contributionScore : Z                          (* stats.contributionScore *)
}.

Record Notification : Type := mkNotification {
  recipient : ObjectId;
  sender : option ObjectId;
  type : string;
  notification_title : string;                   (* title *)
  message : string;
  relatedIssue : option ObjectId;
  notification_priority : string;                (* priority, default medium *)
  actionUrl : string;
  actionText : string
}.

(** ** models/Issue.js *)

Module IssueModel.

Definition set_timeline (i : Issue) (tl : list TimelineEntry) : Issue :=
  mkIssue (issue_id i) (title i) (category i) (priority i) (status i)
          (reportedBy i) (assignedTo i) tl (estimatedResolutionTime i)
          (actualResolutionTime i) (upvotes i).

Definition set_status (i : Issue) (s : string) : Issue :=
  mkIssue (issue_id i) (title i) (category i) (priority i) s
          (reportedBy i) (assignedTo i) (timeline i)
          (estimatedResolutionTime i) (actualResolutionTime i) (upvotes i).

Definition set_actualResolutionTime (i : Issue) (t : option Date) : Issue :=
  mkIssue (issue_id i) (title i) (category i) (priority i) (status i)
          (reportedBy i) (assignedTo i) (timeline i)
          (estimatedResolutionTime i) t (upvotes i).

Definition set_estimatedResolutionTime (i : Issue) (t : option DateValue)
  : Issue :=
  mkIssue (issue_id i) (title i) (category i) (priority i) (status i)
          (reportedBy i) (assignedTo i) (timeline i) t
          (actualResolutionTime i) (upvotes i).

Definition set_assignedTo (i : Issue) (a : option Assignment) : Issue :=
  mkIssue (issue_id i) (title i) (category i) (priority i) (status i)
          (reportedBy i) a (timeline i) (estimatedResolutionTime i)
          (actualResolutionTime i) (upvotes i).

Definition set_upvotes (i : Issue) (u : list Upvote) : Issue :=
  mkIssue (issue_id i) (title i) (category i) (priority i) (status i)
          (reportedBy i) (assignedTo i) (timeline i)
          (estimatedResolutionTime i) (actualResolutionTime i) u.

(** [addTimelineEntry(action, description, performedBy, metadata = {})]:
    [this.timeline.push({...})]; the entry's timestamp defaults to the
    clock, [now]. *)
Definition addTimelineEntry (now : Date) (act descr : string)
    (by_ : ObjectId) (meta : Metadata) (i : Issue) : Issue :=
  set_timeline i (timeline i ++ [mkTimelineEntry act descr by_ now meta]).

(** The description template of [updateStatus]. *)
Definition statusDescription (oldStatus newStatus notes : string) : string :=
  "Status changed from " +:+ oldStatus +:+ " to " +:+ newStatus
    +:+ (if truthy notes then ": " +:+ notes else "").

(** [updateStatus(newStatus, performedBy, notes = '')]. *)
Definition updateStatus (now : Date) (newStatus : string) (by_ : ObjectId)
    (notes : string) (i : Issue) : Issue :=
  let oldStatus := status i in
  let i1 := set_status i newStatus in
  let i2 := addTimelineEntry now newStatus
              (statusDescription oldStatus newStatus notes) by_
              (MetaStatus oldStatus newStatus notes) i1 in
  if String.eqb newStatus "resolved"
  then set_actualResolutionTime i2 (Some now)
  else i2.

(** [assignIssue(assignedUser, department, performedBy)]. *)
Definition assignIssue (now : Date) (assignedUser : option ObjectId)
    (dept : string) (by_ : ObjectId) (i : Issue) : Issue :=
  let i1 := set_assignedTo i (Some (mkAssignment assignedUser dept now)) in
  addTimelineEntry now "assigned"
    ("Issue assigned to " +:+ dept +:+ " department") by_
    (MetaAssign assignedUser dept) i1.

(** A [Date] path accepts a missing value and a valid date. *)
Definition validDate (d : option DateValue) : bool :=
  match d with
  | Some InvalidDate => false
  | _ => true
  end.

(** What [save()] validates of an issue: every path of the document is
    checked against the schema, so an entry of [timeline] whose [action]
    is outside the schema's enum, or a date that is an Invalid Date, makes
    the save reject with a ValidationError. *)
Definition schemaValid (i : Issue) : bool :=
  includes statusEnum (status i)
  && includes categoryEnum (category i)
  && forallb (fun e => includes timelineActionEnum (action e)) (timeline i)
  && validDate (estimatedResolutionTime i).

(** The ways the application writes to an issue document after it is
    built: the two direct calls of [addTimelineEntry] in the routes (the
    "created" entry of [POST /], the "updated" entry of [PUT /:id]) and
    the methods [updateStatus] and [assignIssue]. *)
Inductive Op : Type :=
| OpCreated (now : Date) (by_ : ObjectId)
| OpUpdated (now : Date) (by_ : ObjectId) (updatedFields : list string)
| OpUpdateStatus (now : Date) (newStatus : string) (by_ : ObjectId)
                 (notes : string)
| OpAssignIssue (now : Date) (assignedUser : option ObjectId)
                (dept : string) (by_ : ObjectId).

Definition apply (o : Op) (i : Issue) : Issue :=
  match o with
  | OpCreated now by_ =>
      addTimelineEntry now "created" "Issue reported by citizen" by_
        MetaEmpty i
  | OpUpdated now by_ fields =>
      addTimelineEntry now "updated" "Issue details updated" by_
        (MetaUpdated fields) i
  | OpUpdateStatus now s by_ notes => updateStatus now s by_ notes i
  | OpAssignIssue now u d by_ => assignIssue now u d by_ i
  end.

Definition run (ops : list Op) (i : Issue) : Issue :=
  fold_left (fun acc o => apply o acc) ops i.

(** The entry that [updateStatus] writes for a change from [oldStatus]
    to [newStatus]. *)
Definition statusEntry (now : Date) (oldStatus newStatus : string)
    (by_ : ObjectId) (notes : string) : TimelineEntry :=
  mkTimelineEntry newStatus (statusDescription oldStatus newStatus notes)
                  by_ now (MetaStatus oldStatus newStatus notes).

(** The entry an operation writes on an issue whose status is [st], and
    the status it leaves. *)
Definition entryOf (o : Op) (st : string) : TimelineEntry :=
  match o with
  | OpCreated now by_ =>
      mkTimelineEntry "created" "Issue reported by citizen" by_ now
                      MetaEmpty
  | OpUpdated now by_ fields =>
      mkTimelineEntry "updated" "Issue details updated" by_ now
                      (MetaUpdated fields)
  | OpUpdateStatus now s by_ notes => statusEntry now st s by_ notes
  | OpAssignIssue now u d by_ =>
      mkTimelineEntry "assigned"
                      ("Issue assigned to " +:+ d +:+ " department") by_
                      now (MetaAssign u d)
  end.

Definition statusAfter (o : Op) (st : string) : string :=
  match o with
  | OpUpdateStatus _ s _ _ => s
  | _ => st
  end.

Fixpoint entriesOf (ops : list Op) (st : string) : list TimelineEntry :=
  match ops with
  | [] => []
  | o :: ops' => entryOf o st :: entriesOf ops' (statusAfter o st)
  end.

(** A status transition as the timeline records it. *)
Definition Transition : Type := (string * string * string)%type.

(** The transitions a timeline records, oldest first. *)
Definition statusChanges (tl : list TimelineEntry) : list Transition :=
  omap (fun e => match metadata e with
                 | MetaStatus o n notes => Some (o, n, notes)
                 | _ => None
                 end) tl.

(** The transitions a sequence of operations applies to an issue whose
    status is [st], in the order of application. *)
Fixpoint transitionsOf (ops : list Op) (st : string) : list Transition :=
  match ops with
  | [] => []
  | OpUpdateStatus _ s _ notes :: ops' =>
      (st, s, notes) :: transitionsOf ops' s
  | _ :: ops' => transitionsOf ops' st
  end.

End IssueModel.

(** ** What the program takes from its libraries

    [jsonwebtoken], [mongoose]'s ObjectId cast, [express-validator]'s [trim]
    sanitizer and the [Date] constructor are not part of the repository; the
    code is verified for every behaviour of theirs. *)
Class Platform : Type := {
  (** [jwt.verify(token, secret)]: the [id] of the decoded payload, or the
      error thrown ([JsonWebTokenError], [TokenExpiredError]). *)
  jwtVerify : string -> Completion ObjectId;
  (** Whether a string casts to an ObjectId ([findById] throws a
      [CastError] when it does not). *)
  isObjectId : string -> bool;
  (** The [trim()] sanitizer. *)
  trim : string -> string;
  (** [new Date(s)]. *)
  newDate : string -> DateValue;
  (** What [await doc.populate(...).populate(...)] does before it reads
      anything: in mongoose 5 [populate] returns the document and the
      chain returns; from mongoose 6 on it returns a promise, which has no
      [populate], and the second call throws a [TypeError]. *)
  populateChain : Completion unit
}.

(** ** Server state *)

(** What a socket emission carries. *)
Record NotificationLike : Type := mkNotificationLike {
  like_recipient : option ObjectId;      (* notification.recipient *)
  like_type : string;                    (* notification.type *)
  like_department : option string        (* notification.department *)
}.

Inductive Payload : Type :=
| PayloadNotification (n : Notification)
| PayloadObject (o : NotificationLike)
| PayloadData (json : string).

Record Emission : Type := mkEmission {
  to_room : option string;               (* None: io.emit, to everyone *)
  event : string;
  payload : Payload
}.

Record Socket : Type := mkSocket {
  socket_id : string;                    (* socket.id *)
  socket_userId : option ObjectId;       (* socket.userId *)
  socket_user : option User;             (* socket.user *)
  rooms : gset string                    (* socket.rooms *)
}.

(** The socket server: [io.sockets.sockets] in insertion order, and the
    emissions made so far, oldest first. *)
Record IoServer : Type := mkIoServer {
  sockets : list Socket;
  emitted : list Emission
}.

(** The collections of the database and the module-level [io] handle of
    [utils/socket.js] ([let io = null]). *)
Record Server : Type := mkServer {
  io : option IoServer;
  issues : gmap string Issue;
  users : gmap string User;
  notifications : list Notification
}.

Definition set_io (s : Server) (h : option IoServer) : Server :=
  mkServer h (issues s) (users s) (notifications s).

Definition set_issues (s : Server) (m : gmap string Issue) : Server :=
  mkServer (io s) m (users s) (notifications s).

Definition set_users (s : Server) (m : gmap string User) : Server :=
  mkServer (io s) (issues s) m (notifications s).

Definition set_notifications (s : Server) (l : list Notification) : Server :=
  mkServer (io s) (issues s) (users s) l.

(** Writes that the database refuses for reasons outside the program. *)
Record Faults : Type := mkFaults {
  issueWriteFails : bool;
  userWriteFails : bool;
  notificationWriteFails : Notification -> bool
}.

Definition noFaults : Faults := mkFaults false false (fun _ => false).

(** [Model.findById(id)]: a [CastError] for a string that is no ObjectId,
    else the document or [null]. *)
Definition findById `{Platform} {A : Type} (m : gmap string A) (id : string)
  : Completion (option A) :=
  if isObjectId id then Returned (m !! id) else Threw "CastError".

(** ** utils/socket.js *)

Module Socket.

Record Handshake : Type := mkHandshake {
  auth_token : option string;          (* socket.handshake.auth.token *)
  authorization : option string        (* handshake.headers.authorization *)
}.

Record ConnectedUser : Type := mkConnectedUser {
  cu_id : option ObjectId;
  cu_name : string;
  cu_role : string;
  cu_department : string;
  cu_connectedAt : Date
}.

(** [initializeSocket(server)]: binds [io] to a fresh socket server. *)
Definition initializeSocket (s : Server) : Server :=
  set_io s (Some (mkIoServer [] [])).

Definition getIO (s : Server) : option IoServer := io s.

(** [socket.handshake.auth.token ||
    socket.handshake.headers.authorization?.replace('Bearer ', '')]. *)
Definition handshakeToken (h : Handshake) : option string :=
  orElse (auth_token h) (removeFirst "Bearer " <$> authorization h).

(** The [io.use] middleware: [inr (userId, user)] when it calls [next()],
    [inl message] when it calls [next(new Error(message))]. *)
Definition authMiddleware `{Platform} (s : Server) (h : Handshake)
  : string + (ObjectId * User) :=
  match handshakeToken h with
  | None => inl "Authentication token required"
  | Some tok =>
      if negb (truthy tok) then inl "Authentication token required"
      else
        match jwtVerify tok with
        | Threw _ => inl "Authentication failed"
        | Returned id =>
            match findById (users s) id with
            | Threw _ => inl "Authentication failed"
            | Returned None => inl "Invalid user"
            | Returned (Some user) =>
                if negb (isActive user) then inl "Invalid user"
                else inr (user_id user, user)
            end
        end
  end.

Definition join (room : string) (k : Socket) : Socket :=
  mkSocket (socket_id k) (socket_userId k) (socket_user k)
           ({[room]} ∪ rooms k).

Definition leave (room : string) (k : Socket) : Socket :=
  mkSocket (socket_id k) (socket_userId k) (socket_user k)
           (rooms k ∖ {[room]}).

(** The synchronous part of the ['connection'] handler: the room joins. *)
Definition onConnection (uid : ObjectId) (u : User) (k : Socket) : Socket :=
  let k1 := join ("user_" +:+ uid) k in
  let k2 := join ("role_" +:+ role u) k1 in
  if truthy (department u) && negb (String.eqb (department u) "general")
  then join ("dept_" +:+ department u) k2
  else k2.

Inductive ConnectResult : Type :=
| Connected
| Refused (message : string)
| NotListening.

(** A connection attempt of a client on a new socket [sid]: the
    middleware runs first; only when it calls [next()] is the socket
    registered (in its own room [sid]) and the ['connection'] handler
    run.  Otherwise the client receives the error and no socket exists. *)
Definition connect `{Platform} (sid : string) (h : Handshake) (s : Server)
  : ConnectResult * Server :=
  match io s with
  | None => (NotListening, s)
  | Some srv =>
      match authMiddleware s h with
      | inl msg => (Refused msg, s)
      | inr (uid, u) =>
          let k := onConnection uid u
                     (mkSocket sid (Some uid) (Some u) {[sid]}) in
          (Connected,
           set_io s (Some (mkIoServer (sockets srv ++ [k]) (emitted srv))))
      end
  end.

(** The ['join_issue'] and ['leave_issue'] handlers, which exist only on
    a socket that went through the ['connection'] handler. *)
Definition updateSocket (sid : string) (f : Socket -> Socket) (s : Server)
  : Server :=
  match io s with
  | None => s
  | Some srv =>
      set_io s (Some (mkIoServer
        (map (fun k => if String.eqb (socket_id k) sid then f k else k)
             (sockets srv))
        (emitted srv)))
  end.

Definition join_issue (sid issueId : string) (s : Server) : Server :=
  updateSocket sid (join ("issue_" +:+ issueId)) s.

Definition leave_issue (sid issueId : string) (s : Server) : Server :=
  updateSocket sid (leave ("issue_" +:+ issueId)) s.

(** The rooms a socket id is in; none when there is no such socket. *)
Definition roomsOf (sid : string) (s : Server) : gset string :=
  match io s with
  | None => ∅
  | Some srv =>
      match find (fun k => String.eqb (socket_id k) sid) (sockets srv) with
      | Some k => rooms k
      | None => ∅
      end
  end.

(** [io.to(room).emit(event, data)] and [io.emit(event, data)]. *)
Definition emit (room : option string) (ev : string) (data : Payload)
    (srv : IoServer) : IoServer :=
  mkIoServer (sockets srv) (emitted srv ++ [mkEmission room ev data]).

Definition emitToUser (userId ev : string) (data : Payload) (s : Server)
  : Completion unit * Server :=
  match io s with
  | Some srv =>
      (Returned tt, set_io s (Some (emit (Some ("user_" +:+ userId)) ev data srv)))
  | None => (Returned tt, s)
  end.

Definition emitToRole (r ev : string) (data : Payload) (s : Server)
  : Completion unit * Server :=
  match io s with
  | Some srv =>
      (Returned tt, set_io s (Some (emit (Some ("role_" +:+ r)) ev data srv)))
  | None => (Returned tt, s)
  end.

Definition emitToDepartment (d ev : string) (data : Payload) (s : Server)
  : Completion unit * Server :=
  match io s with
  | Some srv =>
      (Returned tt, set_io s (Some (emit (Some ("dept_" +:+ d)) ev data srv)))
  | None => (Returned tt, s)
  end.

Definition emitToIssue (issueId ev : string) (data : Payload) (s : Server)
  : Completion unit * Server :=
  match io s with
  | Some srv =>
      (Returned tt,
       set_io s (Some (emit (Some ("issue_" +:+ issueId)) ev data srv)))
  | None => (Returned tt, s)
  end.

(** [broadcastNotification(notification)]; the argument may be [null]
    or [undefined], and reading a property of it then throws. *)
Definition broadcastNotification (notification : option NotificationLike)
    (s : Server) : Completion unit * Server :=
  match io s with
  | Some _ =>
      match notification with
      | None => (Threw "TypeError", s)
      | Some n =>
          let s1 :=
            match like_recipient n with
            | Some r =>
                if truthy r
                then snd (emitToUser r "notification" (PayloadObject n) s)
                else s
            | None => s
            end in
          if String.eqb (like_type n) "system_announcement" then
            match io s1 with
            | Some srv =>
                (Returned tt,
                 set_io s1 (Some (emit None "system_notification"
                                       (PayloadObject n) srv)))
            | None => (Returned tt, s1)
            end
          else if String.eqb (like_type n) "department_update" then
            match like_department n with
            | Some d =>
                if truthy d
                then emitToDepartment d "department_notification"
                       (PayloadObject n) s1
                else (Returned tt, s1)
            | None => (Returned tt, s1)
            end
          else (Returned tt, s1)
      end
  | None => (Returned tt, s)
  end.

(** [getConnectedUsers()]; [socket.connectedAt] is never set, so
    [connectedAt] is the clock. *)
Definition getConnectedUsers (now : Date) (s : Server)
  : list ConnectedUser :=
  match io s with
  | Some srv =>
      omap (fun k =>
              match socket_user k with
              | Some u =>
                  Some (mkConnectedUser (socket_userId k)
                          (firstName u +:+ " " +:+ lastName u)
                          (role u) (department u) now)
              | None => None
              end) (sockets srv)
  | None => []
  end.

(** The credentials that must not get a connection: none presented, one
    that [jwt.verify] refuses (malformed, wrongly signed, expired), one
    of a user that is not stored, one of a user that is not active. *)
Inductive BadCredential `{Platform} (s : Server) (h : Handshake) : Prop :=
| NoToken :
    handshakeToken h = None \/ handshakeToken h = Some "" ->
    BadCredential s h
| RefusedToken (tok name : string) :
    handshakeToken h = Some tok ->
    jwtVerify tok = Threw name ->
    BadCredential s h
| UnknownUser (tok : string) (id : ObjectId) :
    handshakeToken h = Some tok ->
    jwtVerify tok = Returned id ->
    users s !! id = None ->
    BadCredential s h
| InactiveUser (tok : string) (id : ObjectId) (u : User) :
    handshakeToken h = Some tok ->
    jwtVerify tok = Returned id ->
    users s !! id = Some u ->
    isActive u = false ->
    BadCredential s h.

(** No socket of the server has the id [sid]. *)
Definition fresh (sid : string) (s : Server) : Prop :=
  match io s with
  | Some srv => Forall (fun k => socket_id k <> sid) (sockets srv)
  | None => True
  end.

End Socket.

(** ** HTTP responses *)

Inductive Body : Type :=
| BodyNone
| BodyIssue (i : Issue)
| BodyUpvote (upvoteCount : Z) (isUpvoted : bool)
| BodyRetryAfter (seconds : Z).

Record Response : Type := mkResponse {
  code : Z;                              (* res.status(code) *)
  success : bool;
  response_message : string;
  data : Body
}.

Definition failure (c : Z) (msg : string) : Response :=
  mkResponse c false msg BodyNone.

(** ** models/Notification.js *)

Module NotificationModel.

(** [createNotification(data)]: the record is saved, and only then is the
    realtime event emitted to the room of the recipient, when [io] is
    set.  A rejected save rejects the call and leaves no record. *)
Definition createNotification (f : Faults) (d : Notification) (s : Server)
  : Completion Notification * Server :=
  if notificationWriteFails f d then (Threw "MongoError", s)
  else
    let s1 := set_notifications s (notifications s ++ [d]) in
    let s2 :=
      match Socket.getIO s1 with
      | Some srv =>
          set_io s1 (Some (Socket.emit (Some ("user_" +:+ recipient d))
                             "notification" (PayloadNotification d) srv))
      | None => s1
      end in
    (Returned d, s2).

End NotificationModel.

(** ** middleware/auth.js *)

Module Auth.

Record Request : Type := mkRequest {
  header_authorization : option string;  (* req.header('Authorization') *)
  cookie_token : option string;          (* req.cookies?.token *)
  query_token : option string;           (* req.query?.token *)
  ip : string;                           (* req.ip *)
  params_id : string                     (* req.params.id *)
}.

(** [authenticate]: [inr user] when it sets [req.user] and calls
    [next()], [inl response] when it answers itself. *)
Definition authenticate `{Platform} (s : Server) (req : Request)
  : Response + User :=
  let onError (name : string) : Response :=
    if String.eqb name "JsonWebTokenError" then failure 401 "Invalid token."
    else if String.eqb name "TokenExpiredError"
         then failure 401 "Token has expired."
         else failure 500 "Server error during authentication." in
  let token :=
    orElse (orElse (removeFirst "Bearer " <$> header_authorization req)
                   (cookie_token req))
           (query_token req) in
  match token with
  | None => inl (failure 401 "Access denied. No token provided.")
  | Some tok =>
      if negb (truthy tok)
      then inl (failure 401 "Access denied. No token provided.")
      else
        match jwtVerify tok with
        | Threw name => inl (onError name)
        | Returned id =>
            match findById (users s) id with
            | Threw name => inl (onError name)
            | Returned None =>
                inl (failure 401 "Token is not valid. User not found.")
            | Returned (Some user) =>
                if negb (isActive user)
                then inl (failure 401 "Account is deactivated.")
                else inr user
            end
        end
  end.

(** [authorize(...roles)]: [None] when it calls [next()]. *)
Definition authorize (roles : list string) (user : option User)
  : option Response :=
  match user with
  | None => Some (failure 401 "Authentication required.")
  | Some u =>
      if negb (includes roles (role u))
      then Some (failure 403 "Access denied. Insufficient permissions.")
      else None
  end.

(** The key of the rate limiter:
    [req.user?._id?.toString() || req.ip]. *)
Definition rateKey (user : option User) (req : Request) : string :=
  match user with
  | Some u => if truthy (user_id u) then user_id u else ip req
  | None => ip req
  end.

(** [Math.ceil(windowMs / 1000)]. *)
Definition retryAfter (windowMs : Z) : Z := - ((- windowMs) / 1000).

(** The middleware that [rateLimit(maxRequests, windowMs)] returns, on
    its [requests] map: [None] when it calls [next()], the 429 response
    otherwise. *)
Definition rateLimit (maxRequests windowMs : Z) (now : Date)
    (userId : string) (requests : gmap string (list Z))
  : option Response * gmap string (list Z) :=
  let requests1 :=
    match requests !! userId with
    | None => <[userId := []]> requests
    | Some _ => requests
    end in
  let userRequests := default [] (requests1 !! userId) in
  let validRequests := filter (fun time => now - time < windowMs) userRequests in
  if Z.of_nat (List.length validRequests) >=? maxRequests then
    (Some (mkResponse 429 false
             "Too many requests. Please try again later."
             (BodyRetryAfter (retryAfter windowMs))),
     requests1)
  else
    (None, <[userId := validRequests ++ [now]]> requests1).

(** The attempts of a list that are still in the window at [now]. *)
Definition validAt (windowMs : Z) (now : Date) (l : list Z) : list Z :=
  filter (fun time => now - time < windowMs) l.

(** No list of the map holds more than [maxRequests] attempts. *)
Definition bounded (maxRequests : Z) (requests : gmap string (list Z))
  : Prop :=
  map_Forall (fun _ l => Z.of_nat (List.length l) <= maxRequests) requests.

(** Whether a call of the limiter let the request through. *)
Definition passed {S : Type} (r : option Response * S) : bool :=
  match fst r with
  | None => true
  | Some _ => false
  end.

(** Calls of one limiter, one after the other, starting from its map:
    the verdicts, oldest first, and the final map. *)
Fixpoint calls (maxRequests windowMs : Z) (cs : list (string * Date))
    (requests : gmap string (list Z)) : list bool * gmap string (list Z) :=
  match cs with
  | [] => ([], requests)
  | (userId, now) :: cs' =>
      let r := rateLimit maxRequests windowMs now userId requests in
      let rest := calls maxRequests windowMs cs' (snd r) in
      (passed r :: fst rest, snd rest)
  end.

End Auth.

(** ** Database writes *)

(** [issue.save()]: the document is validated against the schema, then
    written under its [_id]. *)
Definition saveIssue (f : Faults) (i : Issue) (s : Server)
  : Completion Server :=
  if negb (IssueModel.schemaValid i) then Threw "ValidationError"
  else if issueWriteFails f then Threw "MongoError"
  else Returned (set_issues s (<[issue_id i := i]> (issues s))).

Definition add_contributionScore (d : Z) (u : User) : User :=
  mkUser (user_id u) (firstName u) (lastName u) (role u) (department u)
         (isActive u) (issuesReported u) (contributionScore u + d).

(** [req.user.updateOne({ $inc: { 'stats.contributionScore': d } })]: the
    stored document with that [_id] is incremented, if there is one. *)
Definition incContributionScore (f : Faults) (d : Z) (u : User) (s : Server)
  : Completion Server :=
  if userWriteFails f then Threw "MongoError"
  else Returned (set_users s (alter (add_contributionScore d) (user_id u)
                                    (users s))).

(** ** routes/issues.js *)

Module Routes.

Definition dquote : string := String (Ascii.ascii_of_nat 34) EmptyString.

(** *** PATCH /:id/status *)

Record StatusBody : Type := mkStatusBody {
  body_status : option string;
  body_notes : option string;
  body_estimatedResolutionTime : option string
}.

(** The validation chain of the route: [status] must be one of the seven
    statuses; [notes], when given, is trimmed and must not exceed 500
    characters.  [None] when [validationResult(req)] has errors, else the
    sanitized [status] and [notes]. *)
Definition validateStatusBody `{Platform} (b : StatusBody)
  : option (string * option string) :=
  let notes := trim <$> body_notes b in
  match body_status b with
  | None => None
  | Some st =>
      if includes statusEnum st
         && match notes with
            | Some n => Nat.leb (String.length n) 500
            | None => true
            end
      then Some (st, notes)
      else None
  end.

Definition statusNotification (user : User) (issue : Issue)
    (oldStatus newStatus : string) (notes : option string) : Notification :=
  mkNotification
    (reportedBy issue)
    (Some (user_id user))
    "issue_updated"
    "Issue Status Updated"
    ("Your issue " +:+ dquote +:+ title issue +:+ dquote
       +:+ " status has been changed from " +:+ oldStatus +:+ " to "
       +:+ newStatus
       +:+ match notes with
           | Some n => if truthy n then ": " +:+ n else ""
           | None => ""
           end)
    (Some (issue_id issue))
    (if String.eqb newStatus "resolved" then "high" else "medium")
    ("/issues/" +:+ issue_id issue)
    "View Issue".

(** [if (estimatedResolutionTime) issue.estimatedResolutionTime =
    new Date(estimatedResolutionTime)]. *)
Definition setEstimate `{Platform} (e : option string) (i : Issue) : Issue :=
  match e with
  | Some t =>
      if truthy t
      then IssueModel.set_estimatedResolutionTime i (Some (newDate t))
      else i
  | None => i
  end.

Definition statusFailed : Response :=
  failure 500 "Failed to update issue status".

(** [authenticate], [authorize('admin', 'department_head',
    'field_officer')], the validation chain, then the handler.  The
    chained [populate] before the answer writes nothing, but a throw of
    it lands in the [catch] like any other. *)
Definition patchStatus `{Platform} (now : Date) (f : Faults)
    (req : Auth.Request) (b : StatusBody) (s : Server)
  : Response * Server :=
  match Auth.authenticate s req with
  | inl r => (r, s)
  | inr user =>
  match Auth.authorize ["admin"; "department_head"; "field_officer"]
                       (Some user) with
  | Some r => (r, s)
  | None =>
  match validateStatusBody b with
  | None => (failure 400 "Validation failed", s)
  | Some (newStatus, notes) =>
  match findById (issues s) (Auth.params_id req) with
  | Threw _ => (statusFailed, s)
  | Returned None => (failure 404 "Issue not found", s)
  | Returned (Some issue) =>
      if negb (String.eqb (role user) "admin")
         && negb (String.eqb (department user) (category issue))
      then (failure 403 "Access denied. Department mismatch.", s)
      else
        let oldStatus := status issue in
        let issue1 :=
          IssueModel.updateStatus now newStatus (user_id user)
            (default "" notes) issue in
        let issue2 :=
          setEstimate (body_estimatedResolutionTime b) issue1 in
        match saveIssue f issue2 s with
        | Threw _ => (statusFailed, s)
        | Returned s1 =>
            match NotificationModel.createNotification f
                    (statusNotification user issue2 oldStatus newStatus
                       notes) s1 with
            | (Threw _, s2) => (statusFailed, s2)
            | (Returned _, s2) =>
                match populateChain with
                | Threw _ => (statusFailed, s2)
                | Returned _ =>
                    (mkResponse 200 true "Issue status updated successfully"
                       (BodyIssue issue2), s2)
                end
            end
        end
  end end end end.

(** *** POST /:id/upvote *)

Definition upvoteFailed : Response := failure 500 "Failed to upvote issue".

(** [issue.upvotes.some(upvote => upvote.user.toString() ===
    req.user._id.toString())], the [isUpvoted] of the [GET] handlers. *)
Definition isUpvoted (issue : Issue) (user : User) : bool :=
  existsb (fun up => String.eqb (upvote_user up) (user_id user))
          (upvotes issue).

Definition postUpvote `{Platform} (now : Date) (f : Faults)
    (req : Auth.Request) (s : Server) : Response * Server :=
  match Auth.authenticate s req with
  | inl r => (r, s)
  | inr user =>
  match findById (issues s) (Auth.params_id req) with
  | Threw _ => (upvoteFailed, s)
  | Returned None => (failure 404 "Issue not found", s)
  | Returned (Some issue) =>
      let existingUpvoteIndex :=
        findIndex (fun up => String.eqb (upvote_user up) (user_id user))
                  (upvotes issue) in
      let finish (issue' : Issue) (msg : string) (s1 : Server) :=
        match saveIssue f issue' s1 with
        | Threw _ => (upvoteFailed, s1)
        | Returned s2 =>
            (mkResponse 200 true msg
               (BodyUpvote (Z.of_nat (List.length (upvotes issue')))
                           (Z.eqb existingUpvoteIndex (-1))),
             s2)
        end in
      if Z.gtb existingUpvoteIndex (-1) then
        finish (IssueModel.set_upvotes issue
                  (splice1 existingUpvoteIndex (upvotes issue)))
               "Upvote removed" s
      else
        let issue' :=
          IssueModel.set_upvotes issue
            (upvotes issue ++ [mkUpvote (user_id user) now]) in
        match incContributionScore f 1 user s with
        | Threw _ => (upvoteFailed, s)
        | Returned s1 => finish issue' "Issue upvoted" s1
        end
  end end.

(** *** POST /: the notification of the department *)

Definition createdNotification (requester : User) (issue : Issue)
    (user : User) : Notification :=
  mkNotification
    (user_id user)
    (Some (user_id requester))
    "issue_created"
    "New Issue Reported"
    ("A new " +:+ category issue +:+ " issue has been reported: "
       +:+ dquote +:+ title issue +:+ dquote)
    (Some (issue_id issue))
    (if String.eqb (priority issue) "critical" then "urgent" else "medium")
    ("/issues/" +:+ issue_id issue)
    "View Issue".

(** [recipients.map(user => Notification.createNotification(...))]: every
    call is started, and each settles on its own, whatever the others
    do. *)
Fixpoint startAll (f : Faults) (ds : list Notification) (s : Server)
  : list (Completion Notification) * Server :=
  match ds with
  | [] => ([], s)
  | d :: ds' =>
      let r := NotificationModel.createNotification f d s in
      let rest := startAll f ds' (snd r) in
      (fst r :: fst rest, snd rest)
  end.

(** [Promise.all]: all the values, or a rejection as soon as one of the
    promises rejects. *)
Fixpoint promiseAll {A : Type} (rs : list (Completion A))
  : Completion (list A) :=
  match rs with
  | [] => Returned []
  | Threw name :: _ => Threw name
  | Returned a :: rs' =>
      match promiseAll rs' with
      | Returned l => Returned (a :: l)
      | Threw name => Threw name
      end
  end.

(** The fan-out of [POST /] over [departmentUsers]:
    [departmentUsers.map(...)] awaited with [Promise.all].  The state is
    the one reached when every started call has settled. *)
Definition dispatchToDepartment (f : Faults) (requester : User)
    (issue : Issue) (departmentUsers : list User) (s : Server)
  : Completion (list Notification) * Server :=
  let started :=
    startAll f (map (createdNotification requester issue) departmentUsers)
             s in
  (promiseAll (fst started), snd started).

End Routes.

(** ** Invariant of the stored documents *)

(** Documents are stored under their [_id], and a stored issue passed the
    schema validation of the save that wrote it. *)
Definition StoreOk (s : Server) : Prop :=
  map_Forall (fun k i => issue_id i = k) (issues s)
  /\ map_Forall (fun _ i => IssueModel.schemaValid i = true) (issues s)
  /\ map_Forall (fun k u => user_id u = k) (users s).

(** How many upvotes of a user an upvote list holds. *)
Definition upvotesOf (uid : ObjectId) (ups : list Upvote) : nat :=
  List.length (List.filter (fun up => String.eqb (upvote_user up) uid) ups).

(** ** A concrete deployment, for examples *)

Module Demo.

(** Tokens are ["jwt:<id>"]; a token that starts with ["old:"] has
    expired; anything else is malformed.  The chained [populate] throws,
    as it does from mongoose 6 on. *)
Definition platform : Platform := {|
  jwtVerify tok :=
    if String.prefix "jwt:" tok
    then Returned (String.substring 4 (String.length tok - 4) tok)
    else if String.prefix "old:" tok then Threw "TokenExpiredError"
    else Threw "JsonWebTokenError";
  isObjectId id := Nat.eqb (String.length id) 2;
  trim n := n;
  newDate _ := InvalidDate;
  populateChain := Threw "TypeError"
|}.

Definition admin : User :=
  mkUser "a1" "Admin" "User" "admin" "general" true 0 0.
Definition roadsHead : User :=
  mkUser "h1" "Rajesh" "Patel" "department_head" "roads" true 0 0.
Definition waterOfficer : User :=
  mkUser "o1" "Sneha" "Patel" "field_officer" "water" true 0 0.
Definition citizen : User :=
  mkUser "c1" "Aarav" "Patel" "citizen" "general" true 2 7.
Definition retired : User :=
  mkUser "r1" "Kiran" "Mehta" "field_officer" "roads" false 0 0.

Definition created : TimelineEntry :=
  mkTimelineEntry "created" "Issue reported by citizen" "c1" 1000 MetaEmpty.

Definition pothole : Issue :=
  mkIssue "i1" "Pothole on Main Road" "roads" "medium" "closed" "c1" None
          [created] None None [].

Definition server : Server :=
  mkServer (Some (mkIoServer [] []))
           {[ "i1" := pothole ]}
           (list_to_map [("a1", admin); ("h1", roadsHead);
                         ("o1", waterOfficer); ("c1", citizen);
                         ("r1", retired)])
           [].

Definition roadsOfficer : User :=
  mkUser "o2" "Rahul" "Kumar" "field_officer" "roads" true 0 0.
Definition roadsSurveyor : User :=
  mkUser "o3" "Pooja" "Gupta" "field_officer" "roads" true 0 0.

(** The database refuses the notification of one recipient, ["o2"]. *)
Definition oneRefused : Faults :=
  mkFaults false false (fun d => String.eqb (recipient d) "o2").

Definition expired : Socket.Handshake :=
  Socket.mkHandshake (Some "old:c1") None.

Definition bearer (uid : string) (issueId : string) : Auth.Request :=
  Auth.mkRequest (Some ("Bearer jwt:" +:+ uid)) None None "10.0.0.1" issueId.

Definition to (st : string) : Routes.StatusBody :=
  Routes.mkStatusBody (Some st) None None.

End Demo.

(** ** middleware/auth.js: the other middlewares *)

(** [String.prototype.includes] with a string argument. *)
Fixpoint contains (pat s : string) : bool :=
  String.prefix pat s
  || match s with
     | EmptyString => false
     | String _ s' => contains pat s'
     end.

Module AuthMore.

(** The token a request presents:
    [req.header('Authorization')?.replace('Bearer ', '') ||
     req.cookies?.token || req.query?.token]. *)
Definition requestToken (req : Auth.Request) : option string :=
  orElse (orElse (removeFirst "Bearer " <$> Auth.header_authorization req)
                 (Auth.cookie_token req))
         (Auth.query_token req).

(** [optionalAuth]: the [req.user] it leaves, [None] when it leaves none.
    It calls [next()] in every case. *)
Definition optionalAuth `{Platform} (s : Server) (req : Auth.Request)
  : option User :=
  match requestToken req with
  | None => None
  | Some tok =>
      if truthy tok then
        match jwtVerify tok with
        | Threw _ => None
        | Returned id =>
            match findById (users s) id with
            | Returned (Some user) => if isActive user then Some user else None
            | Returned None => None
            | Threw _ => None
            end
        end
      else None
  end.

(** Where [authorizeDepartment] looks for the department. *)
Record DepartmentRequest : Type := mkDepartmentRequest {
  params_department : option string;     (* req.params.department *)
  body_department : option string;       (* req.body.department *)
  query_department : option string       (* req.query.department *)
}.

(** [req.user.department !== requiredDepartment], the required department
    being possibly [undefined]. *)
Definition differs (dept : string) (required : option string) : bool :=
  match required with
  | Some r => negb (String.eqb dept r)
  | None => true
  end.

(** [authorizeDepartment]: [None] when it calls [next()]. *)
Definition authorizeDepartment (user : option User) (req : DepartmentRequest)
  : option Response :=
  match user with
  | None => Some (failure 401 "Authentication required.")
  | Some u =>
      if String.eqb (role u) "admin" then None
      else
        let requiredDepartment :=
          orElse (orElse (params_department req) (body_department req))
                 (query_department req) in
        if (String.eqb (role u) "department_head"
            || String.eqb (role u) "field_officer")
           && differs (department u) requiredDepartment
        then Some (failure 403 "Access denied. Department mismatch.")
        else None
  end.

(** What [authorizeOwnershipOrRole] reads of the request. *)
Record ResourceRequest : Type := mkResourceRequest {
  baseUrl : string;                      (* req.baseUrl *)
  resource_id : option string;           (* req.params.id *)
  resource_issueId : option string;      (* req.params.issueId *)
  resource_userId : option string        (* req.params.userId *)
}.

(** The middleware that [authorizeOwnershipOrRole(...allowedRoles)]
    returns: [None] when it calls [next()]. *)
Definition authorizeOwnershipOrRole `{Platform} (allowedRoles : list string)
    (s : Server) (user : option User) (req : ResourceRequest)
  : option Response :=
  match user with
  | None => Some (failure 401 "Authentication required.")
  | Some u =>
      if includes allowedRoles (role u) || String.eqb (role u) "admin"
      then None
      else
        match orElse (orElse (resource_id req) (resource_issueId req))
                     (resource_userId req) with
        | None => Some (failure 400 "Resource ID is required.")
        | Some resourceId =>
            if negb (truthy resourceId)
            then Some (failure 400 "Resource ID is required.")
            else
              let forUsers :=
                if contains "/users" (baseUrl req)
                   && negb (String.eqb resourceId (user_id u))
                then Some (failure 403
                       "Access denied. You can only access your own profile.")
                else None in
              if contains "/issues" (baseUrl req) then
                match findById (issues s) resourceId with
                | Threw _ =>
                    Some (failure 500 "Server error during authorization.")
                | Returned None => Some (failure 404 "Issue not found.")
                | Returned (Some issue) =>
                    if negb (String.eqb (reportedBy issue) (user_id u))
                    then Some (failure 403
                           "Access denied. You can only access your own issues.")
                    else forUsers
                end
              else forUsers
        end
  end.

(** The times of the calls of [userId] that the limiter let through, in a
    history of calls, oldest first. *)
Fixpoint passedTimes (maxRequests windowMs : Z) (userId : string)
    (cs : list (string * Date)) (requests : gmap string (list Z))
  : list Z :=
  match cs with
  | [] => []
  | (caller, now) :: cs' =>
      let r := Auth.rateLimit maxRequests windowMs now caller requests in
      (if Auth.passed r && String.eqb caller userId then [now] else [])
        ++ passedTimes maxRequests windowMs userId cs' (snd r)
  end.

(** The verdicts that the calls of [userId] get in a history of calls. *)
Fixpoint verdictsFor (maxRequests windowMs : Z) (userId : string)
    (cs : list (string * Date)) (requests : gmap string (list Z))
  : list bool :=
  match cs with
  | [] => []
  | (caller, now) :: cs' =>
      let r := Auth.rateLimit maxRequests windowMs now caller requests in
      (if String.eqb caller userId then [Auth.passed r] else [])
        ++ verdictsFor maxRequests windowMs userId cs' (snd r)
  end.

(** The calls of [userId] in a history of calls. *)
Definition callsOf (userId : string) (cs : list (string * Date))
  : list (string * Date) :=
  List.filter (fun c => String.eqb (fst c) userId) cs.

(** The clock never runs backwards over a history of calls. *)
Fixpoint clockOrdered (cs : list (string * Date)) : Prop :=
  match cs with
  | [] => True
  | c :: cs' => Forall (fun c' => snd c <= snd c') cs' /\ clockOrdered cs'
  end.

End AuthMore.

(** ** utils/socket.js: histories of socket events *)

Module SocketEvents.

(** What clients do to the socket server: connection attempts and the
    ['join_issue'] and ['leave_issue'] events of connected sockets. *)
Inductive Event : Type :=
| Connect (sid : string) (h : Socket.Handshake)
| JoinIssue (sid issueId : string)
| LeaveIssue (sid issueId : string).

Definition handle `{Platform} (e : Event) (s : Server) : Server :=
  match e with
  | Connect sid h => snd (Socket.connect sid h s)
  | JoinIssue sid issueId => Socket.join_issue sid issueId s
  | LeaveIssue sid issueId => Socket.leave_issue sid issueId s
  end.

Definition handleAll `{Platform} (es : list Event) (s : Server) : Server :=
  fold_left (fun acc e => handle e acc) es s.

(** The sockets that an emission reaches: those in the room for
    [io.to(room).emit], all of them for [io.emit]. *)
Definition receivers (e : Emission) (srv : IoServer) : list Socket :=
  List.filter (fun k => match to_room e with
                        | Some r => bool_decide (r ∈ rooms k)
                        | None => true
                        end) (sockets srv).

(** The entry of [getConnectedUsers] for a socket of user [u]. *)
Definition descriptor (now : Date) (uid : ObjectId) (u : User)
  : Socket.ConnectedUser :=
  Socket.mkConnectedUser (Some uid) (firstName u +:+ " " +:+ lastName u)
                         (role u) (department u) now.

(** The entries that a history of events adds to [getConnectedUsers],
    given the users stored: one per accepted connection. *)
Definition accepted `{Platform} (now : Date) (s : Server) (es : list Event)
  : list Socket.ConnectedUser :=
  omap (fun e => match e with
                 | Connect _ h =>
                     match Socket.authMiddleware s h with
                     | inr (uid, u) => Some (descriptor now uid u)
                     | inl _ => None
                     end
                 | _ => None
                 end) es.

(** Whether a socket with this id is connected. *)
Definition connected (sid : string) (s : Server) : bool :=
  match io s with
  | Some srv => existsb (fun k => String.eqb (socket_id k) sid) (sockets srv)
  | None => false
  end.

(** Whether a socket went through the middleware as user [uid]. *)
Definition authenticatedAs (uid : ObjectId) (k : Socket) : bool :=
  match socket_userId k with
  | Some x => String.eqb x uid
  | None => false
  end.

(** The socket ids of the connection attempts of a history do not look
    like the name of a user room. *)
Definition plainIds (es : list Event) : Prop :=
  Forall (fun e => match e with
                   | Connect sid _ => String.prefix "user_" sid = false
                   | _ => True
                   end) es.

End SocketEvents.

(** ** routes/issues.js: PATCH /:id/assign *)

(** What the handlers take from the validation library. *)
Class Validator : Type := {
  (** [isMongoId()]. *)
  isMongoId : string -> bool;
  (** [isFloat({ min, max })]. *)
  isFloat : Z -> Z -> string -> bool
}.

Module AssignRoute.

Record AssignBody : Type := mkAssignBody {
  body_assignedUserId : option string;
  body_department : option string
}.

Definition departmentEnum : list string :=
  ["roads"; "water"; "garbage"; "streetlights"; "drainage"; "parks";
   "general"].

(** The validation chain of the route: [assignedUserId], when given, must
    be a Mongo id; [department] must be one of the seven departments. *)
Definition validateAssignBody `{Validator} (b : AssignBody)
  : option (option string * string) :=
  match body_department b with
  | None => None
  | Some d =>
      if includes departmentEnum d
         && match body_assignedUserId b with
            | Some u => isMongoId u
            | None => true
            end
      then Some (body_assignedUserId b, d)
      else None
  end.

(** The notification of the reporter; its priority is the default of the
    schema. *)
Definition reporterNotification (user : User) (issue : Issue)
    (dept : string) : Notification :=
  mkNotification
    (reportedBy issue)
    (Some (user_id user))
    "issue_assigned"
    "Issue Assigned"
    ("Your issue " +:+ Routes.dquote +:+ title issue +:+ Routes.dquote
       +:+ " has been assigned to the " +:+ dept +:+ " department")
    (Some (issue_id issue))
    "medium"
    ("/issues/" +:+ issue_id issue)
    "View Issue".

(** The notification of the user the issue is assigned to. *)
Definition assigneeNotification (user : User) (issue : Issue)
    (assignedUser : User) : Notification :=
  mkNotification
    (user_id assignedUser)
    (Some (user_id user))
    "issue_assigned"
    "New Issue Assigned"
    ("You have been assigned a new " +:+ category issue +:+ " issue: "
       +:+ Routes.dquote +:+ title issue +:+ Routes.dquote)
    (Some (issue_id issue))
    (if String.eqb (priority issue) "critical" then "urgent" else "high")
    ("/issues/" +:+ issue_id issue)
    "View Issue".

Definition assignFailed : Response := failure 500 "Failed to assign issue".

(** The end of the handler, once the assigned user, if one is named, was
    found in the department: the assignment is saved, then the
    notifications are started, the one of the reporter first, and awaited
    with [Promise.all]; then comes the chained [populate], which writes
    nothing but may throw. *)
Definition saveAndNotify `{Platform} (now : Date) (f : Faults) (user : User)
    (issue : Issue) (assignedUserId : option string) (dept : string)
    (assignedUser : option User) (s : Server) : Response * Server :=
  let issue1 :=
    IssueModel.assignIssue now assignedUserId dept (user_id user) issue in
  match saveIssue f issue1 s with
  | Threw _ => (assignFailed, s)
  | Returned s1 =>
      let notifications :=
        reporterNotification user issue1 dept
          :: match assignedUser with
             | Some u => [assigneeNotification user issue1 u]
             | None => []
             end in
      let started := Routes.startAll f notifications s1 in
      match Routes.promiseAll (fst started) with
      | Threw _ => (assignFailed, snd started)
      | Returned _ =>
          match populateChain with
          | Threw _ => (assignFailed, snd started)
          | Returned _ =>
              (mkResponse 200 true "Issue assigned successfully"
                 (BodyIssue issue1), snd started)
          end
      end
  end.

(** [authenticate], [authorize('admin', 'department_head')], the
    validation chain, then the handler.  [User.findById(assignedUserId)]
    is made on the [User] model, which routes/issues.js uses without
    requiring it; its outcome is the argument [assignedUserFound]. *)
Definition patchAssign `{Platform} `{Validator} (now : Date) (f : Faults)
    (assignedUserFound : Completion (option User))
    (req : Auth.Request) (b : AssignBody) (s : Server)
  : Response * Server :=
  match Auth.authenticate s req with
  | inl r => (r, s)
  | inr user =>
  match Auth.authorize ["admin"; "department_head"] (Some user) with
  | Some r => (r, s)
  | None =>
  match validateAssignBody b with
  | None => (failure 400 "Validation failed", s)
  | Some (assignedUserId, dept) =>
  match findById (issues s) (Auth.params_id req) with
  | Threw _ => (assignFailed, s)
  | Returned None => (failure 404 "Issue not found", s)
  | Returned (Some issue) =>
      match assignedUserId with
      | Some uid =>
          if truthy uid then
            match assignedUserFound with
            | Threw _ => (assignFailed, s)
            | Returned None => (failure 400 "Assigned user not found", s)
            | Returned (Some assignedUser) =>
                if negb (String.eqb (department assignedUser) dept)
                then (failure 400
                        "User does not belong to the specified department",
                      s)
                else saveAndNotify now f user issue assignedUserId dept
                                   (Some assignedUser) s
            end
          else saveAndNotify now f user issue assignedUserId dept None s
      | None => saveAndNotify now f user issue assignedUserId dept None s
      end
  end end end end.

(** What evaluating [User.findById(...)] gives in routes/issues.js as it
    is written: the identifier [User] has no binding there. *)
Definition unboundUser : Completion (option User) := Threw "ReferenceError".

End AssignRoute.

(** Ids of the example deployment are two characters long, and the
    numbers it reads are the coordinates of the examples. *)
Module AssignDemo.

Definition validator : Validator := {|
  isMongoId id := Nat.eqb (String.length id) 2;
  isFloat _ _ x := bool_decide (x ∈ ["22.56"; "72.95"])
|}.

Definition toDepartment (dept : string) : AssignRoute.AssignBody :=
  AssignRoute.mkAssignBody None (Some dept).

Definition toUser (uid dept : string) : AssignRoute.AssignBody :=
  AssignRoute.mkAssignBody (Some uid) (Some dept).

End AssignDemo.

(** ** routes/issues.js: POST / *)

Module CreateRoute.

Record CreateBody : Type := mkCreateBody {
  body_title : option string;
  body_description : option string;
  body_category : option string;
  body_latitude : option string;       (* location.coordinates.latitude *)
  body_longitude : option string;      (* location.coordinates.longitude *)
  body_priority : option string
}.

(** A file that [upload.array('photos', 5)] accepted, with what
    [uploadToCloudinary] does with its buffer: the [secure_url] and the
    [public_id] of the result, or a rejection. *)
Record File : Type := mkFile {
  originalname : string;
  uploaded : Completion (string * string)
}.

Definition priorityEnum : list string := ["low"; "medium"; "high"; "critical"].

(** [createIssueValidation]: the title and the description are trimmed
    and checked for their length, the category must be one of the ten,
    the coordinates must be numbers in range, the priority, when given,
    one of the four.  [None] when [validationResult(req)] has errors,
    else the sanitized title, the category and the priority, which is
    ['medium'] when the body has none. *)
Definition validateCreateBody `{Platform} `{Validator} (b : CreateBody)
  : option (string * string * string) :=
  match body_title b, body_description b, body_category b,
        body_latitude b, body_longitude b with
  | Some t, Some d, Some c, Some la, Some lo =>
      if Nat.leb 5 (String.length (trim t))
         && Nat.leb (String.length (trim t)) 200
         && Nat.leb 10 (String.length (trim d))
         && Nat.leb (String.length (trim d)) 2000
         && includes categoryEnum c
         && isFloat (-90) 90 la
         && isFloat (-180) 180 lo
         && match body_priority b with
            | Some p => includes priorityEnum p
            | None => true
            end
      then Some (trim t, c, default "medium" (body_priority b))
      else None
  | _, _, _, _, _ => None
  end.

(** [save()] of a new document.  The validation is the first of the
    pre-save hooks, so it runs before the hook of the schema that
    generates the tracking id: a document that reaches [save()] without
    [trackingId], a required path, is refused. *)
Definition saveNewIssue (f : Faults) (trackingId : option string)
    (i : Issue) (s : Server) : Completion Server :=
  match trackingId with
  | None => Threw "ValidationError"
  | Some _ => saveIssue f i s
  end.

Definition add_reported (u : User) : User :=
  mkUser (user_id u) (firstName u) (lastName u) (role u) (department u)
         (isActive u) (issuesReported u + 1) (contributionScore u + 10).

(** [req.user.updateOne({ $inc: { 'stats.issuesReported': 1,
    'stats.contributionScore': 10 } })]. *)
Definition incReported (f : Faults) (u : User) (s : Server)
  : Completion Server :=
  if userWriteFails f then Threw "MongoError"
  else Returned (set_users s (alter add_reported (user_id u) (users s))).

Definition createFailed : Response := failure 500 "Failed to create issue".

(** [authenticate], [rateLimit(20, 60 * 60 * 1000)] on its own map
    [requests], the validation chain, then the handler, for the files
    that the upload middleware accepted.  [newId] is the [_id] that
    [new Issue({...})] draws; the document it builds has no
    [trackingId].  [User.find({...})] is made on the [User] model, which
    routes/issues.js uses without requiring it; its outcome is the
    argument [departmentUsers].  The single [populate] before the answer
    only reads. *)
Definition postIssue `{Platform} `{Validator} (now : Date) (f : Faults)
    (newId : ObjectId) (departmentUsers : Completion (list User))
    (req : Auth.Request) (b : CreateBody) (files : list File)
    (requests : gmap string (list Z)) (s : Server)
  : Response * (gmap string (list Z) * Server) :=
  match Auth.authenticate s req with
  | inl r => (r, (requests, s))
  | inr user =>
  match Auth.rateLimit 20 (60 * 60 * 1000) now
                       (Auth.rateKey (Some user) req) requests with
  | (Some r, requests1) => (r, (requests1, s))
  | (None, requests1) =>
  match validateCreateBody b with
  | None => (failure 400 "Validation failed", (requests1, s))
  | Some (title, category, priority) =>
      let issue :=
        mkIssue newId title category priority "submitted" (user_id user)
                None [] None None [] in
      match Routes.promiseAll (map uploaded files) with
      | Threw _ => (createFailed, (requests1, s))
      | Returned _ =>
          let issue1 :=
            IssueModel.addTimelineEntry now "created"
              "Issue reported by citizen" (user_id user) MetaEmpty issue in
          match saveNewIssue f None issue1 s with
          | Threw _ => (createFailed, (requests1, s))
          | Returned s1 =>
              match incReported f user s1 with
              | Threw _ => (createFailed, (requests1, s1))
              | Returned s2 =>
                  match departmentUsers with
                  | Threw _ => (createFailed, (requests1, s2))
                  | Returned us =>
                      match Routes.dispatchToDepartment f user issue1 us
                                                        s2 with
                      | (Threw _, s3) => (createFailed, (requests1, s3))
                      | (Returned _, s3) =>
                          (mkResponse 201 true "Issue reported successfully"
                             (BodyIssue issue1), (requests1, s3))
                      end
                  end
              end
          end
      end
  end end end.

(** What evaluating [User.find({...})] gives in routes/issues.js as it is
    written: the identifier [User] has no binding there. *)
Definition unboundUser : Completion (list User) := Threw "ReferenceError".

End CreateRoute.

Module CreateDemo.

(** The deployment of [Demo] with two more officers of the roads
    department: a new roads issue has three recipients. *)
Definition server : Server :=
  set_users Demo.server
    (<["o2" := Demo.roadsOfficer]>
       (<["o3" := Demo.roadsSurveyor]> (users Demo.server))).

Definition report : CreateRoute.CreateBody :=
  CreateRoute.mkCreateBody (Some "Pothole on Station Road")
    (Some "A deep pothole in front of the market") (Some "roads")
    (Some "22.56") (Some "72.95") None.

End CreateDemo.

(** ** models/Comment.js *)

Module CommentModel.

Record Like : Type := mkLike {
  liked_by : ObjectId;         (* likes[i].user *)
  liked_at : Date              (* likes[i].timestamp, default: Date.now *)
}.

Record Reply : Type := mkReply {
  reply_author : ObjectId;
  reply_content : string;
  reply_timestamp : Date;      (* default: Date.now *)
  reply_isOfficial : bool
}.

Record Edit : Type := mkEdit {
  edit_content : string;
  editedAt : Date;             (* default: Date.now *)
  edit_reason : string
}.

Record Comment : Type := mkComment {
  comment_issue : ObjectId;    (* issue *)
  comment_author : ObjectId;   (* author *)
  content : string;
  likes : list Like;
  replies : list Reply;
  isEdited : bool;
  editHistory : list Edit;
  isDeleted : bool
}.

Definition set_likes (c : Comment) (l : list Like) : Comment :=
  mkComment (comment_issue c) (comment_author c) (content c) l (replies c)
            (isEdited c) (editHistory c) (isDeleted c).

(** The virtuals [likeCount] and [replyCount]. *)
Definition likeCount (c : Comment) : Z := Z.of_nat (List.length (likes c)).

Definition replyCount (c : Comment) : Z := Z.of_nat (List.length (replies c)).

(** [addReply(authorId, content, isOfficial = false)]. *)
Definition addReply (now : Date) (authorId : ObjectId) (text : string)
    (isOfficial : bool) (c : Comment) : Comment :=
  mkComment (comment_issue c) (comment_author c) (content c) (likes c)
            (replies c ++ [mkReply authorId text now isOfficial])
            (isEdited c) (editHistory c) (isDeleted c).

(** [toggleLike(userId)]: the value returned, [true] for liked, and the
    comment after the call. *)
Definition toggleLike (now : Date) (userId : ObjectId) (c : Comment)
  : bool * Comment :=
  let likeIndex :=
    findIndex (fun l => String.eqb (liked_by l) userId) (likes c) in
  if Z.gtb likeIndex (-1)
  then (false, set_likes c (splice1 likeIndex (likes c)))
  else (true, set_likes c (likes c ++ [mkLike userId now])).

(** [editContent(newContent, reason = '')].  The path [content] has
    [trim: true]: the setter trims what is assigned to it; the [content]
    of an entry of [editHistory] is a plain string. *)
Definition editContent `{Platform} (now : Date) (newContent reason : string)
    (c : Comment) : Comment :=
  mkComment (comment_issue c) (comment_author c) (trim newContent) (likes c)
            (replies c)
            true
            (editHistory c ++ [mkEdit (content c) now reason])
            (isDeleted c).

(** Whether a user is among the likes of a comment. *)
Definition likedBy (userId : ObjectId) (c : Comment) : bool :=
  existsb (fun l => String.eqb (liked_by l) userId) (likes c).

(** A sequence of [toggleLike] calls, each by a user at a time. *)
Definition toggleAll (calls : list (ObjectId * Date)) (c : Comment)
  : Comment :=
  fold_left (fun acc call => snd (toggleLike (snd call) (fst call) acc))
            calls c.

(** A sequence of [editContent] calls: new content, reason and time. *)
Definition editAll `{Platform} (edits : list (string * string * Date))
    (c : Comment) : Comment :=
  fold_left (fun acc e => editContent (snd e) (fst (fst e)) (snd (fst e)) acc)
            edits c.

(** Every content a comment has had, oldest first: those of the history,
    then the current one. *)
Definition versions (c : Comment) : list string :=
  map edit_content (editHistory c) ++ [content c].

End CommentModel.

(** ** models/Notification.js: the read state *)

Module NotificationStore.

(** A stored notification: the data it was created from, the [isRead]
    and [readAt] paths, and the [createdAt] of [timestamps: true]. *)
Record Stored : Type := mkStored {
  doc : Notification;
  isRead : bool;               (* default false *)
  readAt : option Date;
  createdAt : Date
}.

(** [new this(data)] then [save()], as [createNotification] does. *)
Definition insert (now : Date) (d : Notification) (c : list Stored)
  : list Stored :=
  c ++ [mkStored d false None now].

(** [markAsRead()]. *)
Definition markAsRead (now : Date) (n : Stored) : Stored :=
  mkStored (doc n) true (Some now) (createdAt n).

(** [getUnreadCount(userId)]:
    [countDocuments({ recipient: userId, isRead: false })]. *)
Definition getUnreadCount (userId : ObjectId) (c : list Stored) : Z :=
  Z.of_nat (List.length
              (List.filter (fun n => String.eqb (recipient (doc n)) userId
                                     && negb (isRead n)) c)).

(** [markAllAsRead(userId)]: [updateMany({ recipient: userId,
    isRead: false }, { isRead: true, readAt: new Date() })]. *)
Definition markAllAsRead (now : Date) (userId : ObjectId) (c : list Stored)
  : list Stored :=
  map (fun n => if String.eqb (recipient (doc n)) userId && negb (isRead n)
                then mkStored (doc n) true (Some now) (createdAt n)
                else n) c.

Definition thirtyDays : Z := 30 * 24 * 60 * 60 * 1000.

(** [cleanup()]: [deleteMany({ createdAt: { $lt: thirtyDaysAgo },
    isRead: true })]. *)
Definition cleanup (now : Date) (c : list Stored) : list Stored :=
  List.filter (fun n => negb (Z.ltb (createdAt n) (now - thirtyDays)
                              && isRead n)) c.

End NotificationStore.

(** ** The virtual [timeAgo] of the two models *)

Module TimeAgo.

(** [`${n}`] for an integer [n]. *)
Definition show (n : Z) : string := pretty n.

Definition plural (n : Z) : string := if Z.gtb n 1 then "s" else "".

(** models/Issue.js: days, then the hours left over the days.
    [Math.floor(a / b)] is the floor of the quotient, [%] the remainder
    that has the sign of the dividend. *)
Definition issueTimeAgo (now createdAt : Date) : string :=
  let diff := now - createdAt in
  let days := diff / (1000 * 60 * 60 * 24) in
  let hours := Z.rem diff (1000 * 60 * 60 * 24) / (1000 * 60 * 60) in
  if Z.gtb days 0 then show days +:+ " day" +:+ plural days +:+ " ago"
  else if Z.gtb hours 0
       then show hours +:+ " hour" +:+ plural hours +:+ " ago"
       else "Less than an hour ago".

(** models/Notification.js: days, hours and minutes, each of the whole
    difference. *)
Definition notificationTimeAgo (now createdAt : Date) : string :=
  let diff := now - createdAt in
  let minutes := diff / (1000 * 60) in
  let hours := diff / (1000 * 60 * 60) in
  let days := diff / (1000 * 60 * 60 * 24) in
  if Z.gtb days 0 then show days +:+ " day" +:+ plural days +:+ " ago"
  else if Z.gtb hours 0
       then show hours +:+ " hour" +:+ plural hours +:+ " ago"
       else if Z.gtb minutes 0
            then show minutes +:+ " minute" +:+ plural minutes +:+ " ago"
            else "Just now".

End TimeAgo.

(** ** routes/issues.js: DELETE /:id *)

Module DeleteRoute.

(** The collections the handler touches: those of the server, and the
    comments. *)
Record Store : Type := mkStore {
  server : Server;
  comments : list CommentModel.Comment
}.

(** Which of the three deletions the database refuses. *)
Record DeleteFaults : Type := mkDeleteFaults {
  issueDeleteFails : bool;
  commentDeleteFails : bool;
  notificationDeleteFails : bool
}.

Definition noDeleteFaults : DeleteFaults :=
  mkDeleteFaults false false false.

Definition deleteFailed : Response := failure 500 "Failed to delete issue".

(** [Comment.deleteMany({ issue: id })]. *)
Definition deleteComments (id : ObjectId) (cs : list CommentModel.Comment)
  : list CommentModel.Comment :=
  List.filter (fun c => negb (String.eqb (CommentModel.comment_issue c) id))
              cs.

(** [Notification.deleteMany({ relatedIssue: id })]. *)
Definition deleteNotifications (id : ObjectId) (ns : list Notification)
  : list Notification :=
  List.filter (fun n => match relatedIssue n with
                        | Some i => negb (String.eqb i id)
                        | None => true
                        end) ns.

(** [authenticate], then the handler. *)
Definition deleteIssue `{Platform} (f : DeleteFaults) (req : Auth.Request)
    (st : Store) : Response * Store :=
  let s := server st in
  match Auth.authenticate s req with
  | inl r => (r, st)
  | inr user =>
  match findById (issues s) (Auth.params_id req) with
  | Threw _ => (deleteFailed, st)
  | Returned None => (failure 404 "Issue not found", st)
  | Returned (Some issue) =>
      let isOwner := String.eqb (reportedBy issue) (user_id user) in
      let isAdmin := String.eqb (role user) "admin" in
      if negb isAdmin
         && (negb isOwner || negb (String.eqb (status issue) "submitted"))
      then (failure 403
              "Access denied. Only submitted issues can be deleted by their owners.",
            st)
      else if issueDeleteFails f then (deleteFailed, st)
      else
        let s1 := set_issues s (delete (Auth.params_id req) (issues s)) in
        if commentDeleteFails f
        then (deleteFailed, mkStore s1 (comments st))
        else
          let cs := deleteComments (Auth.params_id req) (comments st) in
          if notificationDeleteFails f
          then (deleteFailed, mkStore s1 cs)
          else
            (mkResponse 200 true "Issue deleted successfully" BodyNone,
             mkStore (set_notifications s1
                        (deleteNotifications (Auth.params_id req)
                           (notifications s1)))
                     cs)
  end end.

End DeleteRoute.

Module DeleteDemo.

Definition remark : CommentModel.Comment :=
  CommentModel.mkComment "i1" "c1" "Still not repaired" [] [] false [] false.

Definition elsewhere : CommentModel.Comment :=
  CommentModel.mkComment "i2" "c1" "Thank you" [] [] false [] false.

Definition about (issueId : string) : Notification :=
  mkNotification "c1" (Some "h1") "issue_updated" "Issue Status Updated"
                 "Your issue was updated" (Some issueId) "medium"
                 ("/issues/" +:+ issueId) "View Issue".

Definition store : DeleteRoute.Store :=
  DeleteRoute.mkStore
    (set_notifications Demo.server [about "i1"; about "i2"])
    [remark; elsewhere].

End DeleteDemo.

(** ** utils/socket.js: the events a socket relays *)

Module SocketRelay.

(** [socket.to(room).emit(...)] reaches the sockets of the room other
    than the socket itself; [io.emit(...)] reaches every socket. *)
Inductive Target : Type :=
| ToOthersIn (room : string) (sender : string)
| ToAll.

(** The objects the handlers emit, one constructor per event. *)
Inductive Message : Type :=
| UserTyping (userId : option ObjectId) (userName issueId : string)
| UserStoppedTyping (userId : option ObjectId) (issueId : string)
| OfficerLocationUpdate (userId : option ObjectId)
                        (userName location : string) (timestamp : Date)
| IssueUpdated (issueId newStatus : string) (updatedById : option ObjectId)
               (updatedByName : string) (timestamp : Date)
| CommentAdded (issueId comment : string) (authorId : option ObjectId)
               (authorName authorRole : string) (timestamp : Date)
| NewMessage (senderId : option ObjectId) (senderName text : string)
             (timestamp : Date)
| EmergencyNotification (alertTitle text severity : string)
                        (timestamp : Date).

Record Relay : Type := mkRelay {
  target : Target;
  relay_event : string;
  relay_message : Message
}.

(** [socket.user.firstName + ' ' + socket.user.lastName]. *)
Definition nameOf (u : User) : string := firstName u +:+ " " +:+ lastName u.

(** A handler returns what it emits, if anything; reading a property of
    [socket.user] throws when the socket has no user. *)
Definition typing_start (issueId : string) (k : Socket)
  : Completion (option Relay) :=
  match socket_user k with
  | None => Threw "TypeError"
  | Some u =>
      Returned (Some (mkRelay (ToOthersIn ("issue_" +:+ issueId)
                                          (socket_id k))
                              "user_typing"
                              (UserTyping (socket_userId k) (nameOf u)
                                          issueId)))
  end.

Definition typing_stop (issueId : string) (k : Socket)
  : Completion (option Relay) :=
  Returned (Some (mkRelay (ToOthersIn ("issue_" +:+ issueId) (socket_id k))
                          "user_stopped_typing"
                          (UserStoppedTyping (socket_userId k) issueId))).

Definition update_location (now : Date) (location : string) (k : Socket)
  : Completion (option Relay) :=
  match socket_user k with
  | None => Threw "TypeError"
  | Some u =>
      if String.eqb (role u) "field_officer"
      then Returned (Some (mkRelay
                             (ToOthersIn ("dept_" +:+ department u)
                                         (socket_id k))
                             "officer_location_update"
                             (OfficerLocationUpdate (socket_userId k)
                                                    (nameOf u) location now)))
      else Returned None
  end.

Definition issue_status_update (now : Date) (issueId newStatus : string)
    (k : Socket) : Completion (option Relay) :=
  match socket_user k with
  | None => Threw "TypeError"
  | Some u =>
      Returned (Some (mkRelay (ToOthersIn ("issue_" +:+ issueId)
                                          (socket_id k))
                              "issue_updated"
                              (IssueUpdated issueId newStatus
                                            (socket_userId k) (nameOf u)
                                            now)))
  end.

Definition new_comment (now : Date) (issueId comment : string) (k : Socket)
  : Completion (option Relay) :=
  match socket_user k with
  | None => Threw "TypeError"
  | Some u =>
      Returned (Some (mkRelay (ToOthersIn ("issue_" +:+ issueId)
                                          (socket_id k))
                              "comment_added"
                              (CommentAdded issueId comment (socket_userId k)
                                            (nameOf u) (role u) now)))
  end.

Definition direct_message (now : Date) (recipientId text : string)
    (k : Socket) : Completion (option Relay) :=
  match socket_user k with
  | None => Threw "TypeError"
  | Some u =>
      Returned (Some (mkRelay (ToOthersIn ("user_" +:+ recipientId)
                                          (socket_id k))
                              "new_message"
                              (NewMessage (socket_userId k) (nameOf u) text
                                          now)))
  end.

Definition emergency_alert (now : Date) (alertTitle text : string)
    (severity : option string) (k : Socket) : Completion (option Relay) :=
  match socket_user k with
  | None => Threw "TypeError"
  | Some u =>
      if String.eqb (role u) "admin"
      then Returned (Some (mkRelay ToAll "emergency_notification"
                             (EmergencyNotification alertTitle text
                                (match severity with
                                 | Some v => if truthy v then v else "high"
                                 | None => "high"
                                 end) now)))
      else Returned None
  end.

(** The sockets that a relayed event reaches. *)
Definition reached (r : Relay) (srv : IoServer) : list Socket :=
  List.filter (fun k => match target r with
                        | ToOthersIn room sender =>
                            bool_decide (room ∈ rooms k)
                            && negb (String.eqb (socket_id k) sender)
                        | ToAll => true
                        end) (sockets srv).

(** Whether a socket is one of a user of department [dept], for a
    department that the ['connection'] handler makes a room for. *)
Definition inDepartment (dept : string) (k : Socket) : bool :=
  match socket_user k with
  | Some u =>
      String.eqb (department u) dept
      && truthy dept && negb (String.eqb dept "general")
  | None => false
  end.

(** The socket ids of the connection attempts of a history do not look
    like the name of a room of a user or of a department. *)
Definition freshIds (es : list SocketEvents.Event) : Prop :=
  Forall (fun e => match e with
                   | SocketEvents.Connect sid _ =>
                       String.prefix "user_" sid = false
                       /\ String.prefix "dept_" sid = false
                   | _ => True
                   end) es.

End SocketRelay.

Module RelayDemo.

(** The water officer connects twice, the head of roads and the admin
    once each. *)
Definition history : list SocketEvents.Event :=
  [SocketEvents.Connect "s1" (Socket.mkHandshake (Some "jwt:o1") None);
   SocketEvents.Connect "s2" (Socket.mkHandshake (Some "jwt:h1") None);
   SocketEvents.Connect "s3" (Socket.mkHandshake (Some "jwt:o1") None);
   SocketEvents.Connect "s4" (Socket.mkHandshake (Some "jwt:a1") None);
   SocketEvents.JoinIssue "s2" "i1"].

Definition ioServer : IoServer :=
  default (mkIoServer [] [])
          (io (@SocketEvents.handleAll Demo.platform history
                 (Socket.initializeSocket Demo.server))).

Definition socketOf (sid : string) : Socket :=
  default (mkSocket sid None None ∅)
          (find (fun k => String.eqb (socket_id k) sid) (sockets ioServer)).

End RelayDemo.

(** ** Sequences of requests to the routes that write to an issue *)

Module Api.

Inductive Call : Type :=
| PatchStatus (now : Date) (f : Faults) (req : Auth.Request)
              (b : Routes.StatusBody)
| PatchAssign (now : Date) (f : Faults) (req : Auth.Request)
              (b : AssignRoute.AssignBody)
| PostUpvote (now : Date) (f : Faults) (req : Auth.Request).

Definition serve `{Platform} `{Validator} (c : Call) (s : Server)
  : Response * Server :=
  match c with
  | PatchStatus now f req b => Routes.patchStatus now f req b s
  | PatchAssign now f req b =>
      AssignRoute.patchAssign now f AssignRoute.unboundUser req b s
  | PostUpvote now f req => Routes.postUpvote now f req s
  end.

Definition serveAll `{Platform} `{Validator} (cs : list Call) (s : Server)
  : Server :=
  fold_left (fun acc c => snd (serve c acc)) cs s.

(** An issue document as a later state of another: the same issue of the
    same reporter and category, with a timeline that continues the
    earlier one. *)
Definition continues (i i' : Issue) : Prop :=
  issue_id i' = issue_id i
  /\ reportedBy i' = reportedBy i
  /\ category i' = category i
  /\ exists l, timeline i' = timeline i ++ l.

(** What a request does to the issues: nothing, or it writes a later state
    of the issue it names, valid for the schema and with upvotes of the
    same users at most once each. *)
Definition writesOneIssue (s s' : Server) : Prop :=
  issues s' = issues s
  \/ exists issue issue',
      (exists k, issues s !! k = Some issue)
      /\ issues s' = <[issue_id issue := issue']> (issues s)
      /\ continues issue issue'
      /\ IssueModel.schemaValid issue' = true
      /\ ((forall v, (upvotesOf v (upvotes issue) <= 1)%nat) ->
          forall v, (upvotesOf v (upvotes issue') <= 1)%nat).

End Api.

Module ApiDemo.

(** The citizen upvotes the pothole, the head of roads takes it in
    progress, the admin assigns it to the water department, and the
    citizen takes the upvote back. *)
Definition calls : list Api.Call :=
  [Api.PostUpvote 10 noFaults (Demo.bearer "c1" "i1");
   Api.PatchStatus 20 noFaults (Demo.bearer "h1" "i1")
     (Demo.to "in_progress");
   Api.PatchAssign 30 noFaults (Demo.bearer "a1" "i1")
     (AssignDemo.toDepartment "water");
   Api.PostUpvote 40 noFaults (Demo.bearer "c1" "i1")].

End ApiDemo.

(** * Properties *)

(** ** The issue document: timeline and resolution time *)

Section IssueFacts.
Import IssueModel.

Lemma timeline_updateStatus now newStatus by_ notes i :
  timeline (updateStatus now newStatus by_ notes i)
  = timeline i ++ [statusEntry now (status i) newStatus by_ notes].
Proof.
  unfold updateStatus. destruct (String.eqb newStatus "resolved"); reflexivity.
Qed.

Lemma status_updateStatus now newStatus by_ notes i :
  status (updateStatus now newStatus by_ notes i) = newStatus.
Proof.
  unfold updateStatus. destruct (String.eqb newStatus "resolved"); reflexivity.
Qed.

Lemma actualResolutionTime_updateStatus now newStatus by_ notes i :
  actualResolutionTime (updateStatus now newStatus by_ notes i)
  = if String.eqb newStatus "resolved" then Some now
    else actualResolutionTime i.
Proof.
  unfold updateStatus. destruct (String.eqb newStatus "resolved"); reflexivity.
Qed.

Lemma frame_updateStatus now newStatus by_ notes i :
  let i' := updateStatus now newStatus by_ notes i in
  issue_id i' = issue_id i /\ title i' = title i
  /\ category i' = category i /\ reportedBy i' = reportedBy i
  /\ upvotes i' = upvotes i
  /\ estimatedResolutionTime i' = estimatedResolutionTime i.
Proof.
  unfold updateStatus.
  destruct (String.eqb newStatus "resolved"); cbn; repeat split.
Qed.

Lemma timeline_apply o i :
  timeline (apply o i) = timeline i ++ [entryOf o (status i)].
Proof.
  destruct o; cbn [apply entryOf]; try reflexivity.
  apply timeline_updateStatus.
Qed.

Lemma status_apply o i : status (apply o i) = statusAfter o (status i).
Proof.
  destruct o; cbn [apply statusAfter]; try reflexivity.
  apply status_updateStatus.
Qed.

Lemma timeline_run ops :
  forall i, timeline (run ops i) = timeline i ++ entriesOf ops (status i).
Proof.
  induction ops as [|o ops IH]; intros i; cbn [run fold_left entriesOf].
  - now rewrite app_nil_r.
  - fold (run ops (apply o i)).
    rewrite IH, timeline_apply, status_apply, <- app_assoc. reflexivity.
Qed.

Lemma statusChanges_app l1 l2 :
  statusChanges (l1 ++ l2) = statusChanges l1 ++ statusChanges l2.
Proof. unfold statusChanges. apply omap_app. Qed.

Lemma statusChanges_entriesOf ops :
  forall st, statusChanges (entriesOf ops st) = transitionsOf ops st.
Proof.
  induction ops as [|o ops IH]; intros st; [reflexivity|].
  destruct o; cbn; rewrite IH; reflexivity.
Qed.

Lemma statusChanges_run ops i :
  statusChanges (timeline (run ops i))
  = statusChanges (timeline i) ++ transitionsOf ops (status i).
Proof.
  now rewrite timeline_run, statusChanges_app, statusChanges_entriesOf.
Qed.

End IssueFacts.

(** ** Authentication *)

Section AuthFacts.
Context `{Platform}.

Lemma authenticate_failure s req r :
  Auth.authenticate s req = inl r -> success r = false.
Proof.
  unfold Auth.authenticate.
  repeat (match goal with
          | |- context [match ?x with _ => _ end] => destruct x eqn:?
          end; try discriminate);
    intros [= <-]; reflexivity.
Qed.

(** Whoever [authenticate] lets through is an active stored user. *)
Lemma authenticate_user s req user :
  Auth.authenticate s req = inr user ->
  exists id, isObjectId id = true /\ users s !! id = Some user
             /\ isActive user = true.
Proof.
  unfold Auth.authenticate.
  destruct (orElse _ _) as [tok|]; [|discriminate].
  destruct (negb (truthy tok)); [discriminate|].
  destruct (jwtVerify tok) as [id|]; [|discriminate].
  unfold findById. destruct (isObjectId id) eqn:Hid; [|discriminate].
  destruct (users s !! id) as [u|] eqn:Hu; [|discriminate].
  destruct (isActive u) eqn:Hact; cbn; [|discriminate].
  intros [= <-]. eauto.
Qed.

(** Authentication reads the users only through their [isActive] flag:
    raising contribution scores does not change who gets through. *)
Lemma authenticate_after_score s s' req user d :
  Auth.authenticate s req = inr user ->
  users s' = alter (add_contributionScore d) (user_id user) (users s) ->
  (forall k u, users s !! k = Some u -> user_id u = k) ->
  Auth.authenticate s' req = inr (add_contributionScore d user).
Proof.
  intros Hauth Hus Hkey. revert Hauth. unfold Auth.authenticate.
  destruct (orElse _ _) as [tok|]; [|discriminate].
  destruct (negb (truthy tok)); [discriminate|].
  destruct (jwtVerify tok) as [id|]; [|discriminate].
  unfold findById. destruct (isObjectId id) eqn:Hid; [|discriminate].
  destruct (users s !! id) as [u|] eqn:Hu; [|discriminate].
  destruct (isActive u) eqn:Hact; cbn; [|discriminate].
  intros [= <-]. rewrite Hus, (Hkey _ _ Hu), lookup_alter_eq, Hu. cbn.
  rewrite Hact. reflexivity.
Qed.

End AuthFacts.

(** ** PATCH /:id/status *)

Section StatusFacts.
Context `{Platform}.
Import IssueModel Routes.

Lemma createNotification_frame f d s r s' :
  NotificationModel.createNotification f d s = (r, s') ->
  issues s' = issues s /\ users s' = users s.
Proof.
  unfold NotificationModel.createNotification.
  destruct (notificationWriteFails f d); [intros [= <- <-]; auto|].
  cbn. destruct (io s); intros [= <- <-]; auto.
Qed.

Lemma createNotification_ok d s :
  exists s', NotificationModel.createNotification noFaults d s
             = (Returned d, s')
             /\ notifications s' = notifications s ++ [d].
Proof.
  unfold NotificationModel.createNotification. cbn.
  destruct (io s); eexists; split; reflexivity.
Qed.

Lemma setEstimate_frame e i :
  let i' := setEstimate e i in
  issue_id i' = issue_id i /\ timeline i' = timeline i
  /\ status i' = status i /\ category i' = category i
  /\ actualResolutionTime i' = actualResolutionTime i
  /\ upvotes i' = upvotes i.
Proof.
  unfold setEstimate. destruct e as [t|]; [destruct (truthy t)|];
    cbn; repeat split.
Qed.

Lemma issue_id_written e now newStatus by_ notes i :
  issue_id (setEstimate e (updateStatus now newStatus by_ notes i))
  = issue_id i.
Proof.
  rewrite (proj1 (setEstimate_frame e _)).
  apply (frame_updateStatus now newStatus by_ notes i).
Qed.

(** Every outcome of the handler: either nothing was written and the
    answer is a failure, or every check passed and the issue, with its
    status changed, was saved under its [_id]; the answer is then 200,
    or 500 when the notification of the reporter could not be saved. *)
Lemma patchStatus_inv now f req b s r s' :
  patchStatus now f req b s = (r, s') ->
  (s' = s /\ success r = false)
  \/ exists user issue newStatus notes,
      Auth.authenticate s req = inr user
      /\ includes ["admin"; "department_head"; "field_officer"] (role user)
         = true
      /\ validateStatusBody b = Some (newStatus, notes)
      /\ issues s !! Auth.params_id req = Some issue
      /\ (role user = "admin" \/ department user = category issue)
      /\ schemaValid
           (setEstimate (body_estimatedResolutionTime b)
              (updateStatus now newStatus (user_id user) (default "" notes)
                 issue)) = true
      /\ issues s'
         = <[issue_id issue :=
               setEstimate (body_estimatedResolutionTime b)
                 (updateStatus now newStatus (user_id user)
                    (default "" notes) issue)]> (issues s)
      /\ users s' = users s
      /\ (r = mkResponse 200 true "Issue status updated successfully"
                (BodyIssue
                   (setEstimate (body_estimatedResolutionTime b)
                      (updateStatus now newStatus (user_id user)
                         (default "" notes) issue)))
          \/ r = statusFailed).
Proof.
  unfold patchStatus.
  destruct (Auth.authenticate s req) as [r0|user] eqn:Hauth.
  { intros [= <- <-]. left. split; [reflexivity|].
    eapply authenticate_failure; eauto. }
  unfold Auth.authorize.
  destruct (includes _ (role user)) eqn:Hrole; cbn [negb];
    [|intros [= <- <-]; left; auto].
  destruct (validateStatusBody b) as [[newStatus notes]|] eqn:Hval;
    [|intros [= <- <-]; left; auto].
  unfold findById.
  destruct (isObjectId (Auth.params_id req)) eqn:Hid;
    [|intros [= <- <-]; left; auto].
  destruct (issues s !! Auth.params_id req) as [issue|] eqn:Hissue;
    [|intros [= <- <-]; left; auto].
  destruct (negb (String.eqb (role user) "admin")
            && negb (String.eqb (department user) (category issue)))
    eqn:Hdept; [intros [= <- <-]; left; auto|].
  unfold saveIssue.
  destruct (schemaValid _) eqn:Hvalid; cbn [negb];
    [|intros [= <- <-]; left; auto].
  destruct (issueWriteFails f); [intros [= <- <-]; left; auto|].
  destruct (NotificationModel.createNotification _ _ _) as [res s2] eqn:Hn.
  apply createNotification_frame in Hn as [Hi Hu]. cbn in Hi, Hu.
  intros Heq. right. exists user, issue, newStatus, notes.
  repeat (split; [first [assumption | reflexivity]|]).
  split.
  { apply andb_false_iff in Hdept as [Hd|Hd];
      apply negb_false_iff, String.eqb_eq in Hd; auto. }
  split; [assumption|].
  rewrite issue_id_written in Hi.
  destruct res; [destruct populateChain|]; inversion Heq; subst; auto.
Qed.

Lemma includes_In l x : includes l x = true <-> List.In x l.
Proof.
  unfold includes. rewrite existsb_exists. split.
  - intros (y & Hy & Heq). apply String.eqb_eq in Heq. now subst.
  - intros Hin. exists x. split; [assumption|apply String.eqb_refl].
Qed.

Lemma validateStatusBody_ok b newStatus :
  body_status b = Some newStatus ->
  List.In newStatus statusEnum ->
  (forall n, body_notes b = Some n -> (String.length (trim n) <= 500)%nat) ->
  validateStatusBody b = Some (newStatus, trim <$> body_notes b).
Proof.
  intros Hst Hin Hnotes. unfold validateStatusBody. rewrite Hst.
  apply includes_In in Hin. rewrite Hin. cbn [andb].
  destruct (body_notes b) as [n|]; cbn; [|reflexivity].
  specialize (Hnotes n eq_refl). apply Nat.leb_le in Hnotes.
  now rewrite Hnotes.
Qed.

Lemma validateStatusBody_status b newStatus notes :
  validateStatusBody b = Some (newStatus, notes) ->
  body_status b = Some newStatus /\ List.In newStatus statusEnum.
Proof.
  unfold validateStatusBody. destruct (body_status b) as [st|]; [|discriminate].
  destruct (includes statusEnum st) eqn:Hin; [|discriminate].
  destruct (match trim <$> body_notes b with Some _ => _ | None => _ end);
    [|discriminate].
  intros [= <- <-]. split; [reflexivity|now apply includes_In].
Qed.

(** What the schema makes of the issue the handler is about to save. *)
Lemma schemaValid_written e now newStatus by_ notes i :
  schemaValid (setEstimate e (updateStatus now newStatus by_ notes i))
  = includes statusEnum newStatus
    && includes categoryEnum (category i)
    && (forallb (fun x => includes timelineActionEnum (action x))
                (timeline i)
        && includes timelineActionEnum newStatus)
    && validDate (estimatedResolutionTime
                    (setEstimate e (updateStatus now newStatus by_ notes i))).
Proof.
  unfold schemaValid.
  destruct (setEstimate_frame e (updateStatus now newStatus by_ notes i))
    as (_ & -> & -> & -> & _).
  rewrite timeline_updateStatus, status_updateStatus, forallb_app.
  cbn [forallb statusEntry action]. rewrite andb_true_r.
  now rewrite (proj1 (proj2 (proj2 (frame_updateStatus now newStatus by_
                                      notes i)))).
Qed.

(** C1.  An authorized actor should be able to move an existing issue to
    any of the seven statuses, whatever its current status.  For the
    target ["submitted"] the handler does not: for every current status,
    every authorized actor and every outcome of the database, the request
    is answered with the 500 of the [catch] and nothing is written.
    [updateStatus] pushes a timeline entry whose action is the new status,
    and ["submitted"] is not in the enum of [timeline.action], so
    [issue.save()] rejects.  For the other six targets see
    [patchStatus_ok]. *)
Theorem status_change_to_submitted_is_not_saved
    now f req b s user issue notes :
  Auth.authenticate s req = inr user ->
  includes ["admin"; "department_head"; "field_officer"] (role user) = true ->
  validateStatusBody b = Some ("submitted", notes) ->
  isObjectId (Auth.params_id req) = true ->
  issues s !! Auth.params_id req = Some issue ->
  (role user = "admin" \/ department user = category issue) ->
  patchStatus now f req b s = (statusFailed, s).
Proof.
  intros Hauth Hrole Hval Hid Hissue Hdept.
  unfold patchStatus, Auth.authorize, findById.
  rewrite Hauth, Hrole, Hval, Hid, Hissue. cbn [negb].
  assert (negb (String.eqb (role user) "admin")
          && negb (String.eqb (department user) (category issue)) = false)
    as ->.
  { destruct Hdept as [-> | ->]; [reflexivity|].
    rewrite String.eqb_refl. apply andb_false_r. }
  unfold saveIssue. rewrite schemaValid_written.
  replace (includes timelineActionEnum "submitted") with false
    by reflexivity.
  rewrite andb_false_r, andb_false_r. reflexivity.
Qed.

(** A change to any of the other six statuses, from any status, is
    saved when the database refuses nothing; the answer is 200 when the
    chained [populate] returns and the 500 of the [catch] when it
    throws. *)
Lemma patchStatus_ok now req b s user issue newStatus :
  Auth.authenticate s req = inr user ->
  (role user = "admin"
   \/ ((role user = "department_head" \/ role user = "field_officer")
       /\ department user = category issue)) ->
  isObjectId (Auth.params_id req) = true ->
  issues s !! Auth.params_id req = Some issue ->
  schemaValid issue = true ->
  body_status b = Some newStatus ->
  List.In newStatus statusEnum ->
  newStatus <> "submitted" ->
  (forall n, body_notes b = Some n -> (String.length (trim n) <= 500)%nat) ->
  (forall e, body_estimatedResolutionTime b = Some e -> truthy e = true ->
             newDate e <> InvalidDate) ->
  exists s',
    patchStatus now noFaults req b s
    = (match populateChain with
       | Threw _ => statusFailed
       | Returned _ =>
           mkResponse 200 true "Issue status updated successfully"
             (BodyIssue
                (setEstimate (body_estimatedResolutionTime b)
                   (updateStatus now newStatus (user_id user)
                      (default "" (trim <$> body_notes b)) issue)))
       end, s')
    /\ issues s'
       = <[issue_id issue :=
             setEstimate (body_estimatedResolutionTime b)
               (updateStatus now newStatus (user_id user)
                  (default "" (trim <$> body_notes b)) issue)]> (issues s)
    /\ users s' = users s.
Proof.
  intros Hauth Hactor Hid Hissue Hvalid Hst Hin Hne Hnotes Hest.
  unfold patchStatus, Auth.authorize, findById.
  rewrite Hauth, (validateStatusBody_ok b newStatus Hst Hin Hnotes), Hid,
    Hissue.
  assert (includes ["admin"; "department_head"; "field_officer"] (role user)
          = true) as ->.
  { apply includes_In. cbn. intuition. }
  cbn [negb].
  assert (negb (String.eqb (role user) "admin")
          && negb (String.eqb (department user) (category issue)) = false)
    as ->.
  { destruct Hactor as [-> | [_ ->]]; [reflexivity|].
    rewrite String.eqb_refl. apply andb_false_r. }
  unfold saveIssue. rewrite schemaValid_written.
  unfold schemaValid in Hvalid.
  apply andb_prop in Hvalid as [Hvalid Hdate].
  apply andb_prop in Hvalid as [Hvalid Htl].
  apply andb_prop in Hvalid as [_ Hcat].
  rewrite Hcat, Htl, (proj2 (includes_In _ _) Hin).
  assert (includes timelineActionEnum newStatus = true) as ->.
  { cbn in Hin. destruct Hin as [<- | Hin]; [congruence|].
    repeat (destruct Hin as [<- | Hin]; [reflexivity|]). destruct Hin. }
  assert (validDate
            (estimatedResolutionTime
               (setEstimate (body_estimatedResolutionTime b)
                  (updateStatus now newStatus (user_id user)
                     (default "" (trim <$> body_notes b)) issue))) = true)
    as ->.
  { unfold setEstimate.
    destruct (body_estimatedResolutionTime b) as [e|] eqn:He.
    - destruct (truthy e) eqn:Ht.
      + cbn. specialize (Hest e eq_refl Ht). now destruct (newDate e).
      + now rewrite (proj2 (proj2 (proj2 (proj2 (proj2
               (frame_updateStatus now newStatus (user_id user)
                  (default "" (trim <$> body_notes b)) issue)))))).
    - now rewrite (proj2 (proj2 (proj2 (proj2 (proj2
               (frame_updateStatus now newStatus (user_id user)
                  (default "" (trim <$> body_notes b)) issue)))))). }
  cbn [andb negb issueWriteFails noFaults].
  rewrite issue_id_written.
  match goal with
  | |- context [NotificationModel.createNotification noFaults ?d ?s0] =>
      destruct (createNotification_ok d s0) as (s' & Hc & _);
      pose proof (createNotification_frame _ _ _ _ _ Hc) as [Hi Hu];
      rewrite Hc
  end.
  exists s'. split; [now destruct populateChain|]. split; assumption.
Qed.

End StatusFacts.

Lemma demo_store_ok : StoreOk Demo.server.
Proof.
  repeat split; refine (bool_decide_unpack _ _); vm_compute; exact I.
Defined.

Lemma status_change_to_submitted_witness :
  @Routes.patchStatus Demo.platform 5000 noFaults (Demo.bearer "a1" "i1")
    (Demo.to "submitted") Demo.server
  = (Routes.statusFailed, Demo.server).
Proof.
  apply (@status_change_to_submitted_is_not_saved Demo.platform 5000 noFaults
           (Demo.bearer "a1" "i1") (Demo.to "submitted") Demo.server
           Demo.admin Demo.pothole None);
    first [reflexivity | left; reflexivity].
Defined.

Section StatusProperties.
Context `{Platform}.
Import IssueModel Routes.

(** The handler keeps the invariant of the stored documents. *)
Lemma patchStatus_StoreOk now f req b s :
  StoreOk s -> StoreOk (snd (patchStatus now f req b s)).
Proof.
  intros Hok. destruct (patchStatus now f req b s) as [r s'] eqn:Hrun.
  cbn [snd]. apply patchStatus_inv in Hrun
    as [[-> _] | (u & i & st & nt & _ & _ & _ & Hi & _ & Hv & Hw & Hu & _)];
    [assumption|].
  destruct Hok as (Hkey & Hvalid & Hukey). unfold StoreOk.
  rewrite Hw, Hu. repeat split; [| |exact Hukey].
  - intros k x. rewrite lookup_insert.
    destruct (decide (issue_id i = k)) as [<- | Hne]; [|apply Hkey].
    intros [= <-]. apply issue_id_written.
  - intros k x. rewrite lookup_insert.
    destruct (decide (issue_id i = k)) as [<- | Hne]; [|apply Hvalid].
    now intros [= <-].
Qed.

(** The handler leaves the upvotes of every stored issue alone. *)
Lemma patchStatus_keeps_upvotes now f req b s k :
  StoreOk s ->
  upvotes <$> issues (snd (patchStatus now f req b s)) !! k
  = upvotes <$> issues s !! k.
Proof.
  intros (Hkey & _ & _).
  destruct (patchStatus now f req b s) as [r s'] eqn:Hrun. cbn [snd].
  apply patchStatus_inv in Hrun
    as [[-> _] | (u & i & st & nt & _ & _ & _ & Hi & _ & _ & Hw & _)];
    [reflexivity|].
  rewrite Hw, (Hkey _ _ Hi).
  destruct (decide (Auth.params_id req = k)) as [<- | Hne].
  - rewrite lookup_insert_eq, Hi. cbn. f_equal.
    rewrite (proj2 (proj2 (proj2 (proj2 (proj2 (setEstimate_frame _ _)))))).
    apply (frame_updateStatus now st (user_id u) (default "" nt) i).
  - now rewrite lookup_insert_ne.
Qed.

(** C6.  A status change asked by an authenticated actor who is not an
    admin and whose department is not the category of the issue is
    answered with a 403, and one that names no stored issue with a 404;
    in both cases the answer is given in the request itself and the
    state, hence the status and the timeline of the issue, is the one
    before the request. *)
Theorem status_change_refused_leaves_issue_unchanged
    now f req b s user newStatus notes :
  Auth.authenticate s req = inr user ->
  validateStatusBody b = Some (newStatus, notes) ->
  isObjectId (Auth.params_id req) = true ->
  (forall issue,
      issues s !! Auth.params_id req = Some issue ->
      role user <> "admin" ->
      department user <> category issue ->
      exists msg, patchStatus now f req b s = (failure 403 msg, s))
  /\ (issues s !! Auth.params_id req = None ->
      includes ["admin"; "department_head"; "field_officer"] (role user)
      = true ->
      patchStatus now f req b s = (failure 404 "Issue not found", s)).
Proof.
  intros Hauth Hval Hid. split.
  - intros issue Hissue Hrole Hdept.
    unfold patchStatus, Auth.authorize. rewrite Hauth.
    destruct (includes _ (role user)); cbn [negb]; [|eauto].
    unfold findById. rewrite Hval, Hid, Hissue.
    apply String.eqb_neq in Hrole, Hdept. rewrite Hrole, Hdept. cbn. eauto.
  - intros Hissue Hrole.
    unfold patchStatus, Auth.authorize, findById.
    now rewrite Hauth, Hrole, Hval, Hid, Hissue.
Qed.

(** C7.  [updateStatus] sets [actualResolutionTime] to the time of the
    call exactly when the new status is ["resolved"], and leaves it as it
    was for any other status.  A status change to ["resolved"] by an
    authorized actor is saved with the time of the request as its
    [actualResolutionTime], in the same save as the status; the stamp is
    stored whether the request is then answered 200 or, when the chained
    [populate] throws, 500.  A request whose target is any other status
    leaves the [actualResolutionTime] of every stored issue as it was,
    whatever its outcome. *)
Theorem resolved_stamps_actual_resolution_time now req b s :
  StoreOk s ->
  (forall newStatus by_ notes i,
      actualResolutionTime (updateStatus now newStatus by_ notes i)
      = if String.eqb newStatus "resolved" then Some now
        else actualResolutionTime i)
  /\ (forall user issue,
      Auth.authenticate s req = inr user ->
      (role user = "admin"
       \/ ((role user = "department_head" \/ role user = "field_officer")
           /\ department user = category issue)) ->
      isObjectId (Auth.params_id req) = true ->
      issues s !! Auth.params_id req = Some issue ->
      (forall n, body_notes b = Some n ->
                 (String.length (trim n) <= 500)%nat) ->
      (forall e, body_estimatedResolutionTime b = Some e ->
                 truthy e = true -> newDate e <> InvalidDate) ->
      body_status b = Some "resolved" ->
      exists r s' issue',
        patchStatus now noFaults req b s = (r, s')
        /\ code r = match populateChain with
                    | Returned _ => 200
                    | Threw _ => 500
                    end
        /\ issues s' !! Auth.params_id req = Some issue'
        /\ status issue' = "resolved"
        /\ actualResolutionTime issue' = Some now)
  /\ (body_status b <> Some "resolved" ->
      forall f k,
        actualResolutionTime <$> issues (snd (patchStatus now f req b s)) !! k
        = actualResolutionTime <$> issues s !! k).
Proof.
  intros (Hkey & Hvalid & _).
  split; [intros; apply actualResolutionTime_updateStatus|]. split.
  - intros user issue Hauth Hactor Hid Hissue Hnotes Hest Hst.
    destruct (patchStatus_ok now req b s user issue "resolved" Hauth Hactor
                Hid Hissue (Hvalid _ _ Hissue) Hst)
      as (s' & Hrun & Hi & _); [cbn; tauto|discriminate|assumption..|].
    eexists _, s', _. split; [exact Hrun|].
    split; [now destruct populateChain|].
    rewrite Hi, (Hkey _ _ Hissue), lookup_insert_eq.
    split; [reflexivity|].
    destruct (setEstimate_frame (body_estimatedResolutionTime b)
                (updateStatus now "resolved" (user_id user)
                   (default "" (trim <$> body_notes b)) issue))
      as (_ & _ & -> & _ & -> & _).
    now rewrite status_updateStatus, actualResolutionTime_updateStatus.
  - intros Hst f k.
    destruct (patchStatus now f req b s) as [r s'] eqn:Hrun. cbn [snd].
    apply patchStatus_inv in Hrun
      as [[-> _] | (u & i & st & nt & _ & _ & Hval & Hi & _ & _ & Hw & _)];
      [reflexivity|].
    rewrite Hw, (Hkey _ _ Hi).
    destruct (decide (Auth.params_id req = k)) as [<- | Hne].
    + rewrite lookup_insert_eq, Hi. cbn. f_equal.
      destruct (setEstimate_frame (body_estimatedResolutionTime b)
                  (updateStatus now st (user_id u) (default "" nt) i))
        as (_ & _ & _ & _ & -> & _).
      rewrite actualResolutionTime_updateStatus.
      destruct (String.eqb st "resolved") eqn:Heq; [|reflexivity].
      apply String.eqb_eq in Heq. subst st.
      apply validateStatusBody_status in Hval as [Hb _]. congruence.
    + now rewrite lookup_insert_ne.
Qed.

(** C2.  Every status transition appends exactly one entry to the
    timeline, which records the old status, the new status and the
    notes, and leaves the entries before it as they were.  After any
    sequence of writes to the document the timeline is the initial one
    followed by one entry per write, in the order of the writes; the
    transitions it records are those of the initial timeline followed by
    every transition applied, once each and in the order of application;
    and the timeline never gets shorter.  A request for a status change
    either writes nothing, or saves the issue with the new status and
    with exactly that one entry more, and touches no other issue; it
    does the latter whenever it answers with success. *)
Theorem timeline_records_every_transition_once :
  (forall now newStatus by_ notes i,
      timeline (updateStatus now newStatus by_ notes i)
      = timeline i ++ [statusEntry now (status i) newStatus by_ notes])
  /\ (forall ops i,
         timeline (run ops i) = timeline i ++ entriesOf ops (status i)
         /\ statusChanges (timeline (run ops i))
            = statusChanges (timeline i) ++ transitionsOf ops (status i)
         /\ (List.length (timeline i)
             <= List.length (timeline (run ops i)))%nat)
  /\ (forall now f req b s r s' issue,
         StoreOk s ->
         issues s !! Auth.params_id req = Some issue ->
         patchStatus now f req b s = (r, s') ->
         let written :=
           exists newStatus by_ notes issue',
             body_status b = Some newStatus
             /\ issues s' !! Auth.params_id req = Some issue'
             /\ status issue' = newStatus
             /\ timeline issue'
                = timeline issue
                  ++ [statusEntry now (status issue) newStatus by_ notes]
             /\ forall k, k <> Auth.params_id req ->
                          issues s' !! k = issues s !! k in
         (issues s' = issues s \/ written)
         /\ (success r = true -> written)).
Proof.
  split; [exact timeline_updateStatus|]. split.
  - intros ops i. rewrite timeline_run. split; [reflexivity|]. split.
    + now rewrite statusChanges_app, statusChanges_entriesOf.
    + rewrite length_app. lia.
  - intros now f req b s r s' issue (Hkey & _ & _) Hissue Hrun written.
    apply patchStatus_inv in Hrun
      as [[-> Hr] | (u & i & st & nt & _ & _ & Hval & Hi & _ & _ & Hw & _)].
    { split; [now left|]. intros Hs. congruence. }
    assert (written) as Hwritten.
    { rewrite Hissue in Hi. injection Hi as <-.
      exists st, (user_id u), (default "" nt), 
        (setEstimate (body_estimatedResolutionTime b)
           (updateStatus now st (user_id u) (default "" nt) issue)).
      destruct (setEstimate_frame (body_estimatedResolutionTime b)
                  (updateStatus now st (user_id u) (default "" nt) issue))
        as (_ & -> & -> & _).
      rewrite Hw, (Hkey _ _ Hissue), lookup_insert_eq.
      split; [apply (validateStatusBody_status _ _ _ Hval)|].
      split; [reflexivity|]. split; [apply status_updateStatus|].
      split; [apply timeline_updateStatus|].
      intros k Hk. now rewrite lookup_insert_ne. }
    split; [now right|auto].
Qed.

End StatusProperties.

Lemma status_change_refused_witness :
  (exists msg,
      @Routes.patchStatus Demo.platform 5000 noFaults (Demo.bearer "o1" "i1")
        (Demo.to "acknowledged") Demo.server
      = (failure 403 msg, Demo.server))
  /\ @Routes.patchStatus Demo.platform 5000 noFaults (Demo.bearer "h1" "i9")
       (Demo.to "acknowledged") Demo.server
     = (failure 404 "Issue not found", Demo.server).
Proof.
  split.
  - apply (proj1 (@status_change_refused_leaves_issue_unchanged Demo.platform
                    5000 noFaults (Demo.bearer "o1" "i1")
                    (Demo.to "acknowledged") Demo.server Demo.waterOfficer
                    "acknowledged" None eq_refl eq_refl eq_refl)
             Demo.pothole); [reflexivity|discriminate|discriminate].
  - apply (proj2 (@status_change_refused_leaves_issue_unchanged Demo.platform
                    5000 noFaults (Demo.bearer "h1" "i9")
                    (Demo.to "acknowledged") Demo.server Demo.roadsHead
                    "acknowledged" None eq_refl eq_refl eq_refl));
      reflexivity.
Defined.

Lemma resolved_stamps_witness :
  (exists r s' issue',
      @Routes.patchStatus Demo.platform 5000 noFaults (Demo.bearer "h1" "i1")
        (Demo.to "resolved") Demo.server = (r, s')
      /\ code r = 500
      /\ issues s' !! "i1" = Some issue'
      /\ status issue' = "resolved"
      /\ actualResolutionTime issue' = Some 5000)
  /\ (forall f k,
        actualResolutionTime
          <$> issues (snd (@Routes.patchStatus Demo.platform 5000 f
                             (Demo.bearer "h1" "i1") (Demo.to "rejected")
                             Demo.server)) !! k
        = actualResolutionTime <$> issues Demo.server !! k).
Proof.
  split.
  - apply (proj1 (proj2 (@resolved_stamps_actual_resolution_time
                           Demo.platform 5000 (Demo.bearer "h1" "i1")
                           (Demo.to "resolved") Demo.server demo_store_ok))
             Demo.roadsHead Demo.pothole);
      try reflexivity; try discriminate.
    right. split; [left|]; reflexivity.
  - apply (proj2 (proj2 (@resolved_stamps_actual_resolution_time
                           Demo.platform 5000 (Demo.bearer "h1" "i1")
                           (Demo.to "rejected") Demo.server demo_store_ok))).
    discriminate.
Defined.

Lemma timeline_records_witness :
  exists issue',
    issues (snd (@Routes.patchStatus Demo.platform 5000 noFaults
                   (Demo.bearer "a1" "i1") (Demo.to "in_progress")
                   Demo.server)) !! "i1" = Some issue'
    /\ timeline issue'
       = [Demo.created;
          IssueModel.statusEntry 5000 "closed" "in_progress" "a1" ""].
Proof.
  destruct (proj2 (proj2 (@timeline_records_every_transition_once
                            Demo.platform))
              5000 noFaults (Demo.bearer "a1" "i1") (Demo.to "in_progress")
              Demo.server _ _ Demo.pothole demo_store_ok eq_refl
              (surjective_pairing _))
    as [[Hsame | (st & by_ & notes & issue' & Hst & Hi & _)] _].
  - apply (f_equal (fun m => status <$> m !! "i1")) in Hsame.
    vm_compute in Hsame. discriminate Hsame.
  - exists issue'. split; [exact Hi|].
    revert Hi. vm_compute. intros [= <-]. reflexivity.
Defined.

(** ** The rate limiter *)

Section RateFacts.
Variables maxRequests windowMs : Z.
Implicit Types (requests : gmap string (list Z)) (userId : string).

Lemma rateLimit_passed now userId requests :
  Auth.passed (Auth.rateLimit maxRequests windowMs now userId requests)
  = negb (Z.of_nat (List.length (Auth.validAt windowMs now (default [] (requests !! userId))))
          >=? maxRequests).
Proof.
  unfold Auth.passed, Auth.rateLimit, Auth.validAt.
  destruct (requests !! userId) as [l|] eqn:Hl; cbn [default].
  - rewrite Hl. cbn [default]. now destruct (_ >=? _).
  - rewrite lookup_insert_eq. cbn [default]. now destruct (_ >=? _).
Qed.

(** The list kept for the caller after a call: the attempts still in the
    window followed by this one when the call passes, the list as it
    was when it does not. *)
Lemma rateLimit_lookup now userId requests :
  default [] (snd (Auth.rateLimit maxRequests windowMs now userId requests)
                !! userId)
  = if Auth.passed (Auth.rateLimit maxRequests windowMs now userId requests)
    then Auth.validAt windowMs now (default [] (requests !! userId)) ++ [now]
    else default [] (requests !! userId).
Proof.
  unfold Auth.passed, Auth.rateLimit, Auth.validAt.
  destruct (requests !! userId) as [l|] eqn:Hl; cbn [default].
  - rewrite Hl. cbn [default]. destruct (_ >=? _); cbn [fst snd].
    + now rewrite Hl.
    + now rewrite lookup_insert_eq.
  - rewrite lookup_insert_eq. cbn [default].
    destruct (_ >=? _); cbn [fst snd]; now rewrite lookup_insert_eq.
Qed.

(** A call touches the list of its caller only. *)
Lemma rateLimit_other now userId requests other :
  other <> userId ->
  snd (Auth.rateLimit maxRequests windowMs now userId requests) !! other
  = requests !! other.
Proof.
  intros Hne. unfold Auth.rateLimit.
  destruct (requests !! userId) as [l|] eqn:Hl;
    destruct (_ >=? _); cbn [snd];
    rewrite ?lookup_insert_ne by congruence; reflexivity.
Qed.

Lemma filter_all_length {A} (P : A -> Prop) `{forall x, Decision (P x)}
    (l : list A) :
  (List.length l <= List.length (filter P l))%nat -> Forall P l.
Proof.
  induction l as [|x l IH]; [constructor|].
  rewrite filter_cons. destruct (decide (P x)) as [Hx|Hx]; cbn.
  - intros Hlen. constructor; [assumption|]. apply IH. lia.
  - intros Hlen. pose proof (length_filter P l). lia.
Qed.

Lemma filter_all {A} (P : A -> Prop) `{forall x, Decision (P x)}
    (l : list A) :
  Forall P l -> filter P l = l.
Proof.
  induction 1 as [|x l Hx _ IH]; [reflexivity|].
  rewrite filter_cons. destruct (decide (P x)); [|contradiction].
  now rewrite IH.
Qed.

Lemma rateLimit_bounded now userId requests :
  0 <= maxRequests ->
  Auth.bounded maxRequests requests ->
  Auth.bounded maxRequests
    (snd (Auth.rateLimit maxRequests windowMs now userId requests)).
Proof.
  intros Hmax Hb k l Hl.
  destruct (decide (k = userId)) as [-> | Hne].
  - pose proof (rateLimit_lookup now userId requests) as Hlk.
    pose proof (rateLimit_passed now userId requests) as Hp.
    rewrite Hl in Hlk. simpl in Hlk. subst l.
    destruct (Auth.passed _).
    + symmetry in Hp. apply negb_true_iff in Hp.
      rewrite Z.geb_leb in Hp. apply Z.leb_gt in Hp.
      rewrite length_app. cbn. lia.
    + destruct (requests !! userId) as [l0|] eqn:Hl0; cbn; [|lia].
      exact (Hb _ _ Hl0).
  - rewrite rateLimit_other in Hl by assumption. exact (Hb _ _ Hl).
Qed.

(** After a call, whatever its verdict, the list kept for the caller
    holds no attempt that has left the window. *)
Lemma rateLimit_pruned now userId requests l :
  0 < windowMs ->
  Auth.bounded maxRequests requests ->
  snd (Auth.rateLimit maxRequests windowMs now userId requests) !! userId
  = Some l ->
  Forall (fun time => now - time < windowMs) l.
Proof.
  intros Hw Hb Hl.
  pose proof (rateLimit_lookup now userId requests) as Hlk.
  pose proof (rateLimit_passed now userId requests) as Hp.
  rewrite Hl in Hlk. simpl in Hlk. subst l.
  destruct (Auth.passed _).
  - apply Forall_app. split.
    + apply Forall_forall. intros t Ht.
      now apply list_elem_of_filter in Ht as [Ht _].
    + repeat constructor. lia.
  - symmetry in Hp. apply negb_false_iff, Z.geb_le in Hp.
    unfold Auth.validAt in Hp.
    destruct (requests !! userId) as [l0|] eqn:Hl0; simpl in *;
      [|constructor].
    pose proof (Hb _ _ Hl0) as Hlen. cbn in Hlen.
    eapply filter_all_length with (H := fun time => Z.lt_dec _ _).
    apply Nat2Z.inj_le. etransitivity; [exact Hlen|exact Hp].
Qed.

Lemma calls_app cs1 cs2 requests :
  Auth.calls maxRequests windowMs (cs1 ++ cs2) requests
  = (fst (Auth.calls maxRequests windowMs cs1 requests)
       ++ fst (Auth.calls maxRequests windowMs cs2
                 (snd (Auth.calls maxRequests windowMs cs1 requests))),
     snd (Auth.calls maxRequests windowMs cs2
            (snd (Auth.calls maxRequests windowMs cs1 requests)))).
Proof.
  revert requests. induction cs1 as [|[k t] cs1 IH]; intros requests.
  - cbn. now destruct (Auth.calls _ _ cs2 requests).
  - cbn [app Auth.calls]. rewrite IH. reflexivity.
Qed.

Lemma calls_bounded cs :
  0 <= maxRequests ->
  forall requests,
    Auth.bounded maxRequests requests ->
    Auth.bounded maxRequests (snd (Auth.calls maxRequests windowMs cs requests)).
Proof.
  intros Hmax. induction cs as [|[k t] cs IH]; intros requests Hb;
    [assumption|].
  cbn [Auth.calls snd]. apply IH, rateLimit_bounded; assumption.
Qed.

(** Calls of one caller that all fall in one window pass as long as the
    limit is not reached, and each is recorded. *)
Lemma calls_pass userId ts :
  forall l requests,
    default [] (requests !! userId) = l ->
    (forall a, a ∈ l ++ ts -> forall b, b ∈ ts -> b - a < windowMs) ->
    Z.of_nat (List.length (l ++ ts)) <= maxRequests ->
    fst (Auth.calls maxRequests windowMs (map (pair userId) ts) requests)
    = repeat true (List.length ts)
    /\ default [] (snd (Auth.calls maxRequests windowMs
                          (map (pair userId) ts) requests) !! userId)
       = l ++ ts.
Proof.
  induction ts as [|t ts IH]; intros l requests Hl Hwin Hlen.
  - cbn. now rewrite app_nil_r.
  - cbn [map Auth.calls fst snd List.length repeat].
    pose proof (rateLimit_lookup t userId requests) as Hlk.
    pose proof (rateLimit_passed t userId requests) as Hp.
    rewrite Hl in Hlk, Hp.
    assert (Auth.validAt windowMs t l = l) as Hv.
    { apply filter_all, Forall_forall. intros a Ha.
      apply Hwin; [apply elem_of_app; now left|constructor]. }
    rewrite Hv in Hlk, Hp.
    assert (Auth.passed (Auth.rateLimit maxRequests windowMs t userId
                           requests) = true) as Hpass.
    { rewrite Hp. apply negb_true_iff. rewrite Z.geb_leb. apply Z.leb_gt.
      rewrite length_app in Hlen. cbn in Hlen. lia. }
    rewrite Hpass in Hlk |- *.
    destruct (IH (l ++ [t]) _ Hlk) as [Hf Hs].
    + intros a Ha b Hb. rewrite <- app_assoc in Ha.
      apply Hwin; [exact Ha|now constructor].
    + now rewrite <- app_assoc.
    + rewrite Hf, Hs, <- app_assoc. split; reflexivity.
Qed.

End RateFacts.

(** C4.  With a limit of 5 and a window of 1000 ms, six calls of one key
    that all fall within one window, made on a limiter that holds no
    attempt of the key still in the window, get the verdicts pass, pass,
    pass, pass, pass, refuse, and the five that passed are the attempts
    recorded for the key.  Expired attempts are dropped by the calls
    themselves: after any history of calls of the limiter, the list kept
    for the key of the last call holds no attempt that is 1000 ms old or
    older at that call. *)
Theorem rate_guard_five_per_window :
  (forall userId (requests : gmap string (list Z)) t1 t2 t3 t4 t5 t6,
      Forall (fun t0 => forall t, t ∈ [t1; t2; t3; t4; t5; t6] ->
                                  ~ t - t0 < 1000)
             (default [] (requests !! userId)) ->
      (forall a b, a ∈ [t1; t2; t3; t4; t5; t6] ->
                   b ∈ [t1; t2; t3; t4; t5; t6] -> b - a < 1000) ->
      fst (Auth.calls 5 1000 (map (pair userId) [t1; t2; t3; t4; t5; t6])
             requests)
      = [true; true; true; true; true; false]
      /\ snd (Auth.calls 5 1000 (map (pair userId) [t1; t2; t3; t4; t5])
                requests) !! userId
         = Some [t1; t2; t3; t4; t5])
  /\ (forall cs userId now l,
         snd (Auth.calls 5 1000 (cs ++ [(userId, now)]) ∅) !! userId = Some l ->
         Forall (fun time => now - time < 1000) l).
Proof.
  split.
  - intros userId requests t1 t2 t3 t4 t5 t6 Hold Hwin.
    assert (forall a b, a ∈ [t1; t2; t3; t4; t5] ->
                        b ∈ [t1; t2; t3; t4; t5; t6] -> b - a < 1000)
      as Hwin5.
    { intros a b Ha. apply Hwin.
      change [t1; t2; t3; t4; t5; t6] with ([t1; t2; t3; t4; t5] ++ [t6]).
      apply elem_of_app. now left. }
    (* the first call drops what the list held and records itself *)
    assert (Auth.validAt 1000 t1 (default [] (requests !! userId)) = [])
      as Hnone.
    { unfold Auth.validAt.
      induction Hold as [|t0 l Ht0 _ IH]; [reflexivity|].
      rewrite filter_cons_False; [exact IH|].
      apply Ht0. constructor. }
    pose proof (rateLimit_lookup 5 1000 t1 userId requests) as Hlk1.
    pose proof (rateLimit_passed 5 1000 t1 userId requests) as Hp1.
    rewrite Hnone in Hlk1, Hp1. cbn in Hp1. rewrite Hp1 in Hlk1.
    cbn [app] in Hlk1.
    destruct (calls_pass 5 1000 userId [t2; t3; t4; t5] [t1] _ Hlk1)
      as [Hf Hs].
    { intros a Ha b Hb. cbn [app] in Ha.
      apply Hwin5; [exact Ha|]. apply elem_of_cons. right.
      change [t2; t3; t4; t5; t6] with ([t2; t3; t4; t5] ++ [t6]).
      apply elem_of_app. now left. }
    { cbn. lia. }
    cbn [app] in Hs.
    assert (snd (Auth.calls 5 1000 (map (pair userId) [t1; t2; t3; t4; t5])
                   requests) !! userId = Some [t1; t2; t3; t4; t5]) as Hfive.
    { change (map (pair userId) [t1; t2; t3; t4; t5])
        with ((userId, t1) :: map (pair userId) [t2; t3; t4; t5]).
      cbn [Auth.calls snd].
      destruct (snd (Auth.calls 5 1000 (map (pair userId) [t2; t3; t4; t5])
                       (snd (Auth.rateLimit 5 1000 t1 userId requests)))
                  !! userId) as [l|].
      - exact (f_equal Some Hs).
      - change ([] = [t1; t2; t3; t4; t5]) in Hs. discriminate Hs. }
    split; [|exact Hfive].
    change (map (pair userId) [t1; t2; t3; t4; t5; t6])
      with (map (pair userId) [t1; t2; t3; t4; t5] ++ [(userId, t6)]).
    rewrite calls_app. cbn [fst snd].
    change (map (pair userId) [t1; t2; t3; t4; t5])
      with ((userId, t1) :: map (pair userId) [t2; t3; t4; t5]) at 1.
    cbn [Auth.calls fst snd]. rewrite Hp1, Hf, rateLimit_passed, Hfive.
    unfold Auth.validAt.
    rewrite (filter_all (fun time => t6 - time < 1000)); [reflexivity|].
    apply Forall_forall. intros a Ha. apply Hwin5; [exact Ha|].
    change [t1; t2; t3; t4; t5; t6] with ([t1; t2; t3; t4; t5] ++ [t6]).
    apply elem_of_app. right. constructor.
  - intros cs userId now l. rewrite calls_app. cbn [snd Auth.calls].
    apply rateLimit_pruned; [lia|].
    apply calls_bounded; [lia|]. intros k x Hk.
    now rewrite lookup_empty in Hk.
Qed.

Lemma rate_guard_witness :
  fst (Auth.calls 5 1000
         (map (pair "203.0.113.7") [0; 100; 200; 300; 400; 999]) ∅)
  = [true; true; true; true; true; false]
  /\ Forall (fun time => 2000 - time < 1000) [2000].
Proof.
  split.
  - apply (proj1 rate_guard_five_per_window "203.0.113.7" ∅ 0 100 200 300 400
             999); [constructor|].
    intros a b Ha Hb.
    repeat (apply elem_of_cons in Ha as [-> | Ha]);
      repeat (apply elem_of_cons in Hb as [-> | Hb]);
      first [lia | now apply elem_of_nil in Ha | now apply elem_of_nil in Hb].
  - apply (proj2 rate_guard_five_per_window
             (map (pair "203.0.113.7") [0; 100; 200; 300; 400])
             "203.0.113.7" 2000 [2000]).
    vm_compute. reflexivity.
Defined.

(** ** The socket server *)

Section SocketFacts.
Context `{Platform}.
Import Socket.

Lemma authMiddleware_bad s h :
  BadCredential s h -> exists msg, authMiddleware s h = inl msg.
Proof.
  unfold authMiddleware, findById.
  intros [[Ht | Ht] | tok name Ht Hv | tok id Ht Hv Hu | tok id u Ht Hv Hu Ha];
    rewrite Ht; try (cbn; eauto; fail);
    destruct (negb (truthy tok)); eauto; rewrite Hv; eauto.
  - destruct (isObjectId id); [rewrite Hu|]; eauto.
  - destruct (isObjectId id); [rewrite Hu, Ha|]; cbn; eauto.
Qed.

Lemma find_fresh sid (g : Socket -> Socket) l :
  Forall (fun k => socket_id k <> sid) l ->
  find (fun k => String.eqb (socket_id k) sid)
       (map (fun k => if String.eqb (socket_id k) sid then g k else k) l)
  = None.
Proof.
  induction 1 as [|k l Hk _ IH]; [reflexivity|].
  apply String.eqb_neq in Hk. cbn. now rewrite Hk, Hk.
Qed.

(** A credential of an active stored user gets the connection, and the
    socket is then in the rooms of the user and of their role. *)
Lemma connect_accepts sid h s srv tok id u :
  io s = Some srv ->
  handshakeToken h = Some tok -> truthy tok = true ->
  jwtVerify tok = Returned id -> isObjectId id = true ->
  users s !! id = Some u -> isActive u = true ->
  fresh sid s ->
  fst (connect sid h s) = Connected
  /\ {[ "user_" +:+ user_id u; "role_" +:+ role u ]}
       ⊆ roomsOf sid (snd (connect sid h s)).
Proof.
  intros Hio Ht Htr Hv Hid Hu Ha Hfresh.
  unfold connect, authMiddleware, findById.
  rewrite Hio, Ht, Htr, Hv, Hid, Hu, Ha. cbn [negb fst snd].
  split; [reflexivity|].
  unfold roomsOf. cbn [io set_io sockets].
  unfold fresh in Hfresh. rewrite Hio in Hfresh.
  assert (forall k0,
             socket_id k0 = sid ->
             find (fun k => String.eqb (socket_id k) sid)
                  (sockets srv ++ [k0]) = Some k0) as Hfind.
  { intros k0 Hk0. induction Hfresh as [|k l Hk _ IH]; cbn.
    - now rewrite Hk0, String.eqb_refl.
    - apply String.eqb_neq in Hk. now rewrite Hk. }
  rewrite Hfind.
  - unfold onConnection, join.
    assert ({[ "user_" +:+ user_id u; "role_" +:+ role u ]}
            ⊆ ({[ "role_" +:+ role u ]}
               ∪ ({[ "user_" +:+ user_id u ]} ∪ ({[ sid ]} : gset string))))
      as Hsub.
    { intros x Hx. apply elem_of_union in Hx as [Hx | Hx];
        apply elem_of_singleton in Hx; subst x.
      - apply elem_of_union_r, elem_of_union_l. now apply elem_of_singleton.
      - apply elem_of_union_l. now apply elem_of_singleton. }
    destruct (truthy (department u) && _); cbn [rooms]; [|exact Hsub].
    intros x Hx. apply elem_of_union_r. now apply Hsub.
  - unfold onConnection, join.
    now destruct (truthy (department u) && _).
Qed.

(** C5.  A connection attempt that presents no credential, one that
    [jwt.verify] refuses (invalid or expired), or one of a user that is
    missing or inactive, is refused by the middleware: the state of the
    server is the one before the attempt, so the socket was registered
    nowhere and joined no room, no later [join_issue] for its id puts it
    in a room, and [getConnectedUsers] returns what it returned
    before. *)
Theorem bad_credential_is_refused_before_any_join sid h s srv :
  io s = Some srv ->
  fresh sid s ->
  BadCredential s h ->
  exists msg,
    connect sid h s = (Refused msg, s)
    /\ roomsOf sid (snd (connect sid h s)) = ∅
    /\ (forall issueId,
           roomsOf sid (join_issue sid issueId (snd (connect sid h s))) = ∅)
    /\ (forall now,
           getConnectedUsers now (snd (connect sid h s))
           = getConnectedUsers now s)
    /\ fresh sid (snd (connect sid h s)).
Proof.
  intros Hio Hfresh Hbad.
  destruct (authMiddleware_bad s h Hbad) as [msg Hmsg].
  assert (connect sid h s = (Refused msg, s)) as Hc.
  { unfold connect. now rewrite Hio, Hmsg. }
  exists msg. rewrite Hc. cbn [snd].
  unfold fresh in Hfresh. rewrite Hio in Hfresh.
  split; [reflexivity|]. split; [|split; [|split]].
  - unfold roomsOf. rewrite Hio.
    pose proof (find_fresh sid (fun k => k) _ Hfresh) as Hf.
    rewrite (map_ext _ (fun k => k)), map_id in Hf; [now rewrite Hf|].
    intros k. now destruct (String.eqb _ _).
  - intros issueId. unfold roomsOf, join_issue, updateSocket.
    rewrite Hio. cbn. now rewrite find_fresh.
  - reflexivity.
  - unfold fresh. now rewrite Hio.
Qed.

(** C10.  While the socket server is not initialized ([io] is [null]) the
    emit helpers and [broadcastNotification] return without a throw and
    without an effect, whatever their arguments, and [getConnectedUsers]
    returns the empty list. *)
Theorem emit_helpers_do_nothing_without_io s :
  io s = None ->
  (forall userId ev data, emitToUser userId ev data s = (Returned tt, s))
  /\ (forall r ev data, emitToRole r ev data s = (Returned tt, s))
  /\ (forall d ev data, emitToDepartment d ev data s = (Returned tt, s))
  /\ (forall issueId ev data,
         emitToIssue issueId ev data s = (Returned tt, s))
  /\ (forall notification,
         broadcastNotification notification s = (Returned tt, s))
  /\ (forall now, getConnectedUsers now s = []).
Proof.
  intros Hio.
  unfold emitToUser, emitToRole, emitToDepartment, emitToIssue,
    broadcastNotification, getConnectedUsers.
  rewrite Hio. repeat split.
Qed.

(** With the server initialized the helpers do act, and
    [broadcastNotification] throws on [null]. *)
Lemma emit_helpers_with_io s srv :
  io s = Some srv ->
  (forall userId ev data,
      io (snd (emitToUser userId ev data s))
      = Some (emit (Some ("user_" +:+ userId)) ev data srv))
  /\ broadcastNotification None s = (Threw "TypeError", s).
Proof.
  intros Hio. unfold emitToUser, broadcastNotification. rewrite Hio.
  split; reflexivity.
Qed.

End SocketFacts.

Lemma bad_credential_witness :
  exists msg,
    @Socket.connect Demo.platform "s9" Demo.expired Demo.server
    = (Socket.Refused msg, Demo.server)
    /\ Socket.getConnectedUsers 7000
         (snd (@Socket.connect Demo.platform "s9" Demo.expired Demo.server))
       = [].
Proof.
  destruct (@bad_credential_is_refused_before_any_join Demo.platform "s9"
              Demo.expired Demo.server (mkIoServer [] []) eq_refl
              (Forall_nil_2 _))
    as (msg & Hc & _ & _ & Hu & _).
  - apply (@Socket.RefusedToken Demo.platform Demo.server Demo.expired
             "old:c1" "TokenExpiredError"); reflexivity.
  - exists msg. split; [exact Hc|]. rewrite Hu. reflexivity.
Defined.

Lemma emit_helpers_witness :
  Socket.emitToUser "c1" "notification" (PayloadData "{}")
    (mkServer None ∅ ∅ [])
  = (Returned tt, mkServer None ∅ ∅ [])
  /\ Socket.broadcastNotification None (mkServer None ∅ ∅ [])
     = (Returned tt, mkServer None ∅ ∅ [])
  /\ Socket.getConnectedUsers 0 (mkServer None ∅ ∅ []) = [].
Proof.
  destruct (emit_helpers_do_nothing_without_io (mkServer None ∅ ∅ []) eq_refl)
    as (Hu & _ & _ & _ & Hb & Hg).
  split; [apply Hu|]. split; [apply Hb|apply Hg].
Defined.

(** ** The notification fan-out of POST / *)

Section FanOutFacts.
Import Routes.
Variable f : Faults.

Lemma createNotification_result d s :
  fst (NotificationModel.createNotification f d s)
  = (if notificationWriteFails f d then Threw "MongoError" else Returned d)
  /\ notifications (snd (NotificationModel.createNotification f d s))
     = notifications s
         ++ (if notificationWriteFails f d then [] else [d]).
Proof.
  unfold NotificationModel.createNotification.
  destruct (notificationWriteFails f d); cbn.
  - now rewrite app_nil_r.
  - now destruct (io s).
Qed.

(** Every started call settles on its own: the records of exactly the
    recipients whose save is accepted are added, in the order of the
    calls. *)
Lemma startAll_notifications ds :
  forall s,
    notifications (snd (startAll f ds s))
    = notifications s
        ++ List.filter (fun d => negb (notificationWriteFails f d)) ds.
Proof.
  induction ds as [|d ds IH]; intros s; cbn [startAll snd List.filter].
  - now rewrite app_nil_r.
  - rewrite IH, (proj2 (createNotification_result d s)), <- app_assoc.
    now destruct (notificationWriteFails f d).
Qed.

Lemma startAll_results ds :
  forall s,
    fst (startAll f ds s)
    = map (fun d => if notificationWriteFails f d
                    then Threw "MongoError" else Returned d) ds.
Proof.
  induction ds as [|d ds IH]; intros s; cbn [startAll fst map];
    [reflexivity|].
  now rewrite IH, (proj1 (createNotification_result d s)).
Qed.

Lemma promiseAll_rejects ds :
  existsb (notificationWriteFails f) ds = true ->
  promiseAll (map (fun d => if notificationWriteFails f d
                            then Threw "MongoError" else Returned d) ds)
  = Threw "MongoError".
Proof.
  induction ds as [|d ds IH]; cbn; [discriminate|].
  destruct (notificationWriteFails f d); cbn; [reflexivity|].
  intros Hex. now rewrite IH.
Qed.

Lemma promiseAll_resolves ds :
  existsb (notificationWriteFails f) ds = false ->
  promiseAll (map (fun d => if notificationWriteFails f d
                            then Threw "MongoError" else Returned d) ds)
  = Returned ds.
Proof.
  induction ds as [|d ds IH]; cbn; [reflexivity|].
  destruct (notificationWriteFails f d); cbn; [discriminate|].
  intros Hex. now rewrite IH.
Qed.

(** The fan-out expression on its own: when the save of the notification
    of one of the recipients is refused, the records of the others are
    written, and [Promise.all] rejects. *)
Lemma dispatchToDepartment_rejects requester issue
    (departmentUsers : list User) s :
  existsb (notificationWriteFails f)
          (map (createdNotification requester issue) departmentUsers)
  = true ->
  notifications (snd (dispatchToDepartment f requester issue
                        departmentUsers s))
  = notifications s
      ++ List.filter (fun d => negb (notificationWriteFails f d))
           (map (createdNotification requester issue) departmentUsers)
  /\ fst (dispatchToDepartment f requester issue departmentUsers s)
     = Threw "MongoError".
Proof.
  intros Hfail. unfold dispatchToDepartment. cbn [fst snd].
  rewrite startAll_notifications, startAll_results,
    (promiseAll_rejects _ Hfail).
  split; reflexivity.
Qed.

End FanOutFacts.

(** ** POST / *)

Section CreateFacts.
Context `{Platform} `{Validator}.
Import Routes CreateRoute.

Lemma rateLimit_refusal maxRequests windowMs now userId requests r requests1 :
  Auth.rateLimit maxRequests windowMs now userId requests
  = (Some r, requests1) ->
  success r = false.
Proof.
  unfold Auth.rateLimit. destruct (_ >=? _); [|discriminate].
  now intros [= <- _].
Qed.

(** C3.  The dispatch that the claim is about is never made.  Whatever
    the request, the files, the users of the department and the saves
    that the database would refuse, [POST /] is answered with a failure
    and leaves the issues, the users and the notifications as they were:
    no Notification record is created for any recipient.  A request that
    passes the middlewares and whose uploads succeed is answered 500
    ['Failed to create issue'], because [issue.save()] rejects: the
    document has no [trackingId], which is required and generated only
    in a [pre('save')] hook, after the validation.  Past the save, the
    query for the recipients is made on [User], which the file does not
    bind. *)
Theorem new_issue_dispatch_is_never_reached
    now f newId departmentUsers req b files requests s :
  success (fst (postIssue now f newId departmentUsers req b files requests s))
  = false
  /\ snd (snd (postIssue now f newId departmentUsers req b files requests s))
     = s
  /\ (forall user requests1 title category priority,
        Auth.authenticate s req = inr user ->
        Auth.rateLimit 20 (60 * 60 * 1000) now
                       (Auth.rateKey (Some user) req) requests
        = (None, requests1) ->
        validateCreateBody b = Some (title, category, priority) ->
        Forall (fun file => exists photo, uploaded file = Returned photo)
               files ->
        postIssue now f newId departmentUsers req b files requests s
        = (createFailed, (requests1, s))).
Proof.
  split; [|split].
  - unfold postIssue.
    destruct (Auth.authenticate s req) as [r|user] eqn:Hauth;
      [eapply authenticate_failure; eauto|].
    destruct (Auth.rateLimit _ _ _ _ _) as [[r|] requests1] eqn:Hrate;
      [eapply rateLimit_refusal; eauto|].
    destruct (validateCreateBody b) as [[[title category] priority]|];
      [|reflexivity].
    now destruct (promiseAll _).
  - unfold postIssue.
    destruct (Auth.authenticate s req) as [r|user]; [reflexivity|].
    destruct (Auth.rateLimit _ _ _ _ _) as [[r|] requests1]; [reflexivity|].
    destruct (validateCreateBody b) as [[[title category] priority]|];
      [|reflexivity].
    now destruct (promiseAll _).
  - intros user requests1 title category priority Hauth Hrate Hval Hfiles.
    unfold postIssue. rewrite Hauth, Hrate, Hval.
    assert (exists photos, promiseAll (map uploaded files) = Returned photos)
      as [photos ->]; [|reflexivity].
    induction Hfiles as [|file files [photo Hphoto] _ [photos IH]];
      [now exists []|].
    exists (photo :: photos). cbn [map promiseAll]. now rewrite Hphoto, IH.
Qed.

End CreateFacts.

Lemma new_issue_dispatch_witness :
  @CreateRoute.postIssue Demo.platform AssignDemo.validator 5000
    Demo.oneRefused "i2" CreateRoute.unboundUser (Demo.bearer "c1" "")
    CreateDemo.report [] ∅ CreateDemo.server
  = (CreateRoute.createFailed, ({[ "c1" := [5000] ]}, CreateDemo.server))
  /\ notifications
       (snd (snd (@CreateRoute.postIssue Demo.platform AssignDemo.validator
                    5000 Demo.oneRefused "i2" CreateRoute.unboundUser
                    (Demo.bearer "c1" "") CreateDemo.report [] ∅
                    CreateDemo.server))) = []
  /\ List.length
       (List.filter
          (fun u => String.eqb (department u) "roads"
                    && includes ["department_head"; "field_officer"] (role u)
                    && isActive u)
          (map snd (map_to_list (users CreateDemo.server)))) = 3%nat.
Proof.
  destruct (@new_issue_dispatch_is_never_reached Demo.platform
              AssignDemo.validator 5000 Demo.oneRefused "i2"
              CreateRoute.unboundUser (Demo.bearer "c1" "")
              CreateDemo.report [] ∅ CreateDemo.server)
    as (_ & Hstate & Hrun).
  split; [|split].
  - apply (Hrun Demo.citizen {[ "c1" := [5000] ]} "Pothole on Station Road"
             "roads" "medium"); [reflexivity..|constructor].
  - rewrite Hstate. reflexivity.
  - vm_compute. reflexivity.
Defined.

(** ** POST /:id/upvote *)

Section ArrayFacts.
Context {A : Type} (p : A -> bool).

(** [findIndex] either finds nothing, or splits the array at the first
    element that satisfies the predicate. *)
Lemma findIndexFrom_spec (l : list A) :
  forall i, 0 <= i ->
    (existsb p l = false /\ findIndexFrom p i l = -1)
    \/ exists l1 x l2,
        l = l1 ++ x :: l2 /\ existsb p l1 = false /\ p x = true
        /\ findIndexFrom p i l = i + Z.of_nat (List.length l1).
Proof.
  induction l as [|y l IH]; intros i Hi; [left; split; reflexivity|].
  cbn [findIndexFrom existsb]. destruct (p y) eqn:Hy.
  - right. exists (@nil A), y, l. cbn. repeat split; [assumption|lia].
  - destruct (IH (i + 1)) as [[Hex Hidx] | (l1 & x & l2 & -> & Hl1 & Hx & Hidx)];
      [lia| |].
    + left. split; assumption.
    + right. exists (y :: l1), x, l2. cbn [existsb app List.length].
      rewrite Hy, Hl1, Hidx. repeat split; [assumption|lia].
Qed.

Lemma splice1_at (l1 : list A) (x : A) (l2 : list A) :
  splice1 (Z.of_nat (List.length l1)) (l1 ++ x :: l2) = l1 ++ l2.
Proof.
  unfold splice1. rewrite Nat2Z.id.
  induction l1 as [|y l1 IH]; cbn; [now rewrite drop_0|].
  now rewrite IH.
Qed.

Lemma filter_none (l : list A) :
  existsb p l = false <-> List.length (List.filter p l) = 0%nat.
Proof.
  induction l as [|y l IH]; cbn; [tauto|].
  destruct (p y); cbn; [split; [discriminate|lia]|exact IH].
Qed.

End ArrayFacts.

Section UpvoteFacts.
Context `{Platform}.
Import IssueModel Routes.

Lemma authenticate_same_users s s' req :
  users s' = users s -> Auth.authenticate s' req = Auth.authenticate s req.
Proof.
  intros Hu. unfold Auth.authenticate, findById. now rewrite Hu.
Qed.

(** The server after an upvote was added, and after one was removed. *)
Lemma postUpvote_step now req s user issue :
  Auth.authenticate s req = inr user ->
  isObjectId (Auth.params_id req) = true ->
  issues s !! Auth.params_id req = Some issue ->
  schemaValid issue = true ->
  (isUpvoted issue user = false
   /\ postUpvote now noFaults req s
      = (mkResponse 200 true "Issue upvoted"
           (BodyUpvote (Z.of_nat (List.length (upvotes issue) + 1)) true),
         mkServer (io s)
           (<[issue_id issue :=
                set_upvotes issue
                  (upvotes issue ++ [mkUpvote (user_id user) now])]>
              (issues s))
           (alter (add_contributionScore 1) (user_id user) (users s))
           (notifications s)))
  \/ exists l1 x l2,
      upvotes issue = l1 ++ x :: l2
      /\ isUpvoted (set_upvotes issue l1) user = false
      /\ upvote_user x = user_id user
      /\ postUpvote now noFaults req s
         = (mkResponse 200 true "Upvote removed"
              (BodyUpvote (Z.of_nat (List.length (l1 ++ l2))) false),
            set_issues s
              (<[issue_id issue := set_upvotes issue (l1 ++ l2)]>
                 (issues s))).
Proof.
  intros Hauth Hid Hissue Hvalid.
  unfold postUpvote, findById. rewrite Hauth, Hid, Hissue.
  unfold findIndex, saveIssue, incContributionScore.
  destruct (findIndexFrom_spec
              (fun up => String.eqb (upvote_user up) (user_id user))
              (upvotes issue) 0 ltac:(lia))
    as [[Hex ->] | (l1 & x & l2 & Hups & Hl1 & Hx & ->)].
  - left. split; [exact Hex|].
    cbn [Z.gtb Z.compare userWriteFails noFaults].
    change (schemaValid (set_upvotes issue _)) with (schemaValid issue).
    rewrite Hvalid. cbn. rewrite length_app. reflexivity.
  - right. exists l1, x, l2.
    split; [exact Hups|]. split; [exact Hl1|].
    split; [now apply String.eqb_eq|].
    replace (Z.gtb (0 + Z.of_nat (List.length l1)) (-1)) with true
      by (symmetry; apply Z.gtb_lt; lia).
    replace (Z.eqb (0 + Z.of_nat (List.length l1)) (-1)) with false
      by (symmetry; apply Z.eqb_neq; lia).
    change (schemaValid (set_upvotes issue _)) with (schemaValid issue).
    rewrite Hvalid, Z.add_0_l, Hups, splice1_at. reflexivity.
Qed.

Lemma StoreOk_upvoted s issue ups' us' h ns :
  StoreOk s ->
  issues s !! issue_id issue = Some issue ->
  (us' = users s \/ exists d k, us' = alter (add_contributionScore d) k (users s)) ->
  StoreOk (mkServer h (<[issue_id issue := set_upvotes issue ups']> (issues s))
                    us' ns).
Proof.
  intros (Hkey & Hvalid & Hukey) Hissue Hus. repeat split; cbn.
  - intros k i. rewrite lookup_insert.
    destruct (decide (issue_id issue = k)) as [<- | Hne];
      [intros [= <-]; reflexivity|apply Hkey].
  - intros k i. rewrite lookup_insert.
    destruct (decide (issue_id issue = k)) as [<- | Hne];
      [intros [= <-]; exact (Hvalid _ _ Hissue)|apply Hvalid].
  - destruct Hus as [-> | (d & k0 & ->)]; [exact Hukey|].
    intros k u. rewrite lookup_alter.
    destruct (decide (k0 = k)) as [<- | Hne]; [|apply Hukey].
    destruct (users s !! k0) as [u0|] eqn:Hu0; cbn; [|discriminate].
    intros [= <-]. exact (Hukey _ _ Hu0).
Qed.

Lemma existsb_split {A} (q : A -> bool) l1 x l2 :
  existsb q (l1 ++ x :: l2) = existsb q l1 || q x || existsb q l2.
Proof. rewrite existsb_app. cbn. apply orb_assoc. Qed.

Lemma upvotesOf_split uid l1 x l2 :
  upvotesOf uid (l1 ++ x :: l2)
  = (upvotesOf uid l1
     + (if String.eqb (upvote_user x) uid then 1 else 0)
     + upvotesOf uid l2)%nat.
Proof.
  unfold upvotesOf. rewrite List.filter_app, length_app. cbn.
  destruct (String.eqb (upvote_user x) uid); cbn; lia.
Qed.

(** Two upvote requests of one user in a row, on an issue that holds at
    most one upvote of that user: the arrays of upvotes the two requests
    save, and the users they leave. *)
Lemma upvote_twice now1 now2 req s user issue :
  StoreOk s ->
  Auth.authenticate s req = inr user ->
  isObjectId (Auth.params_id req) = true ->
  issues s !! Auth.params_id req = Some issue ->
  (upvotesOf (user_id user) (upvotes issue) <= 1)%nat ->
  exists ups1 ups2,
    let r1 := postUpvote now1 noFaults req s in
    let r2 := postUpvote now2 noFaults req (snd r1) in
    issues (snd r1)
    = <[Auth.params_id req := set_upvotes issue ups1]> (issues s)
    /\ issues (snd r2)
       = <[Auth.params_id req := set_upvotes issue ups2]> (issues s)
    /\ fst r1
       = mkResponse 200 true
           (if isUpvoted issue user then "Upvote removed"
            else "Issue upvoted")
           (BodyUpvote (Z.of_nat (List.length ups1))
                       (negb (isUpvoted issue user)))
    /\ fst r2
       = mkResponse 200 true
           (if isUpvoted issue user then "Issue upvoted"
            else "Upvote removed")
           (BodyUpvote (Z.of_nat (List.length ups2)) (isUpvoted issue user))
    /\ (if isUpvoted issue user
        then (exists l1 x l2,
                 upvotes issue = l1 ++ x :: l2
                 /\ upvote_user x = user_id user
                 /\ ups1 = l1 ++ l2)
             /\ users (snd r1) = users s
             /\ users (snd r2)
                = alter (add_contributionScore 1) (user_id user) (users s)
        else ups1 = upvotes issue ++ [mkUpvote (user_id user) now1]
             /\ users (snd r1)
                = alter (add_contributionScore 1) (user_id user) (users s)
             /\ users (snd r2) = users (snd r1))
    /\ isUpvoted (set_upvotes issue ups1) user
       = negb (isUpvoted issue user)
    /\ List.length ups2 = List.length (upvotes issue)
    /\ forall v,
         existsb (fun up => String.eqb (upvote_user up) v) ups2
         = existsb (fun up => String.eqb (upvote_user up) v)
                   (upvotes issue).
Proof.
  intros Hok Hauth Hid Hissue Hone.
  pose proof Hok as (Hkey & Hvalid & Hukey).
  pose proof (Hkey _ _ Hissue) as Hiid.
  destruct (postUpvote_step now1 req s user issue Hauth Hid Hissue
              (Hvalid _ _ Hissue))
    as [[Habs Hr1] | (l1 & x & l2 & Hups & Hl1 & Hx & Hr1)].
  - (* the user had not upvoted: the first request adds, the second
       removes *)
    set (ups1 := upvotes issue ++ [mkUpvote (user_id user) now1]) in *.
    set (s1 := mkServer _ _ _ _) in Hr1.
    assert (Auth.authenticate s1 req = inr (add_contributionScore 1 user))
      as Hauth1
      by (eapply authenticate_after_score; [exact Hauth|reflexivity|exact Hukey]).
    assert (issues s1 !! Auth.params_id req = Some (set_upvotes issue ups1))
      as Hissue1 by (subst s1; cbn; rewrite Hiid; apply lookup_insert_eq).
    assert (isUpvoted (set_upvotes issue ups1) user = true) as Hup1.
    { unfold isUpvoted, ups1. cbn. rewrite existsb_app. cbn.
      rewrite String.eqb_refl. now rewrite orb_true_r. }
    destruct (postUpvote_step now2 req s1 _ _ Hauth1 Hid Hissue1
                (Hvalid _ _ Hissue))
      as [[Habs1 _] | (l1 & x & l2 & Hups & Hl1 & Hx & Hr2)];
      [change (isUpvoted (set_upvotes issue ups1) user = false) in Habs1;
       congruence|].
    cbn [upvotes set_upvotes issue_id user_id add_contributionScore]
      in Hups, Hl1, Hx, Hr2.
    change (isUpvoted (set_upvotes issue l1) user = false) in Hl1.
    exists ups1, (l1 ++ l2). cbn zeta. rewrite Hr1. cbn [fst snd].
    rewrite Hr2. cbn [fst snd]. rewrite Habs.
    assert (upvotesOf (user_id user) l2 = 0%nat) as Hl2.
    { pose proof (f_equal (upvotesOf (user_id user)) Hups) as Hc.
      unfold ups1 in Hc.
      rewrite !upvotesOf_split in Hc.
      cbn [upvote_user] in Hc. rewrite Hx, String.eqb_refl in Hc.
      apply filter_none in Habs. apply filter_none in Hl1.
      unfold upvotesOf in *. cbn in Habs, Hl1, Hc. lia. }
    split; [subst s1; cbn; now rewrite Hiid|].
    split; [subst s1; cbn; rewrite Hiid; apply insert_insert_eq|].
    split; [unfold ups1; rewrite length_app; reflexivity|].
    split; [reflexivity|].
    split; [repeat split|].
    split; [rewrite Hup1; reflexivity|].
    split.
    + pose proof (f_equal (@List.length _) Hups) as Hc. unfold ups1 in Hc.
      rewrite !length_app in Hc. cbn in Hc. rewrite length_app. lia.
    + intros v.
      pose proof (f_equal
                    (existsb (fun up => String.eqb (upvote_user up) v)) Hups)
        as Hc.
      unfold ups1 in Hc.
      rewrite !existsb_split in Hc.
      cbn [upvote_user existsb] in Hc. rewrite Hx, orb_false_r in Hc.
      rewrite existsb_app.
      destruct (String.eqb (user_id user) v) eqn:Hv.
      * apply String.eqb_eq in Hv. subst v.
        unfold isUpvoted in Habs, Hl1. cbn in Habs, Hl1.
        rewrite Habs, Hl1. apply filter_none in Hl2.
        now rewrite Hl2.
      * rewrite !orb_false_r in Hc. now symmetry.
  - (* the user had upvoted: the first request removes, the second adds *)
    set (s1 := set_issues s _) in Hr1.
    assert (isUpvoted issue user = true) as Hup.
    { unfold isUpvoted. rewrite Hups, existsb_split, Hx, String.eqb_refl.
      now rewrite orb_true_r. }
    assert (upvotesOf (user_id user) l2 = 0%nat) as Hl2.
    { rewrite Hups, upvotesOf_split, Hx, String.eqb_refl in Hone. lia. }
    assert (isUpvoted (set_upvotes issue (l1 ++ l2)) user = false) as Hup1.
    { unfold isUpvoted in *. cbn in *. rewrite existsb_app, Hl1.
      now apply filter_none in Hl2. }
    assert (Auth.authenticate s1 req = inr user) as Hauth1
      by (rewrite (authenticate_same_users s s1); [exact Hauth|reflexivity]).
    assert (issues s1 !! Auth.params_id req
            = Some (set_upvotes issue (l1 ++ l2))) as Hissue1
      by (subst s1; cbn; rewrite Hiid; apply lookup_insert_eq).
    destruct (postUpvote_step now2 req s1 _ _ Hauth1 Hid Hissue1
                (Hvalid _ _ Hissue))
      as [[_ Hr2] | (l1' & x' & l2' & Hups' & Hl1' & Hx' & _)].
    2:{ cbn [upvotes set_upvotes] in Hups'.
        unfold isUpvoted in Hup1, Hl1'. cbn in Hup1, Hl1'.
        rewrite Hups', existsb_split, Hx', String.eqb_refl in Hup1.
        rewrite orb_true_r in Hup1. discriminate. }
    cbn [upvotes set_upvotes issue_id] in Hr2.
    exists (l1 ++ l2), ((l1 ++ l2) ++ [mkUpvote (user_id user) now2]).
    cbn zeta. rewrite Hr1. cbn [fst snd]. rewrite Hr2. cbn [fst snd].
    rewrite Hup.
    split; [subst s1; cbn; now rewrite Hiid|].
    split; [subst s1; cbn; rewrite Hiid; apply insert_insert_eq|].
    split; [reflexivity|].
    split; [rewrite (length_app (l1 ++ l2)); reflexivity|].
    split; [split; [exists l1, x, l2; auto|split; reflexivity]|].
    split; [exact Hup1|].
    split.
    + rewrite Hups, !length_app. cbn. lia.
    + intros v. rewrite Hups, existsb_split, !existsb_app. cbn.
      rewrite Hx, orb_false_r.
      destruct (existsb _ l1), (existsb _ l2), (String.eqb _ v); reflexivity.
Qed.

(** An issue is created without upvotes, and the handler never gives a
    user a second upvote on an issue: it adds one only when it found
    none. *)
Lemma postUpvote_keeps_upvotes_single now f req s :
  StoreOk s ->
  (forall k i v, issues s !! k = Some i ->
                 (upvotesOf v (upvotes i) <= 1)%nat) ->
  forall k i v,
    issues (snd (postUpvote now f req s)) !! k = Some i ->
    (upvotesOf v (upvotes i) <= 1)%nat.
Proof.
  intros (Hkey & _ & _) Hsingle k i v.
  unfold postUpvote, findById.
  destruct (Auth.authenticate s req) as [r|user]; [apply Hsingle|].
  destruct (isObjectId (Auth.params_id req)); [|apply Hsingle].
  destruct (issues s !! Auth.params_id req) as [issue|] eqn:Hissue;
    [|apply Hsingle].
  unfold findIndex, saveIssue, incContributionScore.
  destruct (findIndexFrom_spec
              (fun up => String.eqb (upvote_user up) (user_id user))
              (upvotes issue) 0 ltac:(lia))
    as [[Hex ->] | (l1 & x & l2 & Hups & Hl1 & Hx & ->)].
  - cbn [Z.gtb Z.compare].
    destruct (userWriteFails f); [apply Hsingle|].
    destruct (negb (schemaValid _)); [apply Hsingle|].
    destruct (issueWriteFails f); [apply Hsingle|].
    cbn. rewrite lookup_insert.
    destruct (decide (issue_id issue = k)) as [<- | Hne]; [|apply Hsingle].
    intros [= <-]. cbn [upvotes set_upvotes].
    pose proof (Hsingle _ _ v Hissue) as Hv.
    rewrite (upvotesOf_split v (upvotes issue) _ []). cbn.
    destruct (String.eqb (user_id user) v) eqn:Huv; [|lia].
    apply String.eqb_eq in Huv. subst v. apply filter_none in Hex.
    unfold upvotesOf. lia.
  - replace (Z.gtb (0 + Z.of_nat (List.length l1)) (-1)) with true
      by (symmetry; apply Z.gtb_lt; lia).
    destruct (negb (schemaValid _)); [apply Hsingle|].
    destruct (issueWriteFails f); [apply Hsingle|].
    cbn. rewrite lookup_insert.
    destruct (decide (issue_id issue = k)) as [<- | Hne]; [|apply Hsingle].
    intros [= <-]. cbn [upvotes set_upvotes].
    pose proof (Hsingle _ _ v Hissue) as Hv.
    rewrite Hups, Z.add_0_l, splice1_at.
    rewrite Hups, upvotesOf_split in Hv.
    unfold upvotesOf in *. rewrite List.filter_app, length_app. lia.
Qed.

Lemma postUpvote_StoreOk now f req s :
  StoreOk s -> StoreOk (snd (postUpvote now f req s)).
Proof.
  intros Hok. pose proof Hok as (Hkey & Hvalid & Hukey).
  assert (forall d k,
             map_Forall (fun k u => user_id u = k)
                        (alter (add_contributionScore d) k (users s)))
    as Halter.
  { intros d k0 k u. rewrite lookup_alter.
    destruct (decide (k0 = k)) as [<- | Hne]; [|apply Hukey].
    destruct (users s !! k0) as [u0|] eqn:Hu0; cbn; [|discriminate].
    intros [= <-]. exact (Hukey _ _ Hu0). }
  unfold postUpvote, findById.
  destruct (Auth.authenticate s req) as [r|user]; [assumption|].
  destruct (isObjectId (Auth.params_id req)); [|assumption].
  destruct (issues s !! Auth.params_id req) as [issue|] eqn:Hissue;
    [|assumption].
  pose proof (Hkey _ _ Hissue) as Hiid. cbn in Hiid.
  rewrite <- Hiid in Hissue.
  pose proof (Hvalid _ _ Hissue) as Hv. cbn beta in Hv.
  unfold saveIssue, incContributionScore.
  destruct (Z.gtb _ _).
  - change (schemaValid (set_upvotes issue _)) with (schemaValid issue).
    rewrite Hv. cbn [negb].
    destruct (issueWriteFails f); [assumption|].
    cbn [snd].
    refine (StoreOk_upvoted s issue _ _ _ _ Hok Hissue _). now left.
  - destruct (userWriteFails f); [assumption|].
    change (schemaValid (set_upvotes issue _)) with (schemaValid issue).
    rewrite Hv. cbn [negb].
    destruct (issueWriteFails f); cbn [snd].
    + repeat split; [exact Hkey|exact Hvalid|apply Halter].
    + refine (StoreOk_upvoted s issue _ _ _ _ Hok Hissue _). eauto.
Qed.

End UpvoteFacts.

Section UpvoteProperties.
Context `{Platform}.
Import IssueModel Routes.

(** C8.  Two upvote requests of one authenticated user in a row, with
    nothing in between, on an issue that holds at most one upvote of
    that user (as every issue does that was created without upvotes and
    only upvoted through this handler, [postUpvote_keeps_upvotes_single]):
    the first adds the upvote of the user when there was none and removes
    it when there was one; after the second the issue has as many upvotes
    as at the start and the user is upvoter of it exactly when they were
    at the start, which is also what the second answer reports. *)
Theorem upvote_toggle_twice_restores_count_and_flag
    now1 now2 req s user issue :
  StoreOk s ->
  Auth.authenticate s req = inr user ->
  isObjectId (Auth.params_id req) = true ->
  issues s !! Auth.params_id req = Some issue ->
  (upvotesOf (user_id user) (upvotes issue) <= 1)%nat ->
  let r1 := postUpvote now1 noFaults req s in
  let r2 := postUpvote now2 noFaults req (snd r1) in
  exists issue1 issue2,
    issues (snd r1) !! Auth.params_id req = Some issue1
    /\ issues (snd r2) !! Auth.params_id req = Some issue2
    /\ code (fst r1) = 200 /\ code (fst r2) = 200
    /\ (if isUpvoted issue user
        then exists l1 x l2,
               upvotes issue = l1 ++ x :: l2
               /\ upvote_user x = user_id user
               /\ upvotes issue1 = l1 ++ l2
        else upvotes issue1
             = upvotes issue ++ [mkUpvote (user_id user) now1])
    /\ isUpvoted issue1 user = negb (isUpvoted issue user)
    /\ List.length (upvotes issue2) = List.length (upvotes issue)
    /\ isUpvoted issue2 user = isUpvoted issue user
    /\ data (fst r2)
       = BodyUpvote (Z.of_nat (List.length (upvotes issue)))
                    (isUpvoted issue user).
Proof.
  intros Hok Hauth Hid Hissue Hone r1 r2.
  destruct (upvote_twice now1 now2 req s user issue Hok Hauth Hid Hissue
              Hone)
    as (ups1 & ups2 & Hi1 & Hi2 & Hr1 & Hr2 & Hstep & Hflag & Hlen & Hmem).
  fold r1 in Hi1, Hi2, Hr1, Hr2, Hstep. fold r2 in Hi2, Hr2, Hstep.
  exists (set_upvotes issue ups1), (set_upvotes issue ups2).
  rewrite Hi1, Hi2, Hr1, Hr2, !lookup_insert_eq. cbn [code data upvotes set_upvotes].
  repeat (split; [reflexivity|]).
  split.
  { destruct (isUpvoted issue user); [apply Hstep|apply Hstep]. }
  split; [exact Hflag|]. split; [exact Hlen|].
  split; [apply Hmem|]. now rewrite Hlen.
Qed.

(** C9.  The same two requests do not leave the user as they were: the
    request that adds the upvote raises the [contributionScore] of the
    user by one and the request that removes it leaves the score alone,
    so after both the issue has the upvotes of the same users, as many
    as before, and the score of the user is one higher than at the
    start. *)
Theorem upvote_toggle_twice_leaves_score_one_higher
    now1 now2 req s user issue :
  StoreOk s ->
  Auth.authenticate s req = inr user ->
  isObjectId (Auth.params_id req) = true ->
  issues s !! Auth.params_id req = Some issue ->
  (upvotesOf (user_id user) (upvotes issue) <= 1)%nat ->
  let r1 := postUpvote now1 noFaults req s in
  let r2 := postUpvote now2 noFaults req (snd r1) in
  exists u1 u2 issue2,
    users s !! user_id user = Some user
    /\ users (snd r1) !! user_id user = Some u1
    /\ users (snd r2) !! user_id user = Some u2
    /\ contributionScore u1
       = contributionScore user + (if isUpvoted issue user then 0 else 1)
    /\ contributionScore u2 = contributionScore user + 1
    /\ issues (snd r2) !! Auth.params_id req = Some issue2
    /\ List.length (upvotes issue2) = List.length (upvotes issue)
    /\ forall v,
         existsb (fun up => String.eqb (upvote_user up) v) (upvotes issue2)
         = existsb (fun up => String.eqb (upvote_user up) v)
                   (upvotes issue).
Proof.
  intros Hok Hauth Hid Hissue Hone r1 r2.
  destruct (upvote_twice now1 now2 req s user issue Hok Hauth Hid Hissue
              Hone)
    as (ups1 & ups2 & Hi1 & Hi2 & Hr1 & Hr2 & Hstep & Hflag & Hlen & Hmem).
  fold r1 in Hi1, Hi2, Hr1, Hr2, Hstep. fold r2 in Hi2, Hr2, Hstep.
  destruct (authenticate_user s req user Hauth) as (id & _ & Hu & _).
  destruct Hok as (_ & _ & Hukey). rewrite <- (Hukey _ _ Hu) in Hu.
  exists (if isUpvoted issue user then user else add_contributionScore 1 user),
    (add_contributionScore 1 user), (set_upvotes issue ups2).
  split; [exact Hu|].
  rewrite Hi2, lookup_insert_eq. cbn [upvotes set_upvotes].
  destruct (isUpvoted issue user);
    destruct Hstep as (Hs1 & Hu1 & Hu2); rewrite ?Hu2, Hu1;
    rewrite ?lookup_alter_eq, Hu; cbn;
    repeat (split; [first [reflexivity | lia | assumption]|]); assumption.
Qed.

End UpvoteProperties.

Lemma upvote_toggle_witness :
  let r1 := @Routes.postUpvote Demo.platform 5000 noFaults
              (Demo.bearer "c1" "i1") Demo.server in
  let r2 := @Routes.postUpvote Demo.platform 6000 noFaults
              (Demo.bearer "c1" "i1") (snd r1) in
  data (fst r1) = BodyUpvote 1 true /\ data (fst r2) = BodyUpvote 0 false.
Proof.
  destruct (@upvote_toggle_twice_restores_count_and_flag Demo.platform 5000
              6000 (Demo.bearer "c1" "i1") Demo.server Demo.citizen
              Demo.pothole demo_store_ok eq_refl eq_refl eq_refl
              (Nat.le_0_l 1))
    as (i1 & i2 & _ & _ & _ & _ & _ & _ & _ & _ & Hd).
  split; [reflexivity|exact Hd].
Defined.

Lemma upvote_score_witness :
  let r1 := @Routes.postUpvote Demo.platform 5000 noFaults
              (Demo.bearer "c1" "i1") Demo.server in
  let r2 := @Routes.postUpvote Demo.platform 6000 noFaults
              (Demo.bearer "c1" "i1") (snd r1) in
  contributionScore <$> users Demo.server !! "c1" = Some 7
  /\ contributionScore <$> users (snd r2) !! "c1" = Some 8.
Proof.
  destruct (@upvote_toggle_twice_leaves_score_one_higher Demo.platform 5000
              6000 (Demo.bearer "c1" "i1") Demo.server Demo.citizen
              Demo.pothole demo_store_ok eq_refl eq_refl eq_refl
              (Nat.le_0_l 1))
    as (u1 & u2 & i2 & _ & _ & Hu2 & _ & Hs2 & _).
  split; [reflexivity|].
  cbv zeta. change (user_id Demo.citizen) with "c1" in Hu2.
  rewrite Hu2. cbn. now rewrite Hs2.
Defined.

(** ** The middlewares of middleware/auth.js *)

Section MiddlewareFacts.
Context `{Platform}.
Import AuthMore.

(** X1.  [authenticate] lets a request through exactly when it presents a
    non-empty token that [jwt.verify] accepts and whose id is the id of a
    stored, active user; the [req.user] it sets is that stored user. *)
Theorem authenticate_lets_exactly_active_users_through s req user :
  Auth.authenticate s req = inr user
  <-> exists tok id,
        requestToken req = Some tok /\ truthy tok = true
        /\ jwtVerify tok = Returned id /\ isObjectId id = true
        /\ users s !! id = Some user /\ isActive user = true.
Proof.
  unfold Auth.authenticate, findById. fold (requestToken req). split.
  - destruct (requestToken req) as [tok|]; [|discriminate].
    destruct (truthy tok) eqn:Ht; [|discriminate]. cbn [negb].
    destruct (jwtVerify tok) as [id|] eqn:Hv; [|discriminate].
    destruct (isObjectId id) eqn:Hid; [|discriminate].
    destruct (users s !! id) as [u|] eqn:Hu; [|discriminate].
    destruct (isActive u) eqn:Ha; cbn [negb]; [|discriminate].
    intros [= <-]. exists tok, id. repeat split; assumption.
  - intros (tok & id & -> & -> & -> & -> & -> & ->). reflexivity.
Qed.

(** X2.  A refusal of [authenticate] is a 401, except when something else
    than a JWT error is thrown on the way, which is the case for a token
    whose id does not cast to an ObjectId: that request gets a 500. *)
Theorem authenticate_refusals s req r :
  Auth.authenticate s req = inl r ->
  success r = false
  /\ (code r = 401
      \/ (code r = 500
          /\ exists tok,
               requestToken req = Some tok
               /\ ((exists name, jwtVerify tok = Threw name
                                 /\ name <> "JsonWebTokenError"
                                 /\ name <> "TokenExpiredError")
                   \/ exists id, jwtVerify tok = Returned id
                                 /\ isObjectId id = false))).
Proof.
  unfold Auth.authenticate, findById. fold (requestToken req).
  destruct (requestToken req) as [tok|]; [|intros [= <-]; (split; [reflexivity|left; reflexivity])].
  destruct (truthy tok); cbn [negb]; [|intros [= <-]; (split; [reflexivity|left; reflexivity])].
  destruct (jwtVerify tok) as [id|name] eqn:Hv.
  - destruct (isObjectId id) eqn:Hid.
    + destruct (users s !! id) as [u|]; [|intros [= <-]; (split; [reflexivity|left; reflexivity])].
      destruct (isActive u); cbn [negb]; [discriminate|].
      intros [= <-]; (split; [reflexivity|left; reflexivity]).
    + intros [= <-]. cbn. split; [reflexivity|]. right.
      split; [reflexivity|]. exists tok. split; [reflexivity|].
      right. exists id. auto.
  - destruct (String.eqb name "JsonWebTokenError") eqn:H1;
      [intros [= <-]; (split; [reflexivity|left; reflexivity])|].
    destruct (String.eqb name "TokenExpiredError") eqn:H2;
      intros [= <-]; [split; [reflexivity|left; reflexivity]|].
    split; [reflexivity|]. right. split; [reflexivity|].
    exists tok. split; [reflexivity|]. left. exists name.
    apply String.eqb_neq in H1, H2. auto.
Qed.

(** X3.  [optionalAuth] sets [req.user] for exactly the requests that
    [authenticate] lets through, and to the same user; for all others it
    goes on without a user instead of answering. *)
Theorem optionalAuth_agrees_with_authenticate s req user :
  optionalAuth s req = Some user <-> Auth.authenticate s req = inr user.
Proof.
  unfold optionalAuth, Auth.authenticate, findById. fold (requestToken req).
  destruct (requestToken req) as [tok|]; [|split; discriminate].
  destruct (truthy tok); cbn [negb]; [|split; discriminate].
  destruct (jwtVerify tok) as [id|name]; [|split; discriminate].
  destruct (isObjectId id); [|split; discriminate].
  destruct (users s !! id) as [u|]; [|split; discriminate].
  destruct (isActive u); cbn [negb]; split; first [discriminate | congruence].
Qed.

(** X4.  After [authorize('admin', 'department_head', 'field_officer')],
    [authorizeDepartment] for a department lets through exactly the users
    that the department check of the status route lets through for an
    issue of that category.  On its own it lets every user through whose
    role is none of the three, whatever department is asked for. *)
Theorem authorizeDepartment_and_the_status_route user :
  (forall c,
      truthy c = true ->
      Auth.authorize ["admin"; "department_head"; "field_officer"] (Some user)
      = None ->
      (authorizeDepartment (Some user) (mkDepartmentRequest None (Some c) None)
       = None
       <-> negb (String.eqb (role user) "admin")
           && negb (String.eqb (department user) c) = false))
  /\ (forall req,
         includes ["admin"; "department_head"; "field_officer"] (role user)
         = false ->
         authorizeDepartment (Some user) req = None).
Proof.
  split.
  - intros c Hc Hrole. unfold Auth.authorize in Hrole.
    unfold authorizeDepartment, differs. cbn [orElse params_department
      body_department query_department]. rewrite Hc.
    unfold includes in Hrole. cbn [existsb] in Hrole.
    destruct (String.eqb (role user) "admin"); [split; reflexivity|].
    cbn [negb andb orb] in *.
    destruct (String.eqb (role user) "department_head"
              || String.eqb (role user) "field_officer") eqn:Hdf;
      [|rewrite orb_false_r in Hrole; rewrite Hdf in Hrole; discriminate].
    cbn [andb].
    destruct (String.eqb (department user) c); cbn; split;
      first [reflexivity | discriminate].
  - intros req Hrole. unfold authorizeDepartment.
    unfold includes in Hrole. cbn [existsb] in Hrole.
    rewrite orb_false_r in Hrole.
    apply orb_false_elim in Hrole as [-> Hrole]. rewrite Hrole. reflexivity.
Qed.

(** X5.  Under a base URL with [/issues] and without [/users], a user whose
    role is neither one of the allowed ones nor admin gets through
    [authorizeOwnershipOrRole] exactly for a stored issue that they
    reported; a user with an allowed role, or an admin, gets through
    without any lookup. *)
Theorem authorizeOwnershipOrRole_lets_owners_through allowedRoles s u req :
  contains "/issues" (baseUrl req) = true ->
  contains "/users" (baseUrl req) = false ->
  (includes allowedRoles (role u) || String.eqb (role u) "admin" = true ->
   authorizeOwnershipOrRole allowedRoles s (Some u) req = None)
  /\ (includes allowedRoles (role u) || String.eqb (role u) "admin" = false ->
      (authorizeOwnershipOrRole allowedRoles s (Some u) req = None
       <-> exists resourceId issue,
             orElse (orElse (resource_id req) (resource_issueId req))
                    (resource_userId req) = Some resourceId
             /\ truthy resourceId = true
             /\ isObjectId resourceId = true
             /\ issues s !! resourceId = Some issue
             /\ reportedBy issue = user_id u)).
Proof.
  intros Hissues Husers. unfold authorizeOwnershipOrRole, findById. split.
  - now intros ->.
  - intros ->. rewrite Hissues, Husers. cbn [andb]. split.
    + destruct (orElse _ _) as [rid|]; [|discriminate].
      destruct (truthy rid) eqn:Ht; cbn [negb]; [|discriminate].
      destruct (isObjectId rid) eqn:Hid; [|discriminate].
      destruct (issues s !! rid) as [issue|] eqn:Hi; [|discriminate].
      destruct (String.eqb (reportedBy issue) (user_id u)) eqn:Ho;
        cbn [negb]; [|discriminate].
      intros _. exists rid, issue. apply String.eqb_eq in Ho. auto.
    + intros (rid & issue & -> & -> & -> & -> & ->).
      cbn [negb]. now rewrite String.eqb_refl.
Qed.

End MiddlewareFacts.

Lemma authenticate_refusals_witness :
  code (match @Auth.authenticate Demo.platform Demo.server
                (Demo.bearer "abc" "i1") with
        | inl r => r
        | inr _ => failure 0 ""
        end) = 500.
Proof.
  destruct (@authenticate_refusals Demo.platform Demo.server
              (Demo.bearer "abc" "i1")
              (failure 500 "Server error during authentication.") eq_refl)
    as [_ _].
  reflexivity.
Defined.

Lemma authorizeOwnershipOrRole_witness :
  @AuthMore.authorizeOwnershipOrRole Demo.platform
    ["admin"; "department_head"; "field_officer"] Demo.server
    (Some Demo.citizen)
    (AuthMore.mkResourceRequest "/api/issues" (Some "i1") None None)
  = None.
Proof.
  apply (proj2 (@authorizeOwnershipOrRole_lets_owners_through Demo.platform
                  ["admin"; "department_head"; "field_officer"] Demo.server
                  Demo.citizen
                  (AuthMore.mkResourceRequest "/api/issues" (Some "i1") None
                     None) eq_refl eq_refl) eq_refl).
  exists "i1", Demo.pothole. repeat split.
Defined.

Lemma authorizeDepartment_witness :
  AuthMore.authorizeDepartment (Some Demo.waterOfficer)
    (AuthMore.mkDepartmentRequest None (Some "roads") None)
  <> None
  /\ AuthMore.authorizeDepartment (Some Demo.citizen)
       (AuthMore.mkDepartmentRequest None (Some "roads") None)
     = None.
Proof.
  destruct (authorizeDepartment_and_the_status_route Demo.waterOfficer)
    as [Hagree _].
  destruct (authorizeDepartment_and_the_status_route Demo.citizen)
    as [_ Hother].
  split.
  - intros Hpass.
    apply (Hagree "roads" eq_refl eq_refl) in Hpass. discriminate Hpass.
  - apply Hother. reflexivity.
Defined.

(** ** More on the rate limiter *)

Section LimiterFacts.
Variables maxRequests windowMs : Z.
Implicit Types (requests : gmap string (list Z)) (userId : string).
Import AuthMore.

Lemma validAt_later t1 t2 (l : list Z) :
  t1 <= t2 ->
  Auth.validAt windowMs t2 (Auth.validAt windowMs t1 l)
  = Auth.validAt windowMs t2 l.
Proof.
  intros Hle. unfold Auth.validAt.
  induction l as [|x l IH]; [reflexivity|].
  rewrite (filter_cons (fun time => t1 - time < windowMs)).
  destruct (decide (t1 - x < windowMs)) as [Hx|Hx].
  - rewrite !filter_cons. destruct (decide (t2 - x < windowMs));
      now rewrite IH.
  - rewrite IH, (filter_cons_False (fun time => t2 - time < windowMs));
      [reflexivity|lia].
Qed.

Lemma validAt_app t (l1 l2 : list Z) :
  Auth.validAt windowMs t (l1 ++ l2)
  = Auth.validAt windowMs t l1 ++ Auth.validAt windowMs t l2.
Proof. apply filter_app. Qed.

(** At any later time, the list kept for a key and the list of all the
    calls of the key that passed have the same attempts in the window. *)
Lemma kept_list_tracks_passed_calls cs :
  forall requests (P0 : string -> list Z) hi,
    (forall userId t,
        hi <= t ->
        Auth.validAt windowMs t (default [] (requests !! userId))
        = Auth.validAt windowMs t (P0 userId)) ->
    clockOrdered cs ->
    Forall (fun c => hi <= snd c) cs ->
    forall userId t,
      hi <= t -> Forall (fun c => snd c <= t) cs ->
      Auth.validAt windowMs t
        (default [] (snd (Auth.calls maxRequests windowMs cs requests)
                       !! userId))
      = Auth.validAt windowMs t
          (P0 userId ++ passedTimes maxRequests windowMs userId cs requests).
Proof.
  induction cs as [|[u now] cs IH]; intros requests P0 hi Hinv Hord Hhi k t Ht Hall.
  - cbn. rewrite app_nil_r. now apply Hinv.
  - cbn [Auth.calls snd passedTimes]. destruct Hord as [Hnext Hord].
    apply Forall_cons in Hhi as [Hnow Hhi].
    apply Forall_cons in Hall as [Hnowt Hall]. cbn [snd] in Hnow, Hnowt.
    rewrite app_assoc.
    apply (IH _ (fun k' => P0 k' ++
                   (if Auth.passed (Auth.rateLimit maxRequests windowMs now u
                                      requests) && String.eqb u k'
                    then [now] else [])) now); try assumption.
    intros k' t' Ht'.
    destruct (String.eqb u k') eqn:Huk.
    + apply String.eqb_eq in Huk. subst k'.
      rewrite rateLimit_lookup.
      destruct (Auth.passed _); cbn [andb].
      * rewrite !validAt_app, validAt_later by assumption.
        rewrite Hinv by lia. reflexivity.
      * rewrite app_nil_r. apply Hinv. lia.
    + apply String.eqb_neq in Huk.
      rewrite rateLimit_other by congruence.
      rewrite andb_false_r, app_nil_r. apply Hinv. lia.
Qed.

Lemma clockOrdered_last cs c :
  clockOrdered (cs ++ [c]) -> Forall (fun c' => snd c' <= snd c) (cs ++ [c]).
Proof.
  induction cs as [|c0 cs IH]; cbn.
  - intros _. constructor; [lia|constructor].
  - intros [Hnext Hord]. constructor; [|now apply IH].
    apply Forall_app in Hnext as [_ Hlast].
    now apply Forall_cons in Hlast as [Hlast _].
Qed.

Lemma rateLimit_same_list now userId requests1 requests2 :
  default [] (requests1 !! userId) = default [] (requests2 !! userId) ->
  Auth.passed (Auth.rateLimit maxRequests windowMs now userId requests1)
  = Auth.passed (Auth.rateLimit maxRequests windowMs now userId requests2)
  /\ default [] (snd (Auth.rateLimit maxRequests windowMs now userId
                        requests1) !! userId)
     = default [] (snd (Auth.rateLimit maxRequests windowMs now userId
                          requests2) !! userId).
Proof.
  intros Heq. rewrite !rateLimit_lookup, !rateLimit_passed, Heq.
  split; reflexivity.
Qed.

End LimiterFacts.

(** X6.  However the calls of different keys are interleaved, a key gets
    the verdicts it would get if its own calls were the only ones made:
    the limiter counts each key on its own. *)
Theorem rate_limiter_counts_each_key_alone maxRequests windowMs userId cs
    (requests : gmap string (list Z)) :
  AuthMore.verdictsFor maxRequests windowMs userId cs requests
  = fst (Auth.calls maxRequests windowMs (AuthMore.callsOf userId cs)
           requests).
Proof.
  enough (forall requests1 requests2 : gmap string (list Z),
             default [] (requests1 !! userId)
             = default [] (requests2 !! userId) ->
             AuthMore.verdictsFor maxRequests windowMs userId cs requests1
             = fst (Auth.calls maxRequests windowMs
                      (AuthMore.callsOf userId cs) requests2)) as Hgen
    by now apply Hgen.
  induction cs as [|[u now] cs IH]; intros requests1 requests2 Heq;
    [reflexivity|].
  cbn [AuthMore.verdictsFor AuthMore.callsOf List.filter fst].
  destruct (String.eqb u userId) eqn:Hu.
  - apply String.eqb_eq in Hu. subst u. cbn [Auth.calls fst app].
    destruct (rateLimit_same_list maxRequests windowMs now userId _ _ Heq)
      as [Hp Hl].
    rewrite Hp. f_equal. now apply IH.
  - apply String.eqb_neq in Hu. cbn [app]. apply IH.
    rewrite rateLimit_other by congruence. exact Heq.
Qed.

(** X7.  With a clock that never runs backwards, at every call of a key
    the calls of that key that were let through within the window that
    ends at this call, this one included, are at most [maxRequests]. *)
Theorem rate_limiter_never_exceeds_the_limit maxRequests windowMs cs userId
    now :
  0 <= maxRequests -> 0 < windowMs ->
  AuthMore.clockOrdered (cs ++ [(userId, now)]) ->
  Z.of_nat (List.length
              (Auth.validAt windowMs now
                 (AuthMore.passedTimes maxRequests windowMs userId
                    (cs ++ [(userId, now)]) ∅)))
  <= maxRequests.
Proof.
  intros Hmax Hw Hord.
  pose proof (clockOrdered_last _ _ Hord) as Hlast. cbn [snd] in Hlast.
  set (hi := match cs with [] => now | c :: _ => snd c end).
  assert (Forall (fun c => hi <= snd c) (cs ++ [(userId, now)])) as Hhi.
  { subst hi. destruct cs as [|c cs]; cbn.
    - constructor; [cbn; lia|constructor].
    - destruct Hord as [Hnext _]. constructor; [lia|exact Hnext]. }
  assert (hi <= now) as Hhinow.
  { apply Forall_app in Hhi as [_ Hhi].
    now apply Forall_cons in Hhi as [Hhi _]. }
  pose proof (kept_list_tracks_passed_calls maxRequests windowMs
                (cs ++ [(userId, now)]) ∅ (fun _ => []) hi
                ltac:(intros k t _; now rewrite lookup_empty)
                Hord Hhi userId now Hhinow Hlast) as Htrack.
  cbn [app] in Htrack. rewrite <- Htrack.
  rewrite calls_app. cbn [snd Auth.calls].
  set (m := snd (Auth.calls maxRequests windowMs cs ∅)).
  assert (Auth.bounded maxRequests m) as Hb.
  { apply calls_bounded; [assumption|]. intros k x Hk.
    now rewrite lookup_empty in Hk. }
  pose proof (rateLimit_bounded maxRequests windowMs now userId m Hmax Hb)
    as Hb'.
  destruct (snd (Auth.rateLimit maxRequests windowMs now userId m) !! userId)
    as [l|] eqn:Hl; [|cbn; lia].
  pose proof (rateLimit_pruned maxRequests windowMs now userId m l Hw Hb Hl)
    as Hpruned.
  cbn [default from_option id]. unfold Auth.validAt.
  rewrite (filter_all _ _ Hpruned). exact (Hb' _ _ Hl).
Qed.

(** X8.  A key is let through again as soon as one of the attempts
    recorded for it has left the window, and on its first call: from any
    history of calls, when the limit is at least 1. *)
Theorem rate_limiter_lets_through_after_expiry maxRequests windowMs cs userId
    now :
  1 <= maxRequests ->
  (match snd (Auth.calls maxRequests windowMs cs ∅) !! userId with
   | None => True
   | Some l => exists t0, t0 ∈ l /\ ~ now - t0 < windowMs
   end) ->
  Auth.passed (Auth.rateLimit maxRequests windowMs now userId
                 (snd (Auth.calls maxRequests windowMs cs ∅)))
  = true.
Proof.
  intros Hmax Hold. rewrite rateLimit_passed.
  set (m := snd (Auth.calls maxRequests windowMs cs ∅)) in *.
  assert (Auth.bounded maxRequests m) as Hb.
  { apply calls_bounded; [lia|]. intros k x Hk.
    now rewrite lookup_empty in Hk. }
  apply negb_true_iff. rewrite Z.geb_leb. apply Z.leb_gt.
  destruct (m !! userId) as [l|] eqn:Hl; [|cbn; lia].
  destruct Hold as (t0 & Hin & Hexp). cbn [default from_option id].
  pose proof (Hb _ _ Hl) as Hlen. cbn in Hlen.
  pose proof (length_filter_lt (fun time => now - time < windowMs) l t0 Hin
                Hexp) as Hlt.
  unfold Auth.validAt. lia.
Qed.

Lemma rate_limiter_never_exceeds_witness :
  Z.of_nat (List.length
              (Auth.validAt 1000 900
                 (AuthMore.passedTimes 2 1000 "a"
                    ([("a", 0); ("b", 10); ("a", 20); ("a", 30)]
                       ++ [("a", 900)]) ∅)))
  <= 2.
Proof.
  apply rate_limiter_never_exceeds_the_limit; [lia|lia|].
  cbn. repeat split; repeat constructor; cbn; lia.
Defined.

Lemma rate_limiter_lets_through_witness :
  Auth.passed (Auth.rateLimit 2 1000 1000 "a"
                 (snd (Auth.calls 2 1000 [("a", 0); ("a", 20); ("a", 30)] ∅)))
  = true.
Proof.
  apply rate_limiter_lets_through_after_expiry; [lia|].
  vm_compute. exists 0. split; [constructor|]. intros Hlt. discriminate Hlt.
Defined.

(** ** Histories of socket events *)

Section SocketEventFacts.
Context `{Platform}.
Import Socket SocketEvents.

Lemma authMiddleware_same_users s s' h :
  users s' = users s -> authMiddleware s' h = authMiddleware s h.
Proof. intros Hu. unfold authMiddleware, findById. now rewrite Hu. Qed.

Lemma handle_frame e s :
  users (handle e s) = users s
  /\ issues (handle e s) = issues s
  /\ notifications (handle e s) = notifications s
  /\ (is_Some (io s) -> is_Some (io (handle e s))).
Proof.
  destruct e as [sid h|sid i|sid i]; cbn [handle];
    unfold connect, join_issue, leave_issue, updateSocket;
    destruct (io s) as [srv|] eqn:Hio;
    try destruct (authMiddleware s h) as [msg|[uid u]];
    cbn; rewrite ?Hio; repeat split;
    intros [x Hx]; first [discriminate Hx | eexists; reflexivity].
Qed.

Lemma omap_user_update sid (g : Socket -> Socket) {B}
    (d : Socket -> option B) (l : list Socket) :
  (forall k, d (g k) = d k) ->
  omap d (map (fun k => if String.eqb (socket_id k) sid then g k else k) l)
  = omap d l.
Proof.
  intros Hg. induction l as [|k l IH]; [reflexivity|].
  cbn. rewrite IH. destruct (String.eqb (socket_id k) sid);
    now rewrite ?Hg.
Qed.

Lemma accepted_same_users now s s' es :
  users s' = users s -> accepted now s' es = accepted now s es.
Proof.
  intros Hu. unfold accepted.
  induction es as [|[sid h| |] es IH]; cbn; rewrite ?IH; try reflexivity.
  now rewrite (authMiddleware_same_users s s').
Qed.

Lemma getConnectedUsers_handleAll now es :
  forall s,
    is_Some (io s) ->
    getConnectedUsers now (handleAll es s)
    = getConnectedUsers now s ++ accepted now s es.
Proof.
  induction es as [|e es IH]; intros s Hio.
  - cbn. now rewrite app_nil_r.
  - cbn [handleAll fold_left]. fold (handleAll es (handle e s)).
    destruct (handle_frame e s) as (Hu & _ & _ & Hio').
    rewrite IH by auto. rewrite (accepted_same_users now s _ es Hu).
    change (accepted now s (e :: es))
      with (omap (fun e => match e with
                           | Connect _ h =>
                               match authMiddleware s h with
                               | inr (uid, u) => Some (descriptor now uid u)
                               | inl _ => None
                               end
                           | _ => None
                           end) ([e] ++ es)).
    rewrite omap_app, app_assoc. f_equal.
    destruct Hio as [srv Hio].
    destruct e as [sid h|sid i|sid i]; cbn [handle].
    + unfold connect. rewrite Hio.
      destruct (authMiddleware s h) as [msg|[uid u]] eqn:Hm; cbn [snd];
        cbn [omap list_omap]; rewrite Hm.
      * now rewrite app_nil_r.
      * unfold getConnectedUsers. rewrite Hio. cbn [io set_io sockets].
        rewrite omap_app. f_equal. unfold onConnection, join.
        now destruct (truthy (department u) && _).
    + cbn [omap list_omap]. rewrite app_nil_r.
      unfold join_issue, updateSocket, getConnectedUsers.
      rewrite Hio. cbn [io set_io sockets]. now apply omap_user_update.
    + cbn [omap list_omap]. rewrite app_nil_r.
      unfold leave_issue, updateSocket, getConnectedUsers.
      rewrite Hio. cbn [io set_io sockets]. now apply omap_user_update.
Qed.

(** X9.  After any history of connection attempts, joins and leaves on a
    server that was just initialized, [getConnectedUsers] lists one entry
    per connection that the middleware accepted, in the order of the
    connections, with the id, name, role and department of the user of
    the token; refused attempts, joins and leaves add nothing. *)
Theorem getConnectedUsers_lists_accepted_connections now es s0 :
  getConnectedUsers now (handleAll es (initializeSocket s0))
  = accepted now s0 es.
Proof.
  rewrite getConnectedUsers_handleAll by (cbn; eauto).
  now rewrite (accepted_same_users now s0 (initializeSocket s0)).
Qed.

End SocketEventFacts.

Section RoomFacts.
Context `{Platform}.
Import Socket SocketEvents.

Lemma roomsOf_updateSocket sid sid' (g : Socket -> Socket) s srv :
  io s = Some srv ->
  (forall k, socket_id (g k) = socket_id k) ->
  roomsOf sid' (updateSocket sid g s)
  = match find (fun k => String.eqb (socket_id k) sid') (sockets srv) with
    | Some k => if String.eqb sid' sid then rooms (g k) else rooms k
    | None => ∅
    end.
Proof.
  intros Hio Hg. unfold roomsOf, updateSocket. rewrite Hio.
  cbn [io set_io sockets]. induction (sockets srv) as [|k l IH];
    [reflexivity|].
  cbn [map find].
  destruct (String.eqb (socket_id k) sid) eqn:Hk.
  - rewrite Hg. destruct (String.eqb (socket_id k) sid') eqn:Hk'; [|exact IH].
    apply String.eqb_eq in Hk, Hk'. subst. now rewrite String.eqb_refl.
  - destruct (String.eqb (socket_id k) sid') eqn:Hk'; [|exact IH].
    apply String.eqb_eq in Hk'. subst sid'. now rewrite Hk.
Qed.

Lemma connected_find sid s srv :
  io s = Some srv ->
  connected sid s
  = match find (fun k => String.eqb (socket_id k) sid) (sockets srv) with
    | Some _ => true
    | None => false
    end.
Proof.
  intros Hio. unfold connected. rewrite Hio.
  induction (sockets srv) as [|k l IH]; [reflexivity|].
  cbn. now destruct (String.eqb (socket_id k) sid).
Qed.

(** X10.  A ['join_issue'] puts the sockets of that id in the room of the
    issue and a ['leave_issue'] takes them out of it; neither changes any
    other membership, of that socket or of another, and a join for an id
    that is not connected changes nothing. *)
Theorem join_and_leave_change_one_membership sid issueId s :
  (forall sid' r,
      r ∈ roomsOf sid' (join_issue sid issueId s)
      <-> r ∈ roomsOf sid' s
          \/ (sid' = sid /\ r = "issue_" +:+ issueId
              /\ connected sid s = true))
  /\ (forall sid' r,
         r ∈ roomsOf sid' (leave_issue sid issueId s)
         <-> r ∈ roomsOf sid' s
             /\ ~ (sid' = sid /\ r = "issue_" +:+ issueId)).
Proof.
  destruct (io s) as [srv|] eqn:Hio.
  2:{ unfold join_issue, leave_issue, updateSocket, roomsOf, connected.
      rewrite Hio. cbn iota. rewrite Hio. split; intros sid' r; split.
      - intros Hr. now apply elem_of_empty in Hr.
      - intros [Hr | (_ & _ & Hc)]; [exact Hr|discriminate Hc].
      - intros Hr. now apply elem_of_empty in Hr.
      - now intros [Hr _]. }
  split; intros sid' r.
  - unfold join_issue. rewrite (roomsOf_updateSocket _ _ _ s srv Hio)
      by reflexivity.
    rewrite (connected_find sid s srv Hio). unfold roomsOf. rewrite Hio.
    destruct (String.eqb sid' sid) eqn:Hs.
    + apply String.eqb_eq in Hs. subst sid'.
      destruct (find _ (sockets srv)) as [k|]; cbn [join rooms].
      * rewrite elem_of_union, elem_of_singleton. tauto.
      * split; [tauto|]. intros [Hr | (_ & _ & Hc)]; [exact Hr|discriminate].
    + apply String.eqb_neq in Hs.
      destruct (find _ (sockets srv)) as [k|]; tauto.
  - unfold leave_issue. rewrite (roomsOf_updateSocket _ _ _ s srv Hio)
      by reflexivity.
    unfold roomsOf. rewrite Hio.
    destruct (String.eqb sid' sid) eqn:Hs.
    + apply String.eqb_eq in Hs. subst sid'.
      destruct (find _ (sockets srv)) as [k|]; cbn [leave rooms].
      * rewrite elem_of_difference, elem_of_singleton. tauto.
      * split; [intros Hr; now apply elem_of_empty in Hr|tauto].
    + apply String.eqb_neq in Hs.
      destruct (find _ (sockets srv)) as [k|]; tauto.
Qed.

(** In the room of a user are exactly the sockets of that user. *)
Lemma user_rooms_handle e s :
  plainIds [e] ->
  (forall srv, io s = Some srv ->
     Forall (fun k => forall x, "user_" +:+ x ∈ rooms k
                                <-> socket_userId k = Some x) (sockets srv)) ->
  forall srv', io (handle e s) = Some srv' ->
     Forall (fun k => forall x, "user_" +:+ x ∈ rooms k
                                <-> socket_userId k = Some x) (sockets srv').
Proof.
  intros Hplain Hinv srv'. apply Forall_cons in Hplain as [Hplain _].
  destruct e as [sid h|sid i|sid i]; cbn [handle].
  - unfold connect. destruct (io s) as [srv|] eqn:Hio;
      [|intros Hio'; cbn in Hio'; congruence].
    destruct (authMiddleware s h) as [msg|[uid u]]; cbn [snd].
    { intros Hio'. rewrite Hio in Hio'. injection Hio' as <-. now apply Hinv. }
    cbn [io set_io]. intros [= <-]. cbn [sockets].
    apply Forall_app. split; [now apply Hinv|].
    constructor; [|constructor]. intros x.
    assert (rooms (onConnection uid u (mkSocket sid (Some uid) (Some u)
                                        {[sid]}))
            = {[ "role_" +:+ role u ]}
                ∪ ({[ "user_" +:+ uid ]} ∪ {[ sid ]})
            \/ rooms (onConnection uid u (mkSocket sid (Some uid) (Some u)
                                           {[sid]}))
               = {[ "dept_" +:+ department u ]}
                   ∪ ({[ "role_" +:+ role u ]}
                        ∪ ({[ "user_" +:+ uid ]} ∪ {[ sid ]}))) as Hrooms.
    { unfold onConnection, join.
      destruct (truthy (department u) && _); cbn [rooms]; auto. }
    assert (socket_userId (onConnection uid u
                             (mkSocket sid (Some uid) (Some u) {[sid]}))
            = Some uid) as ->.
    { unfold onConnection, join. now destruct (truthy (department u) && _). }
    destruct Hrooms as [-> | ->];
      rewrite ?elem_of_union, !elem_of_singleton; split.
    + intros [Hr | [Hu | Hs]].
      * cbn in Hr. discriminate Hr.
      * cbn in Hu. injection Hu as Hu. change (x = uid) in Hu. now subst x.
      * subst sid. destruct x; vm_compute in Hplain; discriminate Hplain.
    + intros [= ->]. auto.
    + intros [Hd | [Hr | [Hu | Hs]]].
      * cbn in Hd. discriminate Hd.
      * cbn in Hr. discriminate Hr.
      * cbn in Hu. injection Hu as Hu. change (x = uid) in Hu. now subst x.
      * subst sid. destruct x; vm_compute in Hplain; discriminate Hplain.
    + intros [= ->]. auto.
  - unfold join_issue, updateSocket. destruct (io s) as [srv|] eqn:Hio;
      [|intros Hio'; congruence].
    cbn [io set_io]. intros [= <-]. cbn [sockets].
    apply Forall_map. eapply Forall_impl; [exact (Hinv _ eq_refl)|].
    intros k Hk x. cbn beta in Hk. specialize (Hk x).
    destruct (String.eqb (socket_id k) sid); [|exact Hk].
    cbn [join rooms socket_userId]. rewrite elem_of_union, elem_of_singleton.
    split; [|intros Hu; right; now apply Hk].
    intros [Hi | Hr]; [cbn in Hi; discriminate Hi|now apply Hk].
  - unfold leave_issue, updateSocket. destruct (io s) as [srv|] eqn:Hio;
      [|intros Hio'; congruence].
    cbn [io set_io]. intros [= <-]. cbn [sockets].
    apply Forall_map. eapply Forall_impl; [exact (Hinv _ eq_refl)|].
    intros k Hk x. cbn beta in Hk. specialize (Hk x).
    destruct (String.eqb (socket_id k) sid); [|exact Hk].
    cbn [leave rooms socket_userId].
    rewrite elem_of_difference, elem_of_singleton.
    split; [intros [Hr _]; now apply Hk|].
    intros Hu. split; [now apply Hk|]. intros Hi. cbn in Hi. discriminate Hi.
Qed.

Lemma user_rooms_handleAll es :
  forall s,
    plainIds es ->
    (forall srv, io s = Some srv ->
       Forall (fun k => forall x, "user_" +:+ x ∈ rooms k
                                  <-> socket_userId k = Some x)
              (sockets srv)) ->
    forall srv', io (handleAll es s) = Some srv' ->
       Forall (fun k => forall x, "user_" +:+ x ∈ rooms k
                                  <-> socket_userId k = Some x)
              (sockets srv').
Proof.
  induction es as [|e es IH]; intros s Hplain Hinv; [exact Hinv|].
  apply Forall_cons in Hplain as [He Hes].
  cbn [handleAll fold_left]. fold (handleAll es (handle e s)).
  apply IH; [exact Hes|].
  apply user_rooms_handle; [|exact Hinv]. constructor; [exact He|constructor].
Qed.

(** X11.  After any history of connection attempts, joins and leaves on a
    server that was just initialized, the realtime event of a notification
    that [createNotification] saves reaches exactly the sockets that went
    through the middleware as the recipient of the notification: no join
    of an issue room, and no other user's connection, gets a socket into
    the room of a user. *)
Theorem notification_reaches_only_the_recipient es s0 d :
  plainIds es ->
  exists srv' e,
    io (snd (NotificationModel.createNotification noFaults d
               (handleAll es (initializeSocket s0)))) = Some srv'
    /\ last (emitted srv') = Some e
    /\ event e = "notification"
    /\ payload e = PayloadNotification d
    /\ receivers e srv'
       = List.filter (authenticatedAs (recipient d)) (sockets srv').
Proof.
  intros Hplain.
  set (s := handleAll es (initializeSocket s0)).
  assert (is_Some (io s)) as [srv Hio].
  { subst s. generalize (initializeSocket s0),
      (ex_intro (fun x => io (initializeSocket s0) = Some x) _ eq_refl).
    induction es as [|e es IH]; intros s1 Hs1; [exact Hs1|].
    apply Forall_cons in Hplain as [_ Hplain].
    cbn [handleAll fold_left]. apply (IH Hplain).
    now apply (handle_frame e s1). }
  pose proof (user_rooms_handleAll es (initializeSocket s0) Hplain
                ltac:(intros ? [= <-]; constructor) srv Hio) as Hinv.
  unfold NotificationModel.createNotification, getIO. cbn [noFaults
    notificationWriteFails set_notifications io snd set_io].
  fold s. rewrite Hio. cbn [snd set_io io].
  eexists _, _. split; [reflexivity|]. cbn [emit emitted sockets].
  split; [apply last_snoc|]. repeat split.
  unfold receivers, emit. cbn [to_room sockets].
  induction Hinv as [|k l Hk _ IH]; [reflexivity|].
  cbn [List.filter]. rewrite IH.
  assert (bool_decide ("user_" +:+ recipient d ∈ rooms k)
          = authenticatedAs (recipient d) k) as ->; [|reflexivity].
  unfold authenticatedAs. destruct (bool_decide _) eqn:Hb.
  - apply bool_decide_eq_true in Hb. apply Hk in Hb. rewrite Hb.
    now rewrite String.eqb_refl.
  - apply bool_decide_eq_false in Hb.
    destruct (socket_userId k) as [x|] eqn:Hx; [|reflexivity].
    destruct (String.eqb x (recipient d)) eqn:Hxd; [|reflexivity].
    apply String.eqb_eq in Hxd. subst x. exfalso. apply Hb. now apply Hk.
Qed.

End RoomFacts.

Lemma notification_reaches_witness :
  exists srv' e,
    io (snd (NotificationModel.createNotification noFaults
               (mkNotification "c1" (Some "h1") "issue_updated"
                  "Issue Status Updated" "Your issue was updated"
                  (Some "i1") "medium" "/issues/i1" "View Issue")
               (@SocketEvents.handleAll Demo.platform
                  [SocketEvents.Connect "s1"
                     (Socket.mkHandshake (Some "jwt:c1") None);
                   SocketEvents.Connect "s2"
                     (Socket.mkHandshake (Some "jwt:h1") None);
                   SocketEvents.JoinIssue "s2" "i1"]
                  (Socket.initializeSocket Demo.server)))) = Some srv'
    /\ last (emitted srv') = Some e
    /\ map socket_id (SocketEvents.receivers e srv') = ["s1"].
Proof.
  destruct (@notification_reaches_only_the_recipient Demo.platform
              [SocketEvents.Connect "s1"
                 (Socket.mkHandshake (Some "jwt:c1") None);
               SocketEvents.Connect "s2"
                 (Socket.mkHandshake (Some "jwt:h1") None);
               SocketEvents.JoinIssue "s2" "i1"]
              Demo.server
              (mkNotification "c1" (Some "h1") "issue_updated"
                 "Issue Status Updated" "Your issue was updated"
                 (Some "i1") "medium" "/issues/i1" "View Issue"))
    as (srv' & e & Hio & Hlast & _ & _ & Hrecv).
  - repeat constructor.
  - exists srv', e. split; [exact Hio|]. split; [exact Hlast|].
    rewrite Hrecv. vm_compute in Hio. injection Hio as <-. reflexivity.
Defined.

(** ** PATCH /:id/status and POST /:id/upvote: the writes one after another *)

Section WriteOrderFacts.
Context `{Platform}.
Import IssueModel Routes.

(** An authorized, valid request whose save goes through: what is left is
    the notification of the reporter and the chained [populate]. *)
Lemma patchStatus_saved now f req b s user issue newStatus :
  Auth.authenticate s req = inr user ->
  (role user = "admin"
   \/ ((role user = "department_head" \/ role user = "field_officer")
       /\ department user = category issue)) ->
  isObjectId (Auth.params_id req) = true ->
  issues s !! Auth.params_id req = Some issue ->
  schemaValid issue = true ->
  body_status b = Some newStatus ->
  List.In newStatus statusEnum ->
  newStatus <> "submitted" ->
  (forall n, body_notes b = Some n -> (String.length (trim n) <= 500)%nat) ->
  (forall e, body_estimatedResolutionTime b = Some e -> truthy e = true ->
             newDate e <> InvalidDate) ->
  issueWriteFails f = false ->
  patchStatus now f req b s
  = match NotificationModel.createNotification f
            (statusNotification user
               (setEstimate (body_estimatedResolutionTime b)
                  (updateStatus now newStatus (user_id user)
                     (default "" (trim <$> body_notes b)) issue))
               (status issue) newStatus (trim <$> body_notes b))
            (set_issues s
               (<[issue_id issue :=
                    setEstimate (body_estimatedResolutionTime b)
                      (updateStatus now newStatus (user_id user)
                         (default "" (trim <$> body_notes b)) issue)]>
                  (issues s))) with
    | (Threw _, s2) => (statusFailed, s2)
    | (Returned _, s2) =>
        match populateChain with
        | Threw _ => (statusFailed, s2)
        | Returned _ =>
            (mkResponse 200 true "Issue status updated successfully"
               (BodyIssue
                  (setEstimate (body_estimatedResolutionTime b)
                     (updateStatus now newStatus (user_id user)
                        (default "" (trim <$> body_notes b)) issue))), s2)
        end
    end.
Proof.
  intros Hauth Hactor Hid Hissue Hvalid Hst Hin Hne Hnotes Hest Hf.
  unfold patchStatus, Auth.authorize, findById.
  rewrite Hauth, (validateStatusBody_ok b newStatus Hst Hin Hnotes), Hid,
    Hissue.
  assert (includes ["admin"; "department_head"; "field_officer"] (role user)
          = true) as ->.
  { apply includes_In. cbn. intuition. }
  cbn [negb].
  assert (negb (String.eqb (role user) "admin")
          && negb (String.eqb (department user) (category issue)) = false)
    as ->.
  { destruct Hactor as [-> | [_ ->]]; [reflexivity|].
    rewrite String.eqb_refl. apply andb_false_r. }
  unfold saveIssue. rewrite schemaValid_written.
  unfold schemaValid in Hvalid.
  apply andb_prop in Hvalid as [Hvalid Hdate].
  apply andb_prop in Hvalid as [Hvalid Htl].
  apply andb_prop in Hvalid as [_ Hcat].
  rewrite Hcat, Htl, (proj2 (includes_In _ _) Hin).
  assert (includes timelineActionEnum newStatus = true) as ->.
  { cbn in Hin. destruct Hin as [<- | Hin]; [congruence|].
    repeat (destruct Hin as [<- | Hin]; [reflexivity|]). destruct Hin. }
  assert (validDate
            (estimatedResolutionTime
               (setEstimate (body_estimatedResolutionTime b)
                  (updateStatus now newStatus (user_id user)
                     (default "" (trim <$> body_notes b)) issue))) = true)
    as ->.
  { unfold setEstimate.
    destruct (body_estimatedResolutionTime b) as [e|] eqn:He.
    - destruct (truthy e) eqn:Ht.
      + cbn. specialize (Hest e eq_refl Ht). now destruct (newDate e).
      + now rewrite (proj2 (proj2 (proj2 (proj2 (proj2
               (frame_updateStatus now newStatus (user_id user)
                  (default "" (trim <$> body_notes b)) issue)))))).
    - now rewrite (proj2 (proj2 (proj2 (proj2 (proj2
               (frame_updateStatus now newStatus (user_id user)
                  (default "" (trim <$> body_notes b)) issue)))))). }
  cbn [andb negb]. rewrite Hf, issue_id_written. reflexivity.
Qed.

Lemma reportedBy_written e now newStatus by_ notes i :
  reportedBy (setEstimate e (updateStatus now newStatus by_ notes i))
  = reportedBy i.
Proof.
  unfold setEstimate, updateStatus.
  destruct e as [t|]; [destruct (truthy t)|];
    destruct (String.eqb newStatus "resolved"); reflexivity.
Qed.

Lemma status_written e now newStatus by_ notes i :
  status (setEstimate e (updateStatus now newStatus by_ notes i))
  = newStatus.
Proof.
  unfold setEstimate, updateStatus.
  destruct e as [t|]; [destruct (truthy t)|];
    destruct (String.eqb newStatus "resolved"); reflexivity.
Qed.

(** X12.  An authorized, valid status change that the database does not
    refuse tells the reporter of the issue, and nobody else: the request
    adds exactly one notification, addressed to [reportedBy], sent by the
    caller, about this issue, of priority high exactly when the new
    status is ["resolved"]; when the socket server runs, one
    ['notification'] event goes to the room of the reporter.  The
    notification is there whether the request is then answered 200 or,
    when the chained [populate] throws, 500. *)
Theorem status_change_notifies_only_the_reporter
    now req b s user issue newStatus :
  Auth.authenticate s req = inr user ->
  (role user = "admin"
   \/ ((role user = "department_head" \/ role user = "field_officer")
       /\ department user = category issue)) ->
  isObjectId (Auth.params_id req) = true ->
  issues s !! Auth.params_id req = Some issue ->
  schemaValid issue = true ->
  body_status b = Some newStatus ->
  List.In newStatus statusEnum ->
  newStatus <> "submitted" ->
  (forall n, body_notes b = Some n -> (String.length (trim n) <= 500)%nat) ->
  (forall e, body_estimatedResolutionTime b = Some e -> truthy e = true ->
             newDate e <> InvalidDate) ->
  exists r s' n,
    patchStatus now noFaults req b s = (r, s')
    /\ code r = match populateChain with
                | Returned _ => 200
                | Threw _ => 500
                end
    /\ notifications s' = notifications s ++ [n]
    /\ recipient n = reportedBy issue
    /\ sender n = Some (user_id user)
    /\ relatedIssue n = Some (issue_id issue)
    /\ (notification_priority n = "high" <-> newStatus = "resolved")
    /\ match io s with
       | Some srv =>
           io s'
           = Some (mkIoServer (sockets srv)
                     (emitted srv
                        ++ [mkEmission (Some ("user_" +:+ reportedBy issue))
                              "notification" (PayloadNotification n)]))
       | None => io s' = None
       end.
Proof.
  intros Hauth Hactor Hid Hissue Hvalid Hst Hin Hne Hnotes Hest.
  rewrite (patchStatus_saved now noFaults req b s user issue newStatus)
    by (assumption || reflexivity).
  unfold NotificationModel.createNotification, Socket.getIO.
  cbn [noFaults notificationWriteFails set_notifications set_issues io
       notifications].
  assert (notification_priority
            (statusNotification user
               (setEstimate (body_estimatedResolutionTime b)
                  (updateStatus now newStatus (user_id user)
                     (default "" (trim <$> body_notes b)) issue))
               (status issue) newStatus (trim <$> body_notes b)) = "high"
          <-> newStatus = "resolved") as Hprio.
  { unfold statusNotification. cbn [notification_priority].
    destruct (String.eqb newStatus "resolved") eqn:He.
    - apply String.eqb_eq in He. tauto.
    - apply String.eqb_neq in He. split; [discriminate|tauto]. }
  destruct populateChain; destruct (io s) as [srv|] eqn:Hio;
    (eexists _, _, _; split; [reflexivity|]; split; [reflexivity|];
     split; [reflexivity|];
     split; [cbn [statusNotification recipient]; apply reportedBy_written|];
     split; [reflexivity|];
     split; [cbn [statusNotification relatedIssue];
             now rewrite issue_id_written|];
     split; [exact Hprio|]).
  - cbn [set_io io]. unfold Socket.emit.
    cbn [statusNotification recipient sockets emitted].
    now rewrite reportedBy_written.
  - exact Hio.
  - cbn [set_io io]. unfold Socket.emit.
    cbn [statusNotification recipient sockets emitted].
    now rewrite reportedBy_written.
  - exact Hio.
Qed.

(** X13.  The handler saves the issue before it notifies the reporter,
    and nothing undoes the save: when the notification cannot be written
    the request is answered 500 ['Failed to update issue status'], yet the
    stored issue has the new status and its timeline has the new entry. *)
Theorem status_change_stays_when_the_notification_fails
    now f req b s user issue newStatus :
  Auth.authenticate s req = inr user ->
  (role user = "admin"
   \/ ((role user = "department_head" \/ role user = "field_officer")
       /\ department user = category issue)) ->
  isObjectId (Auth.params_id req) = true ->
  issues s !! Auth.params_id req = Some issue ->
  schemaValid issue = true ->
  body_status b = Some newStatus ->
  List.In newStatus statusEnum ->
  newStatus <> "submitted" ->
  (forall n, body_notes b = Some n -> (String.length (trim n) <= 500)%nat) ->
  (forall e, body_estimatedResolutionTime b = Some e -> truthy e = true ->
             newDate e <> InvalidDate) ->
  issueWriteFails f = false ->
  (forall n, notificationWriteFails f n = true) ->
  exists s' issue',
    patchStatus now f req b s = (statusFailed, s')
    /\ code statusFailed = 500
    /\ issues s' !! issue_id issue = Some issue'
    /\ status issue' = newStatus
    /\ timeline issue'
       = timeline issue
           ++ [statusEntry now (status issue) newStatus (user_id user)
                 (default "" (trim <$> body_notes b))]
    /\ notifications s' = notifications s.
Proof.
  intros Hauth Hactor Hid Hissue Hvalid Hst Hin Hne Hnotes Hest Hf Hn.
  rewrite (patchStatus_saved now f req b s user issue newStatus)
    by assumption.
  unfold NotificationModel.createNotification. rewrite Hn.
  eexists _, _. split; [reflexivity|]. split; [reflexivity|].
  cbn [set_issues issues notifications]. split; [apply lookup_insert_eq|].
  split; [apply status_written|]. split; [|reflexivity].
  destruct (setEstimate_frame (body_estimatedResolutionTime b)
              (updateStatus now newStatus (user_id user)
                 (default "" (trim <$> body_notes b)) issue))
    as (_ & -> & _).
  apply timeline_updateStatus.
Qed.

(** X14.  An upvote raises the contribution score of the voter before
    the issue is saved: when that save fails the request is answered 500
    and the issue keeps its upvotes, but the score stays raised. *)
Theorem upvote_score_stays_when_the_save_fails now f req s user issue :
  Auth.authenticate s req = inr user ->
  isObjectId (Auth.params_id req) = true ->
  issues s !! Auth.params_id req = Some issue ->
  users s !! user_id user = Some user ->
  isUpvoted issue user = false ->
  userWriteFails f = false ->
  issueWriteFails f = true ->
  exists s',
    postUpvote now f req s = (upvoteFailed, s')
    /\ code upvoteFailed = 500
    /\ issues s' = issues s
    /\ contributionScore <$> users s' !! user_id user
       = Some (contributionScore user + 1).
Proof.
  intros Hauth Hid Hissue Huser Hup Hu Hi.
  unfold postUpvote, findById. rewrite Hauth, Hid, Hissue.
  unfold findIndex, saveIssue, incContributionScore.
  destruct (findIndexFrom_spec
              (fun up => String.eqb (upvote_user up) (user_id user))
              (upvotes issue) 0 ltac:(lia))
    as [[_ ->] | (l1 & x & l2 & Hups & _ & Hx & _)].
  - cbn [Z.gtb Z.compare]. rewrite Hu, Hi.
    destruct (negb (schemaValid _));
      (eexists; split; [reflexivity|]; split; [reflexivity|];
       split; [reflexivity|]; cbn [set_users users];
       rewrite lookup_alter_eq, Huser; reflexivity).
  - exfalso. unfold isUpvoted in Hup. rewrite Hups in Hup.
    rewrite existsb_app in Hup. cbn [existsb] in Hup. rewrite Hx in Hup.
    rewrite orb_true_r in Hup. discriminate.
Qed.

End WriteOrderFacts.

Lemma status_change_notifies_witness :
  exists r s' n,
    @Routes.patchStatus Demo.platform 5000 noFaults (Demo.bearer "h1" "i1")
      (Demo.to "resolved") Demo.server = (r, s')
    /\ code r = 500
    /\ notifications s' = [n]
    /\ recipient n = "c1"
    /\ notification_priority n = "high".
Proof.
  destruct (@status_change_notifies_only_the_reporter Demo.platform 5000
              (Demo.bearer "h1" "i1") (Demo.to "resolved") Demo.server
              Demo.roadsHead Demo.pothole "resolved")
    as (r & s' & n & Hrun & Hcode & Hn & Hto & _ & _ & Hprio & _);
    try reflexivity; try discriminate.
  - right. split; [left|]; reflexivity.
  - cbn. tauto.
  - exists r, s', n. repeat (split; [assumption|]). now apply Hprio.
Defined.

Lemma status_change_stays_witness :
  exists s' issue',
    @Routes.patchStatus Demo.platform 5000
      (mkFaults false false (fun _ => true)) (Demo.bearer "h1" "i1")
      (Demo.to "in_progress") Demo.server = (Routes.statusFailed, s')
    /\ issues s' !! "i1" = Some issue'
    /\ status issue' = "in_progress"
    /\ notifications s' = [].
Proof.
  destruct (@status_change_stays_when_the_notification_fails Demo.platform
              5000 (mkFaults false false (fun _ => true))
              (Demo.bearer "h1" "i1") (Demo.to "in_progress") Demo.server
              Demo.roadsHead Demo.pothole "in_progress")
    as (s' & issue' & Hrun & _ & Hi & Hst & _ & Hn);
    try reflexivity; try discriminate.
  - right. split; [left|]; reflexivity.
  - cbn. tauto.
  - exists s', issue'. repeat (split; [assumption|]). exact Hn.
Defined.

Lemma upvote_score_stays_witness :
  exists s',
    @Routes.postUpvote Demo.platform 5000
      (mkFaults true false (fun _ => false)) (Demo.bearer "c1" "i1")
      Demo.server = (Routes.upvoteFailed, s')
    /\ issues s' = issues Demo.server
    /\ contributionScore <$> users s' !! "c1" = Some 8.
Proof.
  destruct (@upvote_score_stays_when_the_save_fails Demo.platform 5000
              (mkFaults true false (fun _ => false)) (Demo.bearer "c1" "i1")
              Demo.server Demo.citizen Demo.pothole)
    as (s' & Hrun & _ & Hi & Hscore); try reflexivity.
  exists s'. split; [exact Hrun|]. split; [exact Hi|]. exact Hscore.
Defined.

(** ** PATCH /:id/assign *)

Section AssignFacts.
Context `{Platform} `{Validator}.
Import IssueModel Routes AssignRoute.

Lemma schemaValid_assignIssue now u dept by_ i :
  schemaValid (assignIssue now u dept by_ i) = schemaValid i.
Proof.
  unfold schemaValid, assignIssue, addTimelineEntry.
  cbn [status category timeline estimatedResolutionTime set_timeline
       set_assignedTo].
  rewrite forallb_app. cbn. now rewrite !andb_true_r.
Qed.

Lemma startAll_frame f ds :
  forall s, issues (snd (startAll f ds s)) = issues s
            /\ users (snd (startAll f ds s)) = users s.
Proof.
  induction ds as [|d ds IH]; intros s; [split; reflexivity|].
  cbn [startAll snd].
  destruct (NotificationModel.createNotification f d s) as [r s1] eqn:Hc.
  apply createNotification_frame in Hc as [Hi Hu]. cbn [snd fst].
  destruct (IH s1) as [-> ->]. split; assumption.
Qed.

Lemma saveAndNotify_inv now f user issue uid dept au s r s' :
  saveAndNotify now f user issue uid dept au s = (r, s') ->
  (s' = s /\ success r = false)
  \/ (issues s'
      = <[issue_id issue := assignIssue now uid dept (user_id user) issue]>
          (issues s)
      /\ users s' = users s
      /\ (code r = 200 \/ r = assignFailed)).
Proof.
  unfold saveAndNotify, saveIssue.
  destruct (negb (schemaValid _)); [intros [= <- <-]; left; auto|].
  destruct (issueWriteFails f); [intros [= <- <-]; left; auto|].
  match goal with
  | |- context [startAll f ?ds ?s1] =>
      destruct (startAll_frame f ds s1) as [Hi Hu];
      destruct (promiseAll (fst (startAll f ds s1)));
      [destruct populateChain|]
  end; intros [= <- <-]; right;
    (split; [exact Hi|]); (split; [exact Hu|]); auto.
Qed.

(** Every outcome of the handler: either nothing was written and the
    answer is a failure, or the assignment was saved; the answer is then
    200, or 500 when a notification could not be saved or the chained
    [populate] threw. *)
Lemma patchAssign_inv now f found req b s r s' :
  patchAssign now f found req b s = (r, s') ->
  (s' = s /\ success r = false)
  \/ exists user issue uid dept,
      Auth.authenticate s req = inr user
      /\ validateAssignBody b = Some (uid, dept)
      /\ issues s !! Auth.params_id req = Some issue
      /\ issues s'
         = <[issue_id issue := assignIssue now uid dept (user_id user) issue]>
             (issues s)
      /\ users s' = users s
      /\ (code r = 200 \/ r = assignFailed).
Proof.
  unfold patchAssign.
  destruct (Auth.authenticate s req) as [r0|user] eqn:Hauth.
  { intros [= <- <-]. left. split; [reflexivity|].
    eapply authenticate_failure; eauto. }
  unfold Auth.authorize.
  destruct (includes _ (role user)) eqn:Hrole; cbn [negb];
    [|intros [= <- <-]; left; auto].
  destruct (validateAssignBody b) as [[uid dept]|] eqn:Hval;
    [|intros [= <- <-]; left; auto].
  unfold findById.
  destruct (isObjectId (Auth.params_id req)) eqn:Hid;
    [|intros [= <- <-]; left; auto].
  destruct (issues s !! Auth.params_id req) as [issue|] eqn:Hissue;
    [|intros [= <- <-]; left; auto].
  assert (forall au,
    saveAndNotify now f user issue uid dept au s = (r, s') ->
    (s' = s /\ success r = false)
    \/ exists user0 issue0 uid0 dept0,
        @inr Response User user = inr user0
        /\ Some (uid, dept) = Some (uid0, dept0)
        /\ Some issue = Some issue0
        /\ issues s'
           = <[issue_id issue0 :=
                 assignIssue now uid0 dept0 (user_id user0) issue0]>
               (issues s)
        /\ users s' = users s
        /\ (code r = 200 \/ r = assignFailed)) as Hfinish.
  { intros au Hrun. apply saveAndNotify_inv in Hrun as [Hrun|Hrun];
      [left; exact Hrun|right].
    exists user, issue, uid, dept. repeat (split; [reflexivity|]).
    exact Hrun. }
  destruct uid as [u|]; [|apply Hfinish].
  destruct (truthy u); [|apply Hfinish].
  destruct found as [[au|]|]; try (intros [= <- <-]; left; auto).
  destruct (negb (String.eqb (department au) dept));
    [intros [= <- <-]; left; auto|apply Hfinish].
Qed.

(** X15.  An admin or a department head can assign any issue to any of
    the seven departments, whatever the category of the issue and the
    department of the caller: the stored issue keeps its status, carries
    the department and the time of the request as its assignment, has one
    ["assigned"] entry more in its timeline, and exactly one notification
    is added, for the reporter.  The request is answered 200 when the
    chained [populate] returns and 500 ['Failed to assign issue'] when it
    throws; the assignment and the notification are stored either way. *)
Theorem assignment_to_a_department now found req b s user issue dept :
  Auth.authenticate s req = inr user ->
  role user = "admin" \/ role user = "department_head" ->
  body_assignedUserId b = None ->
  body_department b = Some dept ->
  List.In dept departmentEnum ->
  isObjectId (Auth.params_id req) = true ->
  issues s !! Auth.params_id req = Some issue ->
  schemaValid issue = true ->
  exists s' issue',
    patchAssign now noFaults found req b s
    = (match populateChain with
       | Returned _ =>
           mkResponse 200 true "Issue assigned successfully"
                      (BodyIssue issue')
       | Threw _ => assignFailed
       end, s')
    /\ issues s' = <[issue_id issue := issue']> (issues s)
    /\ users s' = users s
    /\ status issue' = status issue
    /\ assignedTo issue' = Some (mkAssignment None dept now)
    /\ timeline issue'
       = timeline issue
           ++ [mkTimelineEntry "assigned"
                 ("Issue assigned to " +:+ dept +:+ " department")
                 (user_id user) now (MetaAssign None dept)]
    /\ notifications s'
       = notifications s ++ [reporterNotification user issue' dept]
    /\ recipient (reporterNotification user issue' dept) = reportedBy issue.
Proof.
  intros Hauth Hrole Huid Hdept Hin Hid Hissue Hvalid.
  unfold patchAssign, Auth.authorize, findById, validateAssignBody.
  rewrite Hauth, Hdept, Huid, (proj2 (includes_In _ _) Hin), Hid, Hissue.
  assert (includes ["admin"; "department_head"] (role user) = true) as ->.
  { apply includes_In. cbn. intuition. }
  cbn [negb andb]. unfold saveAndNotify, saveIssue.
  rewrite schemaValid_assignIssue, Hvalid.
  cbn [negb noFaults issueWriteFails startAll].
  match goal with
  | |- context [NotificationModel.createNotification noFaults ?d ?s0] =>
      destruct (createNotification_ok d s0) as (s' & Hc & Hn);
      pose proof (createNotification_frame _ _ _ _ _ Hc) as [Hi Hu];
      rewrite Hc
  end.
  cbn [fst snd promiseAll].
  exists s', (assignIssue now None dept (user_id user) issue).
  split; [now destruct populateChain|]. repeat split; assumption.
Qed.

(** X16.  As routes/issues.js is written, no issue is ever assigned to a
    named user: the handler looks the user up on [User], which the file
    never binds, so a request that names one and passes the checks
    before the lookup is answered 500 ['Failed to assign issue'], and
    whatever the answer is, it is a failure and nothing is written. *)
Theorem assignment_to_a_named_user_is_never_made now f req b s uid :
  body_assignedUserId b = Some uid ->
  truthy uid = true ->
  snd (patchAssign now f unboundUser req b s) = s
  /\ success (fst (patchAssign now f unboundUser req b s)) = false
  /\ (forall user dept issue,
        Auth.authenticate s req = inr user ->
        role user = "admin" \/ role user = "department_head" ->
        validateAssignBody b = Some (Some uid, dept) ->
        isObjectId (Auth.params_id req) = true ->
        issues s !! Auth.params_id req = Some issue ->
        patchAssign now f unboundUser req b s = (assignFailed, s)).
Proof.
  intros Huid Htruthy.
  assert (forall d, validateAssignBody b = Some d -> fst d = Some uid)
    as Hval.
  { unfold validateAssignBody. rewrite Huid.
    destruct (body_department b); [|discriminate].
    destruct (_ && _); [|discriminate]. now intros d [= <-]. }
  split; [|split].
  - unfold patchAssign.
    destruct (Auth.authenticate s req); [reflexivity|].
    destruct (Auth.authorize _ _); [reflexivity|].
    destruct (validateAssignBody b) as [[au dept]|] eqn:Hv; [|reflexivity].
    specialize (Hval _ eq_refl). cbn in Hval. subst au. rewrite Htruthy.
    destruct (findById _ _) as [[i|]|]; reflexivity.
  - unfold patchAssign.
    destruct (Auth.authenticate s req) eqn:Hauth;
      [eapply authenticate_failure; eauto|].
    unfold Auth.authorize. destruct (negb _); [reflexivity|].
    destruct (validateAssignBody b) as [[au dept]|] eqn:Hv; [|reflexivity].
    specialize (Hval _ eq_refl). cbn in Hval. subst au. rewrite Htruthy.
    destruct (findById _ _) as [[i|]|]; reflexivity.
  - intros user dept issue Hauth Hrole Hv Hid Hissue.
    unfold patchAssign, Auth.authorize, findById.
    rewrite Hauth, Hv, Hid, Hissue, Htruthy.
    assert (includes ["admin"; "department_head"] (role user) = true) as ->.
    { apply includes_In. cbn. intuition. }
    reflexivity.
Qed.

(** X17.  Only an admin or a department head gets past the role check of
    the assignment: any other authenticated caller is answered 403; and
    every answer other than 200 and 500 leaves the issues, the users and
    the notifications as they were. *)
Theorem assignment_refused_changes_nothing now f found req b s :
  (forall user,
      Auth.authenticate s req = inr user ->
      role user <> "admin" -> role user <> "department_head" ->
      patchAssign now f found req b s
      = (failure 403 "Access denied. Insufficient permissions.", s))
  /\ (forall r s',
        patchAssign now f found req b s = (r, s') ->
        code r <> 200 -> code r <> 500 -> s' = s).
Proof.
  split.
  - intros user Hauth Ha Hd. unfold patchAssign, Auth.authorize.
    rewrite Hauth.
    assert (includes ["admin"; "department_head"] (role user) = false) as ->.
    { apply String.eqb_neq in Ha, Hd. unfold includes. cbn [existsb].
      now rewrite Ha, Hd. }
    reflexivity.
  - intros r s' Hrun H200 H500.
    apply patchAssign_inv in Hrun
      as [[-> _] | (user & issue & uid & dept & _ & _ & _ & _ & _ & Hr)];
      [reflexivity|].
    destruct Hr as [Hr | ->]; [contradiction|]. now cbn in H500.
Qed.

End AssignFacts.

Lemma assignment_to_a_department_witness :
  exists s' issue',
    @AssignRoute.patchAssign Demo.platform AssignDemo.validator 5000
      noFaults AssignRoute.unboundUser (Demo.bearer "h1" "i1")
      (AssignDemo.toDepartment "water") Demo.server
    = (AssignRoute.assignFailed, s')
    /\ issues s' !! "i1" = Some issue'
    /\ status issue' = "closed"
    /\ assignedTo issue' = Some (mkAssignment None "water" 5000)
    /\ map recipient (notifications s') = ["c1"].
Proof.
  destruct (@assignment_to_a_department Demo.platform AssignDemo.validator
              5000 AssignRoute.unboundUser (Demo.bearer "h1" "i1")
              (AssignDemo.toDepartment "water") Demo.server Demo.roadsHead
              Demo.pothole "water")
    as (s' & issue' & Hrun & Hi & _ & Hst & Has & _ & Hn & Hto);
    try reflexivity.
  - right. reflexivity.
  - cbn. tauto.
  - exists s', issue'. split; [exact Hrun|].
    split; [rewrite Hi; apply lookup_insert_eq|].
    split; [exact Hst|]. split; [exact Has|].
    rewrite Hn. cbn [Demo.server notifications app map]. now rewrite Hto.
Defined.

Lemma assignment_to_a_named_user_witness :
  @AssignRoute.patchAssign Demo.platform AssignDemo.validator 5000
    noFaults AssignRoute.unboundUser (Demo.bearer "a1" "i1")
    (AssignDemo.toUser "h1" "roads") Demo.server
  = (AssignRoute.assignFailed, Demo.server).
Proof.
  apply (proj2 (proj2
           (@assignment_to_a_named_user_is_never_made Demo.platform
              AssignDemo.validator 5000 noFaults (Demo.bearer "a1" "i1")
              (AssignDemo.toUser "h1" "roads") Demo.server "h1"
              eq_refl eq_refl)) Demo.admin "roads" Demo.pothole);
    try reflexivity.
  left. reflexivity.
Defined.

Lemma assignment_refused_witness :
  @AssignRoute.patchAssign Demo.platform AssignDemo.validator 5000
    noFaults AssignRoute.unboundUser (Demo.bearer "c1" "i1")
    (AssignDemo.toDepartment "roads") Demo.server
  = (failure 403 "Access denied. Insufficient permissions.", Demo.server).
Proof.
  apply (proj1 (@assignment_refused_changes_nothing Demo.platform
                  AssignDemo.validator 5000 noFaults
                  AssignRoute.unboundUser (Demo.bearer "c1" "i1")
                  (AssignDemo.toDepartment "roads") Demo.server)
           Demo.citizen); [reflexivity|discriminate|discriminate].
Defined.

(** ** The timeline entries that the schema refuses *)

Section SchemaFacts.
Import IssueModel.

Lemma entriesOf_In o ops :
  In o ops -> forall st, exists st', In (entryOf o st') (entriesOf ops st).
Proof.
  induction ops as [|o' ops IH]; intros Hin st; [destruct Hin|].
  destruct Hin as [-> | Hin].
  - exists st. now left.
  - destruct (IH Hin (statusAfter o' st)) as [st' Hst'].
    exists st'. now right.
Qed.

Lemma schemaValid_action i e :
  In e (timeline i) -> includes timelineActionEnum (action e) = false ->
  schemaValid i = false.
Proof.
  intros Hin Hact. unfold schemaValid.
  assert (forallb (fun e => includes timelineActionEnum (action e))
                  (timeline i) = false) as ->.
  { apply not_true_is_false. intros Hall.
    rewrite forallb_forall in Hall. specialize (Hall e Hin). congruence. }
  now rewrite andb_false_r.
Qed.

(** X18.  The ["updated"] entry that [PUT /:id] pushes on the timeline,
    like the entry of a status change to ["submitted"], has an action
    that the schema of the timeline does not list: once one of these
    writes was applied to a document, whatever is applied before and
    after it, [save()] rejects the document with a ValidationError. *)
Theorem documents_with_an_updated_entry_are_never_saved ops i f s :
  (exists now by_ fields, In (OpUpdated now by_ fields) ops)
  \/ (exists now by_ notes, In (OpUpdateStatus now "submitted" by_ notes) ops)
  ->
  schemaValid (run ops i) = false
  /\ saveIssue f (run ops i) s = Threw "ValidationError".
Proof.
  intros Hops.
  assert (schemaValid (run ops i) = false) as Hinvalid.
  { destruct Hops as [(now & by_ & fields & Hin) | (now & by_ & notes & Hin)];
      destruct (entriesOf_In _ _ Hin (status i)) as [st' Hst'];
      (eapply schemaValid_action;
       [rewrite timeline_run; apply in_or_app; right; exact Hst'
       |reflexivity]). }
  split; [exact Hinvalid|]. unfold saveIssue. now rewrite Hinvalid.
Qed.

End SchemaFacts.

Lemma documents_with_an_updated_entry_witness :
  saveIssue noFaults
    (IssueModel.run [IssueModel.OpUpdated 2000 "c1" ["title"];
                     IssueModel.OpAssignIssue 3000 None "roads" "a1"]
       Demo.pothole) Demo.server
  = Threw "ValidationError".
Proof.
  apply (documents_with_an_updated_entry_are_never_saved
           [IssueModel.OpUpdated 2000 "c1" ["title"];
            IssueModel.OpAssignIssue 3000 None "roads" "a1"]
           Demo.pothole noFaults Demo.server).
  left. exists 2000, "c1", ["title"]. simpl. left. reflexivity.
Defined.

(** ** DELETE /:id *)

Section DeleteFacts.
Context `{Platform}.
Import IssueModel Routes DeleteRoute.

(** A status change that wrote to the issues found its issue. *)
Lemma patchStatus_written_id now f req b s r s' :
  patchStatus now f req b s = (r, s') -> issues s' <> issues s ->
  isObjectId (Auth.params_id req) = true.
Proof.
  unfold patchStatus.
  destruct (Auth.authenticate s req) as [r0|user];
    [intros [= <- <-] Hw; now destruct Hw|].
  destruct (Auth.authorize _ _); [intros [= <- <-] Hw; now destruct Hw|].
  destruct (validateStatusBody b) as [[newStatus notes]|];
    [|intros [= <- <-] Hw; now destruct Hw].
  unfold findById.
  destruct (isObjectId (Auth.params_id req)); [reflexivity|].
  intros [= <- <-] Hw. now destruct Hw.
Qed.

(** X19.  An issue is deleted for an admin, and for its reporter as long
    as its status is ["submitted"]; every other authenticated caller is
    answered 403 and nothing is deleted, whatever the database does. *)
Theorem delete_is_for_admins_and_owners_of_submitted_issues
    req st user issue :
  Auth.authenticate (server st) req = inr user ->
  isObjectId (Auth.params_id req) = true ->
  issues (server st) !! Auth.params_id req = Some issue ->
  (role user = "admin"
   \/ (reportedBy issue = user_id user /\ status issue = "submitted") ->
   code (fst (deleteIssue noDeleteFaults req st)) = 200
   /\ issues (server (snd (deleteIssue noDeleteFaults req st)))
        !! Auth.params_id req = None)
  /\ (~ (role user = "admin"
         \/ (reportedBy issue = user_id user /\ status issue = "submitted")) ->
      forall f,
        deleteIssue f req st
        = (failure 403
             "Access denied. Only submitted issues can be deleted by their owners.",
           st)).
Proof.
  intros Hauth Hid Hissue. unfold deleteIssue, findById.
  rewrite Hauth, Hid, Hissue. split.
  - intros Hallowed.
    assert (negb (String.eqb (role user) "admin")
            && (negb (String.eqb (reportedBy issue) (user_id user))
                || negb (String.eqb (status issue) "submitted")) = false)
      as ->.
    { destruct Hallowed as [-> | [-> ->]]; [reflexivity|].
      rewrite !String.eqb_refl. apply andb_false_r. }
    cbn. split; [reflexivity|]. apply lookup_delete_eq.
  - intros Hrefused f.
    assert (negb (String.eqb (role user) "admin")
            && (negb (String.eqb (reportedBy issue) (user_id user))
                || negb (String.eqb (status issue) "submitted")) = true)
      as ->; [|reflexivity].
    destruct (String.eqb (role user) "admin") eqn:Ha;
      [apply String.eqb_eq in Ha; tauto|].
    destruct (String.eqb (reportedBy issue) (user_id user)) eqn:Ho;
      [|reflexivity].
    destruct (String.eqb (status issue) "submitted") eqn:Hs;
      [|reflexivity].
    apply String.eqb_eq in Ho, Hs. tauto.
Qed.

(** X20.  A deletion that is answered 200 took the comments of the issue
    and the notifications about it along, and nothing else: the issue is
    no longer stored, a comment or a notification is left exactly when it
    was there and belongs to another issue, and the other issues and the
    users are as they were. *)
Theorem delete_takes_comments_and_notifications_along f req st r st' :
  deleteIssue f req st = (r, st') ->
  code r = 200 ->
  issues (server st') = delete (Auth.params_id req) (issues (server st))
  /\ users (server st') = users (server st)
  /\ (forall c,
        In c (comments st')
        <-> In c (comments st)
            /\ CommentModel.comment_issue c <> Auth.params_id req)
  /\ (forall n,
        In n (notifications (server st'))
        <-> In n (notifications (server st))
            /\ relatedIssue n <> Some (Auth.params_id req)).
Proof.
  unfold deleteIssue.
  destruct (Auth.authenticate (server st) req) as [r0|user] eqn:Hauth.
  { intros [= <- <-] Hc. exfalso. revert Hauth Hc. unfold Auth.authenticate.
    repeat (match goal with
            | |- context [match ?x with _ => _ end] => destruct x eqn:?
            end; try discriminate);
      intros [= <-] Hc; cbn in Hc; discriminate Hc. }
  destruct (findById _ _) as [[issue|]|];
    try (intros [= <- <-] Hc; cbn in Hc; discriminate Hc).
  destruct (_ && _); [intros [= <- <-] Hc; cbn in Hc; discriminate Hc|].
  destruct (issueDeleteFails f);
    [intros [= <- <-] Hc; cbn in Hc; discriminate Hc|].
  destruct (commentDeleteFails f);
    [intros [= <- <-] Hc; cbn in Hc; discriminate Hc|].
  destruct (notificationDeleteFails f);
    [intros [= <- <-] Hc; cbn in Hc; discriminate Hc|].
  intros [= <- <-] _. cbn [server comments set_notifications set_issues
                           issues users notifications].
  split; [reflexivity|]. split; [reflexivity|]. split.
  - intros c. unfold deleteComments. rewrite filter_In.
    rewrite negb_true_iff, String.eqb_neq. reflexivity.
  - intros n. unfold deleteNotifications. rewrite filter_In.
    destruct (relatedIssue n) as [i|].
    + rewrite negb_true_iff, String.eqb_neq.
      split; intros [Hin Hne]; (split; [exact Hin|congruence]).
    + split; intros [Hin _]; (split; [exact Hin|]); [discriminate|reflexivity].
Qed.

(** X21.  The three deletions of the handler are not undone when a later
    one fails: when the issue was deleted and the comments cannot be,
    the request is answered 500 and the issue is gone, while its comments
    and the notifications about it are all still stored. *)
Theorem delete_is_not_undone_when_the_cleanup_fails f req st user issue :
  Auth.authenticate (server st) req = inr user ->
  isObjectId (Auth.params_id req) = true ->
  issues (server st) !! Auth.params_id req = Some issue ->
  role user = "admin"
  \/ (reportedBy issue = user_id user /\ status issue = "submitted") ->
  issueDeleteFails f = false ->
  commentDeleteFails f = true ->
  exists st',
    deleteIssue f req st = (deleteFailed, st')
    /\ code deleteFailed = 500
    /\ issues (server st') !! Auth.params_id req = None
    /\ comments st' = comments st
    /\ notifications (server st') = notifications (server st).
Proof.
  intros Hauth Hid Hissue Hallowed Hi Hc. unfold deleteIssue, findById.
  rewrite Hauth, Hid, Hissue, Hi, Hc.
  assert (negb (String.eqb (role user) "admin")
          && (negb (String.eqb (reportedBy issue) (user_id user))
              || negb (String.eqb (status issue) "submitted")) = false)
    as ->.
  { destruct Hallowed as [-> | [-> ->]]; [reflexivity|].
    rewrite !String.eqb_refl. apply andb_false_r. }
  eexists. split; [reflexivity|]. split; [reflexivity|].
  cbn [server comments set_issues issues notifications].
  split; [apply lookup_delete_eq|]. split; reflexivity.
Qed.

(** X22.  In the state that a status change leaves once it was saved,
    whatever the answer to that request was, nobody but an admin can
    delete the issue, its reporter included: no status change is ever
    saved with the status ["submitted"], which is the only one the handler
    of [DELETE] lets an owner delete. *)
Theorem owner_cannot_delete_after_a_status_change
    now f req b s r s' f' req' cs user' :
  StoreOk s ->
  patchStatus now f req b s = (r, s') ->
  issues s' <> issues s ->
  Auth.params_id req' = Auth.params_id req ->
  Auth.authenticate s' req' = inr user' ->
  role user' <> "admin" ->
  deleteIssue f' req' (mkStore s' cs)
  = (failure 403
       "Access denied. Only submitted issues can be deleted by their owners.",
     mkStore s' cs).
Proof.
  intros (Hkey & _ & _) Hrun Hwritten Hsame Hauth Hadmin.
  pose proof (patchStatus_written_id _ _ _ _ _ _ _ Hrun Hwritten) as Hid.
  apply patchStatus_inv in Hrun
    as [[-> _] | (user & issue & newStatus & notes & _ & _ & _ & Hissue
                  & _ & Hvalid & Hi & _)]; [now destruct Hwritten|].
  rewrite schemaValid_written in Hvalid.
  apply andb_prop in Hvalid as [Hvalid _].
  apply andb_prop in Hvalid as [_ Hactions].
  apply andb_prop in Hactions as [_ Haction].
  assert (newStatus <> "submitted") as Hne.
  { intros ->. discriminate Haction. }
  unfold deleteIssue, findById. cbn [server]. rewrite Hauth, Hsame, Hid, Hi.
  rewrite (Hkey _ _ Hissue), lookup_insert_eq, status_written.
  apply String.eqb_neq in Hadmin, Hne. rewrite Hadmin, Hne.
  cbn [negb andb]. now rewrite orb_true_r.
Qed.

End DeleteFacts.

Lemma delete_permissions_witness :
  code (fst (@DeleteRoute.deleteIssue Demo.platform
               DeleteRoute.noDeleteFaults (Demo.bearer "a1" "i1")
               DeleteDemo.store)) = 200
  /\ forall f,
       @DeleteRoute.deleteIssue Demo.platform f (Demo.bearer "c1" "i1")
         DeleteDemo.store
       = (failure 403
            "Access denied. Only submitted issues can be deleted by their owners.",
          DeleteDemo.store).
Proof.
  split.
  - apply (proj1 (@delete_is_for_admins_and_owners_of_submitted_issues
                    Demo.platform (Demo.bearer "a1" "i1") DeleteDemo.store
                    Demo.admin Demo.pothole eq_refl eq_refl eq_refl)).
    left. reflexivity.
  - apply (proj2 (@delete_is_for_admins_and_owners_of_submitted_issues
                    Demo.platform (Demo.bearer "c1" "i1") DeleteDemo.store
                    Demo.citizen Demo.pothole eq_refl eq_refl eq_refl)).
    intros [Hadmin | [_ Hstatus]]; discriminate.
Defined.

Lemma delete_cascade_witness :
  DeleteRoute.comments
    (snd (@DeleteRoute.deleteIssue Demo.platform DeleteRoute.noDeleteFaults
            (Demo.bearer "a1" "i1") DeleteDemo.store))
  = [DeleteDemo.elsewhere]
  /\ (In (DeleteDemo.about "i2")
         (notifications
            (DeleteRoute.server
               (snd (@DeleteRoute.deleteIssue Demo.platform
                       DeleteRoute.noDeleteFaults (Demo.bearer "a1" "i1")
                       DeleteDemo.store))))
      <-> In (DeleteDemo.about "i2")
            (notifications (DeleteRoute.server DeleteDemo.store))
          /\ relatedIssue (DeleteDemo.about "i2") <> Some "i1").
Proof.
  split; [reflexivity|].
  apply (@delete_takes_comments_and_notifications_along Demo.platform
           DeleteRoute.noDeleteFaults (Demo.bearer "a1" "i1")
           DeleteDemo.store
           (fst (@DeleteRoute.deleteIssue Demo.platform
                   DeleteRoute.noDeleteFaults (Demo.bearer "a1" "i1")
                   DeleteDemo.store))
           (snd (@DeleteRoute.deleteIssue Demo.platform
                   DeleteRoute.noDeleteFaults (Demo.bearer "a1" "i1")
                   DeleteDemo.store))); reflexivity.
Defined.

Lemma delete_is_not_undone_witness :
  exists st',
    @DeleteRoute.deleteIssue Demo.platform
      (DeleteRoute.mkDeleteFaults false true false) (Demo.bearer "a1" "i1")
      DeleteDemo.store = (DeleteRoute.deleteFailed, st')
    /\ issues (DeleteRoute.server st') !! "i1" = None
    /\ DeleteRoute.comments st' = [DeleteDemo.remark; DeleteDemo.elsewhere].
Proof.
  destruct (@delete_is_not_undone_when_the_cleanup_fails Demo.platform
              (DeleteRoute.mkDeleteFaults false true false)
              (Demo.bearer "a1" "i1") DeleteDemo.store Demo.admin
              Demo.pothole)
    as (st' & Hrun & _ & Hgone & Hcs & _); try reflexivity.
  - left. reflexivity.
  - exists st'. split; [exact Hrun|]. split; [exact Hgone|]. exact Hcs.
Defined.

Lemma owner_cannot_delete_witness :
  @DeleteRoute.deleteIssue Demo.platform DeleteRoute.noDeleteFaults
    (Demo.bearer "c1" "i1")
    (DeleteRoute.mkStore
       (snd (@Routes.patchStatus Demo.platform 5000 noFaults
               (Demo.bearer "h1" "i1") (Demo.to "in_progress") Demo.server))
       [])
  = (failure 403
       "Access denied. Only submitted issues can be deleted by their owners.",
     DeleteRoute.mkStore
       (snd (@Routes.patchStatus Demo.platform 5000 noFaults
               (Demo.bearer "h1" "i1") (Demo.to "in_progress") Demo.server))
       []).
Proof.
  apply (@owner_cannot_delete_after_a_status_change Demo.platform 5000
           noFaults (Demo.bearer "h1" "i1") (Demo.to "in_progress")
           Demo.server
           (fst (@Routes.patchStatus Demo.platform 5000 noFaults
                   (Demo.bearer "h1" "i1") (Demo.to "in_progress")
                   Demo.server))
           (snd (@Routes.patchStatus Demo.platform 5000 noFaults
                   (Demo.bearer "h1" "i1") (Demo.to "in_progress")
                   Demo.server))
           DeleteRoute.noDeleteFaults (Demo.bearer "c1" "i1") []
           Demo.citizen demo_store_ok); try reflexivity.
  - intros Hsame. apply (f_equal (fun m => status <$> m !! "i1")) in Hsame.
    vm_compute in Hsame. discriminate Hsame.
  - discriminate.
Defined.

(** ** models/Comment.js *)

Section CommentFacts.
Context `{Platform}.
Import CommentModel.

Lemma likedBy_elem u c :
  likedBy u c = true <-> u ∈ map liked_by (likes c).
Proof.
  unfold likedBy. rewrite existsb_exists, list_elem_of_fmap. split.
  - intros (l & Hin & Heq). apply String.eqb_eq in Heq.
    exists l. split; [now symmetry|]. now apply list_elem_of_In.
  - intros (l & -> & Hin). exists l. split; [now apply list_elem_of_In|].
    apply String.eqb_refl.
Qed.

(** One call of [toggleLike] on a comment that holds at most one like of
    each user. *)
Lemma toggleLike_step now u c :
  NoDup (map liked_by (likes c)) ->
  fst (toggleLike now u c) = negb (likedBy u c)
  /\ NoDup (map liked_by (likes (snd (toggleLike now u c))))
  /\ (forall v, likedBy v (snd (toggleLike now u c))
                = xorb (likedBy v c) (String.eqb u v))
  /\ likeCount (snd (toggleLike now u c))
     = likeCount c + (if likedBy u c then -1 else 1).
Proof.
  intros Hnodup. unfold toggleLike, findIndex, likedBy, likeCount.
  destruct (findIndexFrom_spec
              (fun l => String.eqb (liked_by l) u) (likes c) 0 ltac:(lia))
    as [[Hex ->] | (l1 & x & l2 & Hl & Hl1 & Hx & ->)].
  - change (Z.gtb (-1) (-1)) with false.
    cbn [fst snd set_likes likes]. rewrite Hex.
    split; [reflexivity|]. split; [|split].
    + rewrite map_app. apply NoDup_app. split; [exact Hnodup|].
      split; [|apply NoDup_singleton].
      intros v Hv Hv'. cbn in Hv'. apply list_elem_of_singleton in Hv'.
      subst v. apply (likedBy_elem u c) in Hv. unfold likedBy in Hv.
      congruence.
    + intros v. rewrite existsb_app. cbn [existsb liked_by].
      destruct (String.eqb u v) eqn:Huv.
      * apply String.eqb_eq in Huv. subst v. now rewrite Hex.
      * now rewrite !orb_false_r, xorb_false_r.
    + rewrite length_app. cbn [List.length]. lia.
  - replace (Z.gtb (0 + Z.of_nat (List.length l1)) (-1)) with true
      by (symmetry; apply Z.gtb_lt; lia).
    cbn [fst snd set_likes likes]. rewrite Z.add_0_l, Hl, splice1_at.
    rewrite Hl in Hnodup. rewrite map_app in Hnodup. cbn [map] in Hnodup.
    apply NoDup_app in Hnodup as (Hn1 & Hdisj & Hn2).
    apply NoDup_cons in Hn2 as [Hx2 Hn2].
    apply String.eqb_eq in Hx.
    assert (existsb (fun l => String.eqb (liked_by l) u) l2 = false) as Hl2.
    { apply not_true_is_false. intros Hex.
      apply existsb_exists in Hex as (y & Hy & Hyu).
      apply String.eqb_eq in Hyu. apply Hx2. rewrite Hx, <- Hyu.
      apply list_elem_of_fmap. exists y. split; [reflexivity|].
      now apply list_elem_of_In. }
    rewrite !existsb_split, Hl1, Hl2, Hx, String.eqb_refl. cbn [negb orb].
    split; [reflexivity|]. split; [|split].
    + rewrite map_app. apply NoDup_app. split; [exact Hn1|].
      split; [|exact Hn2].
      intros v Hv Hv'. apply (Hdisj v Hv). now right.
    + intros v. rewrite existsb_app, existsb_split, Hx.
      destruct (String.eqb u v) eqn:Huv.
      * apply String.eqb_eq in Huv. subst v. rewrite Hl1, Hl2. reflexivity.
      * now rewrite xorb_false_r, orb_false_r.
    + rewrite !length_app. cbn [List.length]. lia.
Qed.

(** X23.  On a comment that holds at most one like of each user, which
    is what [toggleLike] keeps, a user is among the likes after a sequence
    of [toggleLike] calls exactly when they were before and called an even
    number of times, or were not and called an odd number of times; the
    value a call returns tells whether the caller is among the likes after
    it. *)
Theorem likes_follow_the_parity_of_toggles calls c v :
  NoDup (map liked_by (likes c)) ->
  NoDup (map liked_by (likes (toggleAll calls c)))
  /\ likedBy v (toggleAll calls c)
     = xorb (likedBy v c)
            (Nat.odd (List.length
                        (List.filter (fun call => String.eqb (fst call) v)
                                     calls)))
  /\ (forall now u,
        fst (toggleLike now u (toggleAll calls c))
        = likedBy u (snd (toggleLike now u (toggleAll calls c)))).
Proof.
  revert c. induction calls as [|[u now] calls IH]; intros c Hnodup.
  - cbn [toggleAll fold_left List.filter List.length Nat.odd].
    split; [exact Hnodup|]. split; [now rewrite xorb_false_r|].
    intros now u.
    destruct (toggleLike_step now u c Hnodup) as (-> & _ & -> & _).
    rewrite String.eqb_refl. now destruct (likedBy u c).
  - cbn [toggleAll fold_left fst snd].
    fold (toggleAll calls (snd (toggleLike now u c))).
    destruct (toggleLike_step now u c Hnodup) as (_ & Hnodup' & Hliked & _).
    destruct (IH _ Hnodup') as (Hn & Hv & Hflag).
    split; [exact Hn|]. split; [|exact Hflag].
    rewrite Hv, Hliked. cbn [List.filter fst].
    destruct (String.eqb u v); cbn [List.length].
    + rewrite Nat.odd_succ, <- Nat.negb_odd.
      now destruct (likedBy v c), (Nat.odd _).
    + now rewrite xorb_false_r.
Qed.

(** X24.  [editContent] loses no version of a comment: after any sequence
    of edits, the contents kept in the edit history followed by the
    current content are the versions the comment had before, followed by
    the contents the edits gave it, trimmed as the schema stores them, in
    their order; likes and replies are untouched, and the comment is
    flagged as edited as soon as there was one edit. *)
Theorem edit_history_keeps_every_version edits c :
  versions (editAll edits c)
  = versions c ++ map (fun e => trim (fst (fst e))) edits
  /\ List.length (editHistory (editAll edits c))
     = (List.length (editHistory c) + List.length edits)%nat
  /\ isEdited (editAll edits c)
     = match edits with [] => isEdited c | _ => true end
  /\ likes (editAll edits c) = likes c
  /\ replies (editAll edits c) = replies c.
Proof.
  revert c. induction edits as [|[[newContent reason] now] edits IH];
    intros c.
  - cbn. rewrite app_nil_r, Nat.add_0_r. repeat split.
  - cbn [editAll fold_left fst snd].
    fold (editAll edits (editContent now newContent reason c)).
    destruct (IH (editContent now newContent reason c))
      as (Hv & Hlen & Hed & Hl & Hr).
    rewrite Hv, Hlen, Hl, Hr. unfold versions.
    cbn [editContent editHistory content likes replies map fst].
    rewrite map_app, !length_app, <- !app_assoc. cbn [map app List.length].
    split; [reflexivity|]. split; [lia|]. split; [|split; reflexivity].
    rewrite Hed. now destruct edits.
Qed.

End CommentFacts.

Lemma likes_follow_the_parity_witness :
  CommentModel.likedBy "c1"
    (CommentModel.toggleAll [("c1", 10); ("h1", 20); ("c1", 30); ("c1", 40)]
       DeleteDemo.remark) = true
  /\ CommentModel.likedBy "h1"
       (CommentModel.toggleAll [("c1", 10); ("h1", 20); ("h1", 30)]
          DeleteDemo.remark) = false.
Proof.
  split.
  - rewrite (proj1 (proj2 (likes_follow_the_parity_of_toggles
                             [("c1", 10); ("h1", 20); ("c1", 30); ("c1", 40)]
                             DeleteDemo.remark "c1" NoDup_nil_2))).
    reflexivity.
  - rewrite (proj1 (proj2 (likes_follow_the_parity_of_toggles
                             [("c1", 10); ("h1", 20); ("h1", 30)]
                             DeleteDemo.remark "h1" NoDup_nil_2))).
    reflexivity.
Defined.

(** ** models/Notification.js: unread counts *)

Section UnreadFacts.
Import NotificationStore.

(** X25.  [markAllAsRead] of a user brings the unread count of that user
    to 0 and leaves the count of every other user as it was; it changes
    no notification that was already read (its [readAt] stays), and none
    of another user; a notification that is created counts as unread for
    its recipient only. *)
Theorem markAllAsRead_clears_the_count_of_one_user now u c :
  (forall v,
      getUnreadCount v (markAllAsRead now u c)
      = if String.eqb v u then 0 else getUnreadCount v c)
  /\ map doc (markAllAsRead now u c) = map doc c
  /\ (forall n,
        In n c -> isRead n = true \/ recipient (doc n) <> u ->
        In n (markAllAsRead now u c))
  /\ (forall v d,
        getUnreadCount v (insert now d c)
        = getUnreadCount v c
          + (if String.eqb (recipient d) v then 1 else 0)).
Proof.
  split; [|split; [|split]].
  - intros v. unfold getUnreadCount, markAllAsRead.
    destruct (String.eqb v u) eqn:Hvu.
    + apply String.eqb_eq in Hvu. subst v.
      induction c as [|n c IH]; [reflexivity|].
      cbn [map List.filter].
      destruct (String.eqb (recipient (doc n)) u) eqn:Hn;
        destruct (isRead n) eqn:Hr; cbn [andb negb doc isRead];
        rewrite ?Hn, ?Hr; cbn [andb negb]; exact IH.
    + f_equal. f_equal.
      induction c as [|n c IH]; [reflexivity|].
      cbn [map List.filter].
      destruct (String.eqb (recipient (doc n)) u) eqn:Hn;
        destruct (isRead n) eqn:Hr; cbn [andb negb doc isRead];
        rewrite ?Hr, ?IH; try reflexivity.
      apply String.eqb_eq in Hn. rewrite Hn, String.eqb_sym, Hvu.
      reflexivity.
  - unfold markAllAsRead. rewrite map_map. apply map_ext.
    intros n. now destruct (_ && _).
  - intros n Hin Hn. unfold markAllAsRead. apply in_map_iff.
    exists n. split; [|exact Hin].
    destruct Hn as [-> | Hne]; [now rewrite andb_false_r|].
    apply String.eqb_neq in Hne. now rewrite Hne.
  - intros v d. unfold getUnreadCount, insert.
    rewrite List.filter_app, length_app. cbn [List.filter doc isRead negb].
    rewrite andb_true_r.
    destruct (String.eqb (recipient d) v); cbn [List.length]; lia.
Qed.

(** X26.  [cleanup] deletes exactly the notifications that are read and
    were created more than thirty days before: the unread count of every
    user is as before, and whatever is unread or younger stays.  Run
    after [markAllAsRead] of a user, it deletes the old notifications of
    that user as well, whether they had been read or not. *)
Theorem cleanup_deletes_only_old_read_notifications now c :
  (forall v, getUnreadCount v (cleanup now c) = getUnreadCount v c)
  /\ (forall n,
        In n (cleanup now c)
        <-> In n c
            /\ (isRead n = false
                \/ now - 30 * 24 * 60 * 60 * 1000 <= createdAt n))
  /\ (forall u then_,
        cleanup now (markAllAsRead then_ u c)
        = markAllAsRead then_ u
            (List.filter
               (fun n => negb (Z.ltb (createdAt n) (now - thirtyDays)
                               && (isRead n
                                   || String.eqb (recipient (doc n)) u)))
               c)).
Proof.
  split; [|split].
  - intros v. unfold getUnreadCount, cleanup. f_equal. f_equal.
    induction c as [|n c IH]; [reflexivity|].
    cbn [List.filter].
    destruct (isRead n) eqn:Hr.
    + rewrite andb_false_r.
      destruct (negb _); cbn [List.filter]; rewrite ?Hr, ?andb_false_r;
        exact IH.
    + rewrite andb_false_r. cbn [negb List.filter]. rewrite Hr, IH.
      reflexivity.
  - intros n. unfold cleanup. rewrite filter_In.
    change thirtyDays with (30 * 24 * 60 * 60 * 1000).
    rewrite negb_true_iff, andb_false_iff, Z.ltb_ge. tauto.
  - intros u then_. unfold cleanup, markAllAsRead.
    induction c as [|n c IH]; [reflexivity|].
    cbn [map List.filter]. rewrite IH.
    destruct (String.eqb (recipient (doc n)) u) eqn:Hn;
      destruct (isRead n) eqn:Hr; cbn [andb negb orb createdAt isRead];
      destruct (Z.ltb (createdAt n) (now - thirtyDays));
      cbn [andb negb map]; rewrite ?Hn, ?Hr; reflexivity.
Qed.

End UnreadFacts.

(** ** The virtual [timeAgo] *)

Section TimeAgoFacts.
Import TimeAgo.

(** X27.  The [timeAgo] of an issue and that of a notification read the
    same from one hour on, although the first takes the hours left over
    the days and the second the hours of the whole difference; below one
    hour the issue reads ['Less than an hour ago'], also for a creation
    time in the future, and the notification reads ['Just now'] below one
    minute.  From one day on, the number shown is the number of whole days
    elapsed.  The two dates are less than [2 ^ 53] milliseconds apart, so
    that the divisions of the source, made in floating point, are exact
    up to the floor taken of them. *)
Theorem timeAgo_of_issue_and_notification now createdAt :
  - 2 ^ 53 < now - createdAt < 2 ^ 53 ->
  (now - createdAt < 3600000 ->
   issueTimeAgo now createdAt = "Less than an hour ago")
  /\ (3600000 <= now - createdAt ->
      issueTimeAgo now createdAt = notificationTimeAgo now createdAt)
  /\ (now - createdAt < 60000 ->
      notificationTimeAgo now createdAt = "Just now")
  /\ (86400000 <= now - createdAt ->
      exists days,
        issueTimeAgo now createdAt
        = show days +:+ " day" +:+ plural days +:+ " ago"
        /\ days * 86400000 <= now - createdAt < (days + 1) * 86400000).
Proof.
  unfold issueTimeAgo, notificationTimeAgo.
  change (1000 * 60 * 60 * 24) with 86400000.
  change (1000 * 60 * 60) with 3600000.
  change (1000 * 60) with 60000.
  set (diff := now - createdAt). intros _.
  split; [|split; [|split]].
  - intros Hlt.
    assert (diff / 86400000 <= 0) as Hd
      by (apply Z.lt_succ_r, Z.div_lt_upper_bound; lia).
    assert (Z.rem diff 86400000 / 3600000 <= 0) as Hh.
    { apply Z.lt_succ_r, Z.div_lt_upper_bound; [lia|].
      destruct (Z_lt_le_dec diff 0) as [Hneg|Hpos].
      - pose proof (Z.rem_nonpos diff 86400000 ltac:(lia) ltac:(lia)). lia.
      - rewrite Z.rem_small by lia. lia. }
    replace (Z.gtb (diff / 86400000) 0) with false
      by (symmetry; rewrite Z.gtb_ltb; apply Z.ltb_ge; lia).
    replace (Z.gtb (Z.rem diff 86400000 / 3600000) 0) with false
      by (symmetry; rewrite Z.gtb_ltb; apply Z.ltb_ge; lia).
    reflexivity.
  - intros Hge.
    destruct (Z.gtb (diff / 86400000) 0) eqn:Hd; [reflexivity|].
    rewrite Z.gtb_ltb in Hd. apply Z.ltb_ge in Hd.
    assert (diff < 86400000) as Hday.
    { destruct (Z_lt_le_dec diff 86400000) as [Hlt|Hle]; [exact Hlt|].
      pose proof (Z.div_le_lower_bound diff 86400000 1 ltac:(lia)
                    ltac:(lia)). lia. }
    rewrite Z.rem_small by lia.
    assert (0 < diff / 3600000) as Hh
      by (apply Z.div_str_pos; lia).
    replace (Z.gtb (diff / 3600000) 0) with true
      by (symmetry; rewrite Z.gtb_ltb; apply Z.ltb_lt; lia).
    reflexivity.
  - intros Hlt.
    assert (diff / 86400000 <= 0) as Hd
      by (apply Z.lt_succ_r, Z.div_lt_upper_bound; lia).
    assert (diff / 3600000 <= 0) as Hh
      by (apply Z.lt_succ_r, Z.div_lt_upper_bound; lia).
    assert (diff / 60000 <= 0) as Hm
      by (apply Z.lt_succ_r, Z.div_lt_upper_bound; lia).
    replace (Z.gtb (diff / 86400000) 0) with false
      by (symmetry; rewrite Z.gtb_ltb; apply Z.ltb_ge; lia).
    replace (Z.gtb (diff / 3600000) 0) with false
      by (symmetry; rewrite Z.gtb_ltb; apply Z.ltb_ge; lia).
    replace (Z.gtb (diff / 60000) 0) with false
      by (symmetry; rewrite Z.gtb_ltb; apply Z.ltb_ge; lia).
    reflexivity.
  - intros Hge. exists (diff / 86400000).
    assert (0 < diff / 86400000) as Hd by (apply Z.div_str_pos; lia).
    replace (Z.gtb (diff / 86400000) 0) with true
      by (symmetry; rewrite Z.gtb_ltb; apply Z.ltb_lt; lia).
    split; [reflexivity|].
    pose proof (Z.div_mod diff 86400000 ltac:(lia)).
    pose proof (Z.mod_pos_bound diff 86400000 ltac:(lia)). lia.
Qed.

End TimeAgoFacts.

Lemma timeAgo_witness :
  TimeAgo.issueTimeAgo 200000000 20000000 = "2 days ago"
  /\ TimeAgo.notificationTimeAgo 200000000 20000000 = "2 days ago"
  /\ TimeAgo.issueTimeAgo 30000000 20000000
     = TimeAgo.notificationTimeAgo 30000000 20000000.
Proof.
  split; [reflexivity|]. split; [reflexivity|].
  apply (proj1 (proj2 (timeAgo_of_issue_and_notification 30000000 20000000
                         ltac:(lia)))).
  lia.
Defined.

(** ** utils/socket.js: who the relayed events reach *)

Section RelayFacts.
Context `{Platform}.
Import Socket SocketEvents SocketRelay.

Lemma freshIds_plainIds es : freshIds es -> plainIds es.
Proof.
  unfold freshIds, plainIds. intros Hfresh.
  eapply Forall_impl; [exact Hfresh|].
  intros [sid h|sid i|sid i]; [now intros [Hu _]|auto|auto].
Qed.

(** Every socket has the user the middleware gave it, and is in the room
    of a department exactly when it is one of a user of that department,
    for a department other than ["general"]. *)
Lemma dept_rooms_handle e s :
  freshIds [e] ->
  (forall srv, io s = Some srv ->
     Forall (fun k => is_Some (socket_user k)
                      /\ forall d, "dept_" +:+ d ∈ rooms k
                                   <-> inDepartment d k = true)
            (sockets srv)) ->
  forall srv', io (handle e s) = Some srv' ->
     Forall (fun k => is_Some (socket_user k)
                      /\ forall d, "dept_" +:+ d ∈ rooms k
                                   <-> inDepartment d k = true)
            (sockets srv').
Proof.
  intros Hfresh Hinv srv'. apply Forall_cons in Hfresh as [Hfresh _].
  destruct e as [sid h|sid i|sid i]; cbn [handle].
  - unfold connect. destruct (io s) as [srv|] eqn:Hio;
      [|intros Hio'; cbn in Hio'; congruence].
    destruct (authMiddleware s h) as [msg|[uid u]]; cbn [snd].
    { intros Hio'. rewrite Hio in Hio'. injection Hio' as <-. now apply Hinv. }
    cbn [io set_io]. intros [= <-]. cbn [sockets].
    apply Forall_app. split; [now apply Hinv|].
    constructor; [|constructor]. destruct Hfresh as [_ Hfresh].
    unfold onConnection, join, inDepartment.
    destruct (truthy (department u)
              && negb (String.eqb (department u) "general")) eqn:Hcond;
      cbn [socket_user rooms socket_id socket_userId];
      (split; [eexists; reflexivity|]); intros d;
      rewrite ?elem_of_union, !elem_of_singleton.
    + apply andb_prop in Hcond as [Ht Hg]. split.
      * intros [Hd | [Hr | [Hu | Hs]]].
        -- cbn in Hd. injection Hd as Hd. change (d = department u) in Hd.
           subst d. now rewrite String.eqb_refl, Ht, Hg.
        -- cbn in Hr. discriminate Hr.
        -- cbn in Hu. discriminate Hu.
        -- subst sid. destruct d; vm_compute in Hfresh; discriminate Hfresh.
      * intros Hd. apply andb_prop in Hd as [Hd _].
        apply andb_prop in Hd as [Hd _]. apply String.eqb_eq in Hd.
        subst d. now left.
    + split.
      * intros [Hr | [Hu | Hs]].
        -- cbn in Hr. discriminate Hr.
        -- cbn in Hu. discriminate Hu.
        -- subst sid. destruct d; vm_compute in Hfresh; discriminate Hfresh.
      * intros Hd. apply andb_prop in Hd as [Hd Hg].
        apply andb_prop in Hd as [Hd Ht]. apply String.eqb_eq in Hd.
        subst d. rewrite Ht, Hg in Hcond. discriminate Hcond.
  - unfold join_issue, updateSocket. destruct (io s) as [srv|] eqn:Hio;
      [|intros Hio'; congruence].
    cbn [io set_io]. intros [= <-]. cbn [sockets].
    apply Forall_map. eapply Forall_impl; [exact (Hinv _ eq_refl)|].
    intros k Hk. cbn beta in Hk. destruct Hk as [Hu Hk].
    destruct (String.eqb (socket_id k) sid); [|now split].
    split; [exact Hu|]. intros d. specialize (Hk d).
    unfold join, inDepartment in *. cbn [rooms socket_user] in *.
    rewrite elem_of_union, elem_of_singleton.
    split; [|intros Hd; right; now apply Hk].
    intros [Hi | Hr]; [cbn in Hi; discriminate Hi|now apply Hk].
  - unfold leave_issue, updateSocket. destruct (io s) as [srv|] eqn:Hio;
      [|intros Hio'; congruence].
    cbn [io set_io]. intros [= <-]. cbn [sockets].
    apply Forall_map. eapply Forall_impl; [exact (Hinv _ eq_refl)|].
    intros k Hk. cbn beta in Hk. destruct Hk as [Hu Hk].
    destruct (String.eqb (socket_id k) sid); [|now split].
    split; [exact Hu|]. intros d. specialize (Hk d).
    unfold leave, inDepartment in *. cbn [rooms socket_user] in *.
    rewrite elem_of_difference, elem_of_singleton.
    split; [intros [Hr _]; now apply Hk|].
    intros Hd. split; [now apply Hk|]. intros Hi. cbn in Hi. discriminate Hi.
Qed.

Lemma dept_rooms_handleAll es :
  forall s,
    freshIds es ->
    (forall srv, io s = Some srv ->
       Forall (fun k => is_Some (socket_user k)
                        /\ forall d, "dept_" +:+ d ∈ rooms k
                                     <-> inDepartment d k = true)
              (sockets srv)) ->
    forall srv', io (handleAll es s) = Some srv' ->
       Forall (fun k => is_Some (socket_user k)
                        /\ forall d, "dept_" +:+ d ∈ rooms k
                                     <-> inDepartment d k = true)
              (sockets srv').
Proof.
  induction es as [|e es IH]; intros s Hfresh Hinv; [exact Hinv|].
  apply Forall_cons in Hfresh as [He Hes].
  cbn [handleAll fold_left]. fold (handleAll es (handle e s)).
  apply IH; [exact Hes|].
  apply dept_rooms_handle; [|exact Hinv]. constructor; [exact He|constructor].
Qed.

Lemma reached_others room sender (q : Socket -> bool) l e m :
  Forall (fun k => room ∈ rooms k <-> q k = true) l ->
  reached (mkRelay (ToOthersIn room sender) e m) (mkIoServer l [])
  = List.filter (fun k => q k && negb (String.eqb (socket_id k) sender)) l.
Proof.
  unfold reached. cbn [target sockets].
  induction 1 as [|k l Hk _ IH]; [reflexivity|].
  cbn [List.filter]. rewrite IH.
  assert (bool_decide (room ∈ rooms k) = q k) as ->; [|reflexivity].
  destruct (q k) eqn:Hq.
  - apply bool_decide_eq_true. now apply Hk.
  - apply bool_decide_eq_false. intros Hr. apply Hk in Hr. congruence.
Qed.

Lemma reached_sockets r srv :
  reached r srv = reached r (mkIoServer (sockets srv) []).
Proof. reflexivity. Qed.

(** X28.  After any history of connection attempts, joins and leaves on a
    server that was just initialized, a location update is relayed only
    when the socket is one of a field officer, and then it reaches exactly
    the other sockets of the users of the department of the officer: no
    socket outside the department, not the socket itself, and nobody at
    all when the department is ["general"], for which the connection
    handler makes no room. *)
Theorem location_updates_stay_in_the_department es s0 srv now location k :
  freshIds es ->
  io (handleAll es (initializeSocket s0)) = Some srv ->
  In k (sockets srv) ->
  exists u,
    socket_user k = Some u
    /\ (role u <> "field_officer" ->
        update_location now location k = Returned None)
    /\ (role u = "field_officer" ->
        exists r,
          update_location now location k = Returned (Some r)
          /\ relay_event r = "officer_location_update"
          /\ reached r srv
             = List.filter
                 (fun k' => inDepartment (department u) k'
                            && negb (String.eqb (socket_id k') (socket_id k)))
                 (sockets srv)
          /\ (department u = "general" -> reached r srv = [])).
Proof.
  intros Hfresh Hio Hin.
  pose proof (dept_rooms_handleAll es (initializeSocket s0) Hfresh
                ltac:(intros ? [= <-]; constructor) srv Hio) as Hinv.
  pose proof (proj1 (Forall_forall _ _) Hinv k
                (proj2 (list_elem_of_In _ _) Hin)) as [[u Hu] _].
  exists u. split; [exact Hu|]. unfold update_location. rewrite Hu. split.
  - intros Hrole. apply String.eqb_neq in Hrole. now rewrite Hrole.
  - intros ->. cbn [String.eqb Ascii.eqb Bool.eqb]. eexists.
    split; [reflexivity|]. split; [reflexivity|].
    assert (reached
              (mkRelay (ToOthersIn ("dept_" +:+ department u) (socket_id k))
                 "officer_location_update"
                 (OfficerLocationUpdate (socket_userId k) (nameOf u) location
                    now)) srv
            = List.filter
                (fun k' => inDepartment (department u) k'
                           && negb (String.eqb (socket_id k') (socket_id k)))
                (sockets srv)) as Hreached.
    { rewrite reached_sockets. apply reached_others.
      eapply Forall_impl; [exact Hinv|]. intros k' [_ Hk']. apply Hk'. }
    split; [exact Hreached|].
    intros Hgeneral. rewrite Hreached, Hgeneral.
    clear. induction (sockets srv) as [|k' l IH]; [reflexivity|].
    cbn [List.filter]. rewrite IH. unfold inDepartment.
    destruct (socket_user k'); [|reflexivity].
    now rewrite andb_false_r.
Qed.

(** X29.  After any such history, a direct message reaches exactly the
    other sockets that went through the middleware as the recipient that
    the sender names, whoever the sender is and whether or not such a user
    exists; an emergency alert is relayed only for an admin, and then to
    every socket, the one of the admin included. *)
Theorem direct_messages_reach_the_named_recipient
    es s0 srv now recipientId text alertTitle severity k :
  freshIds es ->
  io (handleAll es (initializeSocket s0)) = Some srv ->
  In k (sockets srv) ->
  exists u,
    socket_user k = Some u
    /\ (exists r,
          direct_message now recipientId text k = Returned (Some r)
          /\ relay_event r = "new_message"
          /\ reached r srv
             = List.filter
                 (fun k' => authenticatedAs recipientId k'
                            && negb (String.eqb (socket_id k') (socket_id k)))
                 (sockets srv))
    /\ (role u <> "admin" ->
        emergency_alert now alertTitle text severity k = Returned None)
    /\ (role u = "admin" ->
        exists r,
          emergency_alert now alertTitle text severity k = Returned (Some r)
          /\ reached r srv = sockets srv).
Proof.
  intros Hfresh Hio Hin.
  pose proof (dept_rooms_handleAll es (initializeSocket s0) Hfresh
                ltac:(intros ? [= <-]; constructor) srv Hio) as Hinv.
  pose proof (user_rooms_handleAll es (initializeSocket s0)
                (freshIds_plainIds es Hfresh)
                ltac:(intros ? [= <-]; constructor) srv Hio) as Hrooms.
  pose proof (proj1 (Forall_forall _ _) Hinv k
                (proj2 (list_elem_of_In _ _) Hin)) as [[u Hu] _].
  exists u. split; [exact Hu|].
  unfold direct_message, emergency_alert. rewrite Hu. split; [|split].
  - eexists. split; [reflexivity|]. split; [reflexivity|].
    rewrite reached_sockets. apply reached_others.
    eapply Forall_impl; [exact Hrooms|]. intros k' Hk'. cbn beta in Hk'.
    rewrite (Hk' recipientId). unfold authenticatedAs.
    destruct (socket_userId k') as [x|]; [|split; discriminate].
    rewrite String.eqb_eq. split; [now intros [= ->]|now intros ->].
  - intros Hrole. apply String.eqb_neq in Hrole. now rewrite Hrole.
  - intros ->. cbn [String.eqb Ascii.eqb Bool.eqb]. eexists.
    split; [reflexivity|]. unfold reached. cbn [target].
    clear. induction (sockets srv) as [|k' l IH]; [reflexivity|].
    cbn [List.filter]. now rewrite IH.
Qed.

End RelayFacts.

Lemma location_updates_witness :
  exists r,
    SocketRelay.update_location 7000 "22.56,72.95" (RelayDemo.socketOf "s1")
    = Returned (Some r)
    /\ map socket_id (SocketRelay.reached r RelayDemo.ioServer) = ["s3"].
Proof.
  destruct (@location_updates_stay_in_the_department Demo.platform
              RelayDemo.history Demo.server RelayDemo.ioServer 7000
              "22.56,72.95" (RelayDemo.socketOf "s1"))
    as (u & Hu & _ & Hofficer).
  - repeat constructor.
  - reflexivity.
  - vm_compute. left. reflexivity.
  - vm_compute in Hu. injection Hu as <-.
    destruct (Hofficer eq_refl) as (r & Hr & _ & Hreached & _).
    exists r. split; [exact Hr|]. rewrite Hreached. reflexivity.
Defined.

Lemma direct_messages_witness :
  (exists r,
      SocketRelay.direct_message 7000 "o1" "On my way" 
        (RelayDemo.socketOf "s1") = Returned (Some r)
      /\ map socket_id (SocketRelay.reached r RelayDemo.ioServer) = ["s3"])
  /\ (exists r,
        SocketRelay.emergency_alert 7000 "Flood" "Avoid the underpass" None
          (RelayDemo.socketOf "s4") = Returned (Some r)
        /\ map socket_id (SocketRelay.reached r RelayDemo.ioServer)
           = ["s1"; "s2"; "s3"; "s4"]).
Proof.
  split.
  - destruct (@direct_messages_reach_the_named_recipient Demo.platform
                RelayDemo.history Demo.server RelayDemo.ioServer 7000
                "o1" "On my way" "" None (RelayDemo.socketOf "s1"))
      as (u & _ & (r & Hr & _ & Hreached) & _).
    + repeat constructor.
    + reflexivity.
    + vm_compute. left. reflexivity.
    + exists r. split; [exact Hr|]. rewrite Hreached. reflexivity.
  - destruct (@direct_messages_reach_the_named_recipient Demo.platform
                RelayDemo.history Demo.server RelayDemo.ioServer 7000
                "o1" "Avoid the underpass" "Flood" None
                (RelayDemo.socketOf "s4"))
      as (u & Hu & _ & _ & Hadmin).
    + repeat constructor.
    + reflexivity.
    + vm_compute. do 3 right. left. reflexivity.
    + vm_compute in Hu. injection Hu as <-.
      destruct (Hadmin eq_refl) as (r & Hr & Hreached).
      exists r. split; [exact Hr|]. rewrite Hreached. reflexivity.
Defined.

(** ** Sequences of requests *)

Section ApiFacts.
Context `{Platform} `{Validator}.
Import IssueModel Routes AssignRoute Api.

Lemma continues_refl i : continues i i.
Proof. repeat split. exists []. now rewrite app_nil_r. Qed.

Lemma continues_trans i1 i2 i3 :
  continues i1 i2 -> continues i2 i3 -> continues i1 i3.
Proof.
  intros (Hid & Hr & Hc & l & Hl) (Hid' & Hr' & Hc' & l' & Hl').
  repeat split; try congruence.
  exists (l ++ l'). now rewrite Hl', Hl, app_assoc.
Qed.

Lemma serve_writesOneIssue c s :
  StoreOk s ->
  writesOneIssue s (snd (serve c s))
  /\ map_Forall (fun k u => user_id u = k) (users (snd (serve c s))).
Proof.
  intros Hok. pose proof Hok as (Hkey & Hvalid & Hukey).
  destruct c as [now f req b|now f req b|now f req]; cbn [serve].
  - split; [|apply (patchStatus_StoreOk now f req b s Hok)].
    destruct (patchStatus now f req b s) as [r s'] eqn:Hrun. cbn [snd].
    apply patchStatus_inv in Hrun
      as [[-> _] | (u & i & st & nt & _ & _ & _ & Hi & _ & Hv & Hw & _)];
      [now left|right].
    eexists i, _. split; [eauto|]. split; [exact Hw|].
    split; [|split; [exact Hv|]].
    + split; [apply issue_id_written|].
      split; [apply reportedBy_written|].
      destruct (setEstimate_frame (body_estimatedResolutionTime b)
                  (updateStatus now st (user_id u) (default "" nt) i))
        as (_ & Htl & _ & Hcat & _).
      split.
      * rewrite Hcat.
        apply (frame_updateStatus now st (user_id u) (default "" nt) i).
      * rewrite Htl, timeline_updateStatus. eauto.
    + intros Hsingle v.
      rewrite (proj2 (proj2 (proj2 (proj2 (proj2 (setEstimate_frame _ _)))))).
      rewrite (proj1 (proj2 (proj2 (proj2 (proj2
                 (frame_updateStatus now st (user_id u) (default "" nt)
                    i)))))).
      apply Hsingle.
  - destruct (patchAssign now f unboundUser req b s) as [r s'] eqn:Hrun.
    cbn [snd]. apply patchAssign_inv in Hrun
      as [[-> _] | (u & i & uid & dept & _ & _ & Hi & Hw & Hu & _)];
      [split; [now left|exact Hukey]|].
    split; [right|now rewrite Hu].
    eexists i, _. split; [eauto|]. split; [exact Hw|].
    split; [|split].
    + repeat split. eexists. reflexivity.
    + rewrite schemaValid_assignIssue. exact (Hvalid _ _ Hi).
    + intros Hsingle v. apply Hsingle.
  - split; [|apply (postUpvote_StoreOk now f req s Hok)].
    unfold postUpvote, findById.
    destruct (Auth.authenticate s req) as [r|user]; [now left|].
    destruct (isObjectId (Auth.params_id req)); [|now left].
    destruct (issues s !! Auth.params_id req) as [issue|] eqn:Hissue;
      [|now left].
    unfold findIndex, saveIssue, incContributionScore.
    destruct (findIndexFrom_spec
                (fun up => String.eqb (upvote_user up) (user_id user))
                (upvotes issue) 0 ltac:(lia))
      as [[Hex ->] | (l1 & x & l2 & Hups & Hl1 & Hx & ->)].
    + change (Z.gtb (-1) (-1)) with false. cbn iota.
      destruct (userWriteFails f); [now left|].
      change (schemaValid (set_upvotes issue
                             (upvotes issue ++ [mkUpvote (user_id user) now])))
        with (schemaValid issue).
      rewrite (Hvalid _ _ Hissue). cbn [negb].
      destruct (issueWriteFails f); [now left|]. cbn [snd set_issues issues
        set_users]. right.
      eexists issue, _. split; [eauto|]. split; [reflexivity|].
      split; [|split; [exact (Hvalid _ _ Hissue)|]].
      * repeat split. exists []. now rewrite app_nil_r.
      * intros Hsingle v. cbn [upvotes set_upvotes]. unfold upvotesOf.
        rewrite List.filter_app, length_app. cbn [List.filter upvote_user].
        destruct (String.eqb (user_id user) v) eqn:Huv.
        -- apply String.eqb_eq in Huv. subst v.
           apply filter_none in Hex. rewrite Hex. cbn. lia.
        -- specialize (Hsingle v). unfold upvotesOf in Hsingle. cbn. lia.
    + replace (Z.gtb (0 + Z.of_nat (List.length l1)) (-1)) with true
        by (symmetry; apply Z.gtb_lt; lia).
      change (schemaValid (set_upvotes issue
                             (splice1 (0 + Z.of_nat (List.length l1))
                                (upvotes issue))))
        with (schemaValid issue).
      rewrite (Hvalid _ _ Hissue). cbn [negb].
      destruct (issueWriteFails f); [now left|]. cbn [snd set_issues issues].
      right. eexists issue, _. split; [eauto|]. split; [reflexivity|].
      split; [|split; [exact (Hvalid _ _ Hissue)|]].
      * repeat split. exists []. now rewrite app_nil_r.
      * intros Hsingle v. cbn [upvotes set_upvotes].
        rewrite Z.add_0_l, Hups, splice1_at. specialize (Hsingle v).
        rewrite Hups, upvotesOf_split in Hsingle. unfold upvotesOf in *.
        rewrite List.filter_app, length_app. lia.
Qed.

(** X30.  Over any sequence of status changes, assignments and upvotes,
    whatever the database refuses on the way: every stored document stays
    under its own id and valid for the schema, no issue appears or
    disappears, each issue keeps its reporter and its category, its
    timeline only grows at the end, and no user is twice among the upvotes
    of an issue. *)
Theorem requests_keep_the_store_consistent cs s :
  StoreOk s ->
  (forall k i v, issues s !! k = Some i -> (upvotesOf v (upvotes i) <= 1)%nat)
  ->
  StoreOk (serveAll cs s)
  /\ (forall k i v,
        issues (serveAll cs s) !! k = Some i ->
        (upvotesOf v (upvotes i) <= 1)%nat)
  /\ (forall k,
        match issues s !! k, issues (serveAll cs s) !! k with
        | Some i, Some i' => continues i i'
        | None, None => True
        | _, _ => False
        end).
Proof.
  revert s. induction cs as [|c cs IH]; intros s Hok Hsingle.
  - cbn [serveAll fold_left]. split; [exact Hok|]. split; [exact Hsingle|].
    intros k. destruct (issues s !! k); [apply continues_refl|exact I].
  - cbn [serveAll fold_left]. fold (serveAll cs (snd (serve c s))).
    destruct (serve_writesOneIssue c s Hok) as [Hstep Husers].
    pose proof Hok as (Hkey & Hvalid & Hukey).
    assert (StoreOk (snd (serve c s))
            /\ (forall k i v,
                  issues (snd (serve c s)) !! k = Some i ->
                  (upvotesOf v (upvotes i) <= 1)%nat)
            /\ (forall k,
                  match issues s !! k, issues (snd (serve c s)) !! k with
                  | Some i, Some i' => continues i i'
                  | None, None => True
                  | _, _ => False
                  end)) as (Hok' & Hsingle' & Hcont).
    { destruct Hstep as [Hsame | (issue & issue' & [k0 Hk0] & Hw & Hc & Hv
                                  & Hup)].
      - split; [|split].
        + unfold StoreOk. rewrite Hsame. repeat split; assumption.
        + intros k i v. rewrite Hsame. apply Hsingle.
        + intros k. rewrite Hsame.
          destruct (issues s !! k); [apply continues_refl|exact I].
      - pose proof (Hkey _ _ Hk0) as Hid. cbn beta in Hid.
        split; [|split].
        + unfold StoreOk. rewrite Hw. repeat split; [| |exact Husers].
          * intros k i. rewrite lookup_insert.
            destruct (decide (issue_id issue = k)) as [<- | Hne];
              [|apply Hkey].
            intros [= <-]. apply Hc.
          * intros k i. rewrite lookup_insert.
            destruct (decide (issue_id issue = k)) as [<- | Hne];
              [|apply Hvalid].
            now intros [= <-].
        + intros k i v. rewrite Hw, lookup_insert.
          destruct (decide (issue_id issue = k)) as [<- | Hne];
            [|apply Hsingle].
          intros [= <-]. apply Hup. intros v'. exact (Hsingle _ _ _ Hk0).
        + intros k. rewrite Hw, lookup_insert.
          destruct (decide (issue_id issue = k)) as [<- | Hne].
          * rewrite <- Hid in Hk0. rewrite Hk0. exact Hc.
          * destruct (issues s !! k); [apply continues_refl|exact I]. }
    destruct (IH _ Hok' Hsingle') as (Hok'' & Hsingle'' & Hcont'').
    split; [exact Hok''|]. split; [exact Hsingle''|].
    intros k. specialize (Hcont k). specialize (Hcont'' k).
    destruct (issues s !! k) as [i|],
             (issues (snd (serve c s)) !! k) as [i'|],
             (issues (serveAll cs (snd (serve c s))) !! k) as [i''|];
      try tauto.
    eapply continues_trans; eassumption.
Qed.

End ApiFacts.

Lemma requests_keep_the_store_consistent_witness :
  StoreOk (@Api.serveAll Demo.platform AssignDemo.validator ApiDemo.calls
             Demo.server)
  /\ (forall k i v,
        issues (@Api.serveAll Demo.platform AssignDemo.validator
                  ApiDemo.calls Demo.server) !! k = Some i ->
        (upvotesOf v (upvotes i) <= 1)%nat)
  /\ (forall k,
        match issues Demo.server !! k,
              issues (@Api.serveAll Demo.platform AssignDemo.validator
                        ApiDemo.calls Demo.server) !! k with
        | Some i, Some i' => Api.continues i i'
        | None, None => True
        | _, _ => False
        end).
Proof.
  apply (@requests_keep_the_store_consistent Demo.platform
           AssignDemo.validator ApiDemo.calls Demo.server demo_store_ok).
  intros k i v Hi.
  change (issues Demo.server)
    with ({[ "i1" := Demo.pothole ]} : gmap string Issue) in Hi.
  apply lookup_singleton_Some in Hi as [_ <-].
  unfold upvotesOf, Demo.pothole. simpl. lia.
Defined.
